(** * SSR Studio: episode orchestrator, sandbox, validator and reward engine

    A shallow embedding of the parts of [ssr_studio] that the specification's
    testable properties talk about:

    - [orchestrator.py]: [RewardCalculator], [EpisodeOrchestrator]
      ([run_episode], [_run_pipeline], [_prepare_buggy_sandbox],
      [_evaluate_attempt], [_store_solver_attempt], [_fail_episode]);
    - [sandbox.py]: [Sandbox.bash] (output caps, timeouts), [git_init],
      [git_tag];
    - [agents/solver.py]: [_reverse_diff], [_get_oracle_test_patch],
      [_tool_edit_file], the record built by [SolverAgent.run];
    - [validator.py]: the status maps of steps 2, 3 and 5.

    Modelling conventions.
    - Python [str] is [string], a sequence of characters with code points
      below 256; [dict] is a [gmap] or, where the code iterates over
      [items()], the list of its items in insertion order; [int] is [Z].
    - Python [float] is IEEE 754 binary64, taken from the Standard
      Library's [SpecFloat]: every operation rounds to nearest, ties to
      even, as CPython's does; [int] and [float] meet in [pynum].
    - [async] code runs sequentially inside one episode, so it is written in a
      state-and-exception monad [M]: a computation takes the world, returns a
      value or raises, and leaves a world behind (state changes made before a
      [raise] stay, as they do in Python).
    - Clock readings ([duration_ms], timestamps) and log lines are dropped. *)

From Stdlib Require Import ZArith QArith String Ascii List Bool Lia DecimalString.
From Stdlib Require Import Floats.SpecFloat.
From stdpp Require Import base option list strings gmap.

Local Open Scope Z_scope.
Set Warnings "-register-all".

(** ** Python string primitives used by the code *)

Module PyStr.

Definition nl : ascii := "010"%char.
Definition NL : string := String nl EmptyString.

(** [s.startswith(p)] *)
Definition startswith (s p : string) : bool := String.prefix p s.

(** [needle in hay] for two [str]s: some suffix of [hay] starts with
    [needle]. *)
Fixpoint contains (needle hay : string) : bool :=
  String.prefix needle hay ||
  match hay with
  | EmptyString => false
  | String _ hay' => contains needle hay'
  end.

(** [s.split(sep)] for a one-character separator: never the empty list. *)
Fixpoint split (sep : ascii) (s : string) : list string :=
  match s with
  | EmptyString => [EmptyString]
  | String c s' =>
      if Ascii.eqb c sep then EmptyString :: split sep s'
      else match split sep s' with
           | [] => [String c EmptyString]
           | h :: t => String c h :: t
           end
  end.

(** [sep.join(parts)] *)
Fixpoint join (sep : string) (parts : list string) : string :=
  match parts with
  | [] => EmptyString
  | [p] => p
  | p :: rest => p +:+ sep +:+ join sep rest
  end.

(** [s.replace(old, new)] for a non-empty [old]: every non-overlapping
    occurrence, scanning from the left.  [skip] counts the characters of an
    occurrence that was just replaced and is still to be dropped. *)
Fixpoint replace_from (skip : nat) (old new s : string) : string :=
  match s with
  | EmptyString => EmptyString
  | String c s' =>
      match skip with
      | S k => replace_from k old new s'
      | O =>
          if String.prefix old s
          then new +:+ replace_from (Nat.pred (String.length old)) old new s'
          else String c (replace_from O old new s')
      end
  end.

Definition replace (s old new : string) : string :=
  match old with
  | EmptyString => s
  | _ => replace_from O old new s
  end.

(** [s[1:]] *)
Definition tail (s : string) : string :=
  match s with
  | EmptyString => EmptyString
  | String _ s' => s'
  end.

(** [str.isspace] on the characters of a [string], the code points below
    256: tab, LF, VT, FF, CR, FS, GS, RS, US, space, NEL (U+0085) and the
    no-break space (U+00A0). *)
Definition isspace (c : ascii) : bool :=
  let n := nat_of_ascii c in
  ((9 <=? n)%nat && (n <=? 13)%nat) || ((28 <=? n)%nat && (n <=? 32)%nat)
  || (n =? 133)%nat || (n =? 160)%nat.

Fixpoint lstrip (s : string) : string :=
  match s with
  | EmptyString => EmptyString
  | String c s' => if isspace c then lstrip s' else s
  end.

Fixpoint rstrip (s : string) : string :=
  match s with
  | EmptyString => EmptyString
  | String c s' =>
      match rstrip s' with
      | EmptyString => if isspace c then EmptyString else String c EmptyString
      | r => String c r
      end
  end.

(** [s.strip()] *)
Definition strip (s : string) : string := rstrip (lstrip s).

(** [s[:n]] for [0 <= n] *)
Fixpoint take (n : nat) (s : string) : string :=
  match n, s with
  | S k, String c s' => String c (take k s')
  | _, _ => EmptyString
  end.

End PyStr.

(** ** Python numbers

    A Python [float] is an IEEE 754 binary64 number: a signed zero, a
    signed infinity, a NaN, or [(-1)^s * m * 2^e].  [SpecFloat] gives these
    numbers and their operations, each the exact result rounded to nearest
    with ties to even, for a precision of 53 bits and exponents below
    1024. *)

Module PyFloat.

Definition prec : Z := 53.
Definition emax : Z := 1024.

Definition float : Type := spec_float.

(** [x + y], [x - y], [x * y], [-x]; [x / y] for a [y] other than zero. *)
Definition add : float -> float -> float := SFadd prec emax.
Definition sub : float -> float -> float := SFsub prec emax.
Definition mul : float -> float -> float := SFmul prec emax.
Definition div : float -> float -> float := SFdiv prec emax.
Definition neg : float -> float := SFopp.

(** [x == y], [x < y], [x <= y] *)
Definition eqb : float -> float -> bool := SFeqb.
Definition ltb : float -> float -> bool := SFltb.
Definition leb : float -> float -> bool := SFleb.

(** [float(n)] for an [int] [n]: the float nearest to [n]. *)
Definition of_int (n : Z) : float := binary_normalize prec emax n 0 false.

(** An [int] as it stands, before any rounding. *)
Definition raw (n : Z) : float :=
  match n with
  | Z0 => S754_zero false
  | Zpos m => S754_finite false m 0
  | Zneg m => S754_finite true m 0
  end.

(** The float nearest to [a / b], for [b] other than zero: what [a / b]
    is for two [int]s, and what a decimal literal denotes ([0.8] is
    [ratio 8 10]). *)
Definition ratio (a b : Z) : float := SFdiv prec emax (raw a) (raw b).

Definition is_infinite (x : float) : bool :=
  match x with
  | S754_infinity _ => true
  | _ => false
  end.

(** [0.0], [1.0] and [0.1] *)
Definition zero : float := S754_zero false.
Definition one : float := S754_finite false 4503599627370496 (-52).
Definition tenth : float := S754_finite false 7205759403792794 (-56).

(** [0.09999999999999998], the second float below [0.1]. *)
Definition below_tenth : float := S754_finite false 7205759403792792 (-56).

End PyFloat.

(** A Python number: an [int] or a [float]. *)
Inductive pynum : Type :=
| PInt (n : Z)
| PFloat (x : PyFloat.float).

(** [sum(values)] for a list of floats, added from the left starting from
    the [int] 0, which is also the sum of the empty list.  (CPython 3.12
    adds a compensation term; it is zero whenever the partial sums are
    exact.) *)
Definition py_sum (values : list PyFloat.float) : pynum :=
  match values with
  | [] => PInt 0
  | _ :: _ => PFloat (fold_left PyFloat.add values PyFloat.zero)
  end.

(** ** Reward engine ([orchestrator.py], class [RewardCalculator]) *)

Module RewardCalculator.

(** [EpisodeConfig.reward_alpha] and [RewardCalculator.__init__]'s default,
    [0.8]. *)
Definition default_alpha : PyFloat.float := PyFloat.ratio 8 10.

(** [compute_injector_reward(self, valid, solve_rate)] with [self.alpha]
    as first argument. *)
Definition compute_injector_reward (alpha : PyFloat.float) (valid : bool)
    (solve_rate : PyFloat.float) : PyFloat.float :=
  if negb valid then PyFloat.neg PyFloat.one
  else if PyFloat.eqb solve_rate PyFloat.zero || PyFloat.eqb solve_rate PyFloat.one
       then PyFloat.neg alpha
  else PyFloat.sub PyFloat.one
         (PyFloat.mul (PyFloat.add PyFloat.one alpha) solve_rate).

(** [compute_solver_reward(self, success)] *)
Definition compute_solver_reward (success : bool) : PyFloat.float :=
  if success then PyFloat.one else PyFloat.neg PyFloat.one.

End RewardCalculator.

(** ** Computations that may raise

    [M W A] is a Python computation over a world [W]: it returns a value or
    raises an [Exception] (kept as the text of the exception), and in both
    cases leaves a world behind. *)

Inductive outcome (A : Type) : Type :=
| Return (a : A)
| Raise (e : string).
Arguments Return {A} a.
Arguments Raise {A} e.

Definition M (W A : Type) : Type := W -> outcome A * W.

Definition ret {W A} (a : A) : M W A := fun w => (Return a, w).

Definition bind {W A B} (m : M W A) (k : A -> M W B) : M W B :=
  fun w =>
    match m w with
    | (Return a, w') => k a w'
    | (Raise e, w') => (Raise e, w')
    end.

(** [raise Exc(msg)] *)
Definition raise {W A} (e : string) : M W A := fun w => (Raise e, w).

(** [try: body  except Exception as e: handler(e)] *)
Definition try_except {W A} (body : M W A) (handler : string -> M W A) : M W A :=
  fun w =>
    match body w with
    | (Return a, w') => (Return a, w')
    | (Raise e, w') => handler e w'
    end.

(** [for x in xs: body(x)] *)
Fixpoint for_each {W A} (xs : list A) (body : A -> M W unit) : M W unit :=
  match xs with
  | [] => ret tt
  | x :: rest => bind (body x) (fun _ => for_each rest body)
  end.

#[global] Instance M_ret {W} : MRet (M W) := fun A a => ret a.
#[global] Instance M_bind {W} : MBind (M W) := fun A B k m => bind m k.

(** [str(n)] for an [int] *)
Definition str_of_int (n : Z) : string :=
  NilZero.string_of_int (Z.to_int n).

(** ** Sandbox ([sandbox.py]) *)

(** [BashResult] ([duration_ms] dropped). *)
Record BashResult : Type := mkBashResult {
  exit_code : Z;
  stdout : string;
  stderr : string;
  truncated : bool;
  timeout : bool;
}.

(** [EditOperation] and [EditResult]; [args] maps argument names to values. *)
Inductive pyval : Type :=
| VStr (s : string)
| VInt (n : Z).

Record EditOperation : Type := mkEditOperation {
  op_type : pyval;
  op_file_path : string;
  op_args : gmap string pyval;
}.

Record EditResult : Type := mkEditResult {
  er_success : bool;
  er_file_path : string;
  er_error : option string;
  er_lines_changed : Z;
}.

Module Sandbox.

(** [settings.sandbox_bash_timeout] *)
Definition sandbox_bash_timeout : Z := 300.

(** What awaiting [asyncio.wait_for(asyncio.to_thread(exec_run, ...), timeout)]
    can do: the command finishes (exit code and the two decoded streams),
    the wait times out, or another exception is raised. *)
Inductive exec_outcome : Type :=
| Completed (code : Z) (out err : string)
| TimedOut
| Failed (msg : string).

(** [max_size = 50000  # 50KB per stream] *)
Definition max_size : Z := 50000.

Definition truncation_marker : string := PyStr.NL +:+ "... [truncated]".

(** The two [if len(...) > max_size:] blocks, for one stream. *)
Definition cap_stream (s : string) : string * bool :=
  if max_size <? Z.of_nat (String.length s)
  then (PyStr.take (Z.to_nat max_size) s +:+ truncation_marker, true)
  else (s, false).

(** [timeout = timeout or settings.sandbox_bash_timeout] *)
Definition effective_timeout (t : option Z) : Z :=
  match t with
  | Some n => if n =? 0 then sandbox_bash_timeout else n
  | None => sandbox_bash_timeout
  end.

(** [Sandbox.bash], as a function of whether the sandbox is started
    ([self._started and self._container]) and of what the container did. *)
Definition bash (started : bool) (t : option Z) (o : exec_outcome) : outcome BashResult :=
  if negb started then Raise "Sandbox not started"
  else
    match o with
    | Completed code out err =>
        let (out', t1) := cap_stream out in
        let (err', t2) := cap_stream err in
        Return {| exit_code := code; stdout := out'; stderr := err';
                  truncated := t1 || t2; timeout := false |}
    | TimedOut =>
        Return {| exit_code := -1; stdout := "";
                  stderr := "Command timed out after "
                            +:+ str_of_int (effective_timeout t) +:+ "s";
                  truncated := false; timeout := true |}
    | Failed msg =>
        Return {| exit_code := -1; stdout := "";
                  stderr := "Execution error: " +:+ msg;
                  truncated := false; timeout := false |}
    end.

End Sandbox.

(** What the orchestrator and the validator use of a [Sandbox] object:
    [sandbox.bash(command, timeout=...)] and
    [sandbox.write_file(path, content)].  Each may change the world and may
    raise. *)
Class SandboxAPI (W : Type) : Type := {
  sandbox_bash : string -> option Z -> M W BashResult;
  sandbox_write_file : string -> string -> M W unit;
}.

(** [sandbox.edit(operations)], used by the agents' [edit_file] tool. *)
Class SandboxEditAPI (W : Type) : Type :=
  sandbox_edit : list EditOperation -> M W (list EditResult).

(** [Sandbox.git_init] *)
Definition git_init {W} `{SandboxAPI W} : M W unit :=
  _ ← sandbox_bash "rm -rf .git" None;
  _ ← sandbox_bash "git init" None;
  _ ← sandbox_bash "git config user.email 'ssr@studio.local'" None;
  _ ← sandbox_bash "git config user.name 'SSR Studio'" None;
  mret tt.

(** [Sandbox.git_tag] *)
Definition git_tag {W} `{SandboxAPI W} (tag_name : string) : M W unit :=
  _ ← sandbox_bash "git add -A" None;
  _ ← sandbox_bash "git commit -m 'SSR checkpoint' --allow-empty" None;
  _ ← sandbox_bash ("git tag " +:+ tag_name) None;
  mret tt.

(** ** Data model ([models.py]) *)

Module TestStatus.
Inductive t : Type := PASSED | FAILED | SKIPPED | ERROR.

Definition value (s : t) : string :=
  match s with
  | PASSED => "passed" | FAILED => "failed"
  | SKIPPED => "skipped" | ERROR => "error"
  end.

(** [TestStatus(v)] for a string [v]; [None] where Python raises
    [ValueError]. *)
Definition of_value (v : string) : option t :=
  if String.eqb v "passed" then Some PASSED
  else if String.eqb v "failed" then Some FAILED
  else if String.eqb v "skipped" then Some SKIPPED
  else if String.eqb v "error" then Some ERROR
  else None.
End TestStatus.

Module EpisodeStatus.
Inductive t : Type :=
| PENDING | INJECTING | VALIDATING | SOLVING | EVALUATING
| COMPLETE | FAILED | CANCELLED.
End EpisodeStatus.

(** Values [json.loads] returns; an object is the list of its items. *)
Inductive json : Type :=
| JNull
| JBool (b : bool)
| JNum (repr : string)
| JStr (s : string)
| JArr (items : list json)
| JObj (items : list (string * json)).

(** What [json.loads] does with a text: it returns the decoded value,
    raises [json.JSONDecodeError], or raises another exception (a
    [RecursionError] on deeply nested input, for one), kept as its text. *)
Inductive loads_result : Type :=
| Decoded (v : json)
| JSONDecodeError
| OtherError (e : string).

Class Json : Type := json_loads : string -> loads_result.

(** [v == "passed"] and the like, for a decoded value [v]. *)
Definition json_is_str (v : json) (s : string) : bool :=
  match v with
  | JStr s' => String.eqb s' s
  | _ => false
  end.

Record ArtifactMetadata : Type := mkArtifactMetadata {
  artifact_id : string;
  min_passing_tests : Z;
  min_changed_files : Z;
  min_failing_tests : Z;
  max_test_runtime_sec : Z;
}.

Record BugArtifact : Type := mkBugArtifact {
  metadata : ArtifactMetadata;
  test_script : string;
  test_files : list string;
  test_parser : string;
  bug_inject_diff : string;
  test_weaken_diff : string;
}.

Record ValidationStepResult : Type := mkValidationStepResult {
  step_name : string;
  step_passed : bool;
}.

Record ValidationReport : Type := mkValidationReport {
  vr_artifact_id : string;
  valid : bool;
  steps : list ValidationStepResult;
}.

Record ToolCall : Type := mkToolCall {
  tool_name : string;
  tool_output : string;
}.

Record SolverAttempt : Type := mkSolverAttempt {
  attempt_id : string;
  sa_artifact_id : string;
  attempt_number : Z;
  oracle_test_patch : string;
  pred_patch : option string;
  success : bool;
  test_summary : list (string * Z);
  tool_calls : list ToolCall;
  total_tool_steps : Z;
  total_tokens_used : Z;
}.

Record EvaluationReport : Type := mkEvaluationReport {
  ev_attempt_id : string;
  ev_success : bool;
  tests_passed : Z;
  tests_failed : Z;
  tests_total : Z;
  per_test_status : list (string * TestStatus.t);
  test_files_restored : list string;
}.

Record EpisodeConfig : Type := mkEpisodeConfig {
  cfg_min_passing_tests : Z;
  cfg_min_changed_files : Z;
  cfg_min_failing_tests : Z;
  cfg_max_test_runtime_sec : Z;
  solver_attempts : Z;
  reward_alpha : PyFloat.float;
}.

(** [EpisodeConfig()] *)
Definition default_config : EpisodeConfig :=
  {| cfg_min_passing_tests := 10; cfg_min_changed_files := 1;
     cfg_min_failing_tests := 1; cfg_max_test_runtime_sec := 90;
     solver_attempts := 4; reward_alpha := RewardCalculator.default_alpha |}.

(** Truth value of a [str | None]. *)
Definition truthy (s : option string) : bool :=
  match s with
  | Some (String _ _) => true
  | _ => false
  end.

(** ** Solver runtime ([agents/solver.py]) *)

Module SolverAgent.

(** The body of the [for line in diff.split('\n')] loop of
    [_reverse_diff]: what is appended to [lines] for one [line]. *)
Definition reverse_line (line : string) : string :=
  if PyStr.startswith line "---" then
    PyStr.replace (PyStr.replace line "--- a/" "--- b/") "--- b/" "--- a/"
  else if PyStr.startswith line "+++" then
    PyStr.replace (PyStr.replace line "+++ b/" "+++ a/") "+++ a/" "+++ b/"
  else if PyStr.startswith line "+" && negb (PyStr.startswith line "+++") then
    "-" +:+ PyStr.tail line
  else if PyStr.startswith line "-" && negb (PyStr.startswith line "---") then
    "+" +:+ PyStr.tail line
  else line.

(** [_reverse_diff(self, diff)] *)
Definition _reverse_diff (diff : string) : string :=
  PyStr.join PyStr.NL (map reverse_line (PyStr.split PyStr.nl diff)).

(** [_get_oracle_test_patch(self)] *)
Definition _get_oracle_test_patch (artifact : BugArtifact) : string :=
  _reverse_diff (test_weaken_diff artifact).

(** [args.get(key, default)] *)
Definition args_get (args : gmap string pyval) (key : string) (dflt : pyval) : pyval :=
  default dflt (args !! key).

(** [operation == name] *)
Definition op_is (operation : pyval) (name : string) : bool :=
  match operation with
  | VStr s => String.eqb s name
  | VInt _ => false
  end.

(** The [op_args] dictionary built by the [if operation == ...] chain of
    [_tool_edit_file]. *)
Definition build_op_args (operation : pyval) (args : gmap string pyval) : gmap string pyval :=
  if op_is operation "replace" then
    {[ "content" := args_get args "content" (VStr "") ]}
  else if op_is operation "search_replace" then
    <[ "new_text" := args_get args "new_text" (VStr "") ]>
      {[ "old_text" := args_get args "old_text" (VStr "") ]}
  else if op_is operation "insert" then
    <[ "text" := args_get args "text" (VStr "") ]>
      {[ "line" := args_get args "line" (VInt 1) ]}
  else if op_is operation "delete" then
    <[ "end_line" := args_get args "end_line" (args_get args "start_line" (VInt 1)) ]>
      {[ "start_line" := args_get args "start_line" (VInt 1) ]}
  else if op_is operation "apply_diff" then
    {[ "diff" := args_get args "diff" (VStr "") ]}
  else ∅.

Definition refusal : string :=
  "Error: Cannot edit test files. Only source code can be modified.".

(** [any(test_file in file_path for test_file in self.artifact.test_files)] *)
Definition touches_test_file (artifact : BugArtifact) (file_path : string) : bool :=
  existsb (fun test_file => PyStr.contains test_file file_path) (test_files artifact).

(** [_tool_edit_file(self, args)].  [file_path] is a string by the tool's
    schema; for another type Python raises before any edit ([TypeError] in
    the guard, [AttributeError] in [Sandbox.edit]). *)
Definition _tool_edit_file {W} `{SandboxEditAPI W}
    (artifact : BugArtifact) (args : gmap string pyval) : M W string :=
  match args_get args "file_path" (VStr "") with
  | VStr file_path =>
      let operation := args_get args "operation" (VStr "replace") in
      if touches_test_file artifact file_path then mret refusal
      else
        let op_args := build_op_args operation args in
        let edit_op := {| op_type := operation; op_file_path := file_path;
                          op_args := op_args |} in
        results ← sandbox_edit [edit_op];
        match results with
        | r :: _ =>
            if er_success r then mret ("Successfully edited " +:+ file_path)
            else mret ("Edit failed: " +:+ default "None" (er_error r))
        | [] => mret "Edit failed: Unknown error"
        end
  | VInt _ => raise "TypeError"
  end.

(** What the tool loop of [run] leaves in [self]: the id the attempt gets,
    [_pred_patch], [_total_tokens], [_tool_calls]. *)
Record loop_result : Type := mkLoopResult {
  lr_attempt_id : string;
  lr_pred_patch : option string;
  lr_total_tokens : Z;
  lr_tool_calls : list ToolCall;
}.

(** The [SolverAttempt(...)] that [run] returns. *)
Definition build_attempt (artifact : BugArtifact) (attempt_number : Z)
    (r : loop_result) : SolverAttempt :=
  {| attempt_id := lr_attempt_id r;
     sa_artifact_id := artifact_id (metadata artifact);
     attempt_number := attempt_number;
     oracle_test_patch := _get_oracle_test_patch artifact;
     pred_patch := lr_pred_patch r;
     success := false;
     test_summary := [("passed", 0); ("failed", 0); ("skipped", 0); ("error", 0)];
     tool_calls := lr_tool_calls r;
     total_tool_steps := Z.of_nat (length (lr_tool_calls r));
     total_tokens_used := lr_total_tokens r |}.

End SolverAgent.

(** The harness command line shared by validator, evaluator and solver. *)
Definition harness_command : string :=
  "bash test_script.sh 2>&1 | python test_parser.py".

(** ** Consistency validator ([validator.py]), steps 2, 3 and 5 *)

Module Validator.

(** The fields of [ValidationContext] these steps read and write. *)
Record ValidationContext : Type := mkValidationContext {
  test_mapping : option (list (string * TestStatus.t));
  bug_test_mapping : option (list (string * TestStatus.t));
}.

(** [TestStatus(v) if v in TestStatus.__members__.values() else dflt] *)
Definition status_or (dflt : TestStatus.t) (v : json) : TestStatus.t :=
  match v with
  | JStr s => default dflt (TestStatus.of_value s)
  | _ => dflt
  end.

(** [{k: ... for k, v in mapping.items()}] *)
Definition map_statuses (dflt : TestStatus.t) (items : list (string * json))
    : list (string * TestStatus.t) :=
  map (fun kv => (kv.1, status_or dflt kv.2)) items.

Definition status_eqb (a b : TestStatus.t) : bool :=
  String.eqb (TestStatus.value a) (TestStatus.value b).

Definition step (name : string) (passed : bool) : ValidationStepResult :=
  {| step_name := name; step_passed := passed |}.

(** [_validate_parser(self, ctx)].  Returns the step result and the
    context it leaves. *)
Definition _validate_parser {W} `{SandboxAPI W} `{Json}
    (artifact : BugArtifact) (ctx : ValidationContext)
    : M W (ValidationStepResult * ValidationContext) :=
  let name := "parser_validity" in
  try_except
    (_ ← sandbox_write_file "test_script.sh" (test_script artifact);
     _ ← sandbox_write_file "test_parser.py" (test_parser artifact);
     _ ← sandbox_bash "chmod +x test_script.sh" None;
     result ← sandbox_bash harness_command
                (Some (max_test_runtime_sec (metadata artifact)));
     if timeout result then mret (step name false, ctx)
     else if negb (exit_code result =? 0) then mret (step name false, ctx)
     else
       match json_loads (PyStr.strip (stdout result)) with
       | JSONDecodeError => mret (step name false, ctx)
       | OtherError e => raise e
       | Decoded (JObj items) =>
           mret (step name true,
                 {| test_mapping := Some (map_statuses TestStatus.PASSED items);
                    bug_test_mapping := bug_test_mapping ctx |})
       | Decoded _ => raise "Parser output must be a JSON object"
       end)
    (fun _ => mret (step name false, ctx)).

(** [_validate_original_tests(self, ctx)] *)
Definition _validate_original_tests (artifact : BugArtifact)
    (ctx : ValidationContext) : ValidationStepResult :=
  let name := "original_tests_pass" in
  match test_mapping ctx with
  | None | Some [] => step name false
  | Some mapping =>
      let failed_tests :=
        filter (fun kv => negb (status_eqb kv.2 TestStatus.PASSED)) mapping in
      match failed_tests with
      | _ :: _ => step name false
      | [] =>
          let passing_count := Z.of_nat (length mapping) in
          if passing_count <? min_passing_tests (metadata artifact)
          then step name false
          else step name true
      end
  end.

(** The list [failing_tests] of [_validate_bug_validity] and of
    [_validate_inverse_mutation]. *)
Definition failing_tests (mapping : list (string * TestStatus.t)) : list string :=
  map fst (filter (fun kv => status_eqb kv.2 TestStatus.FAILED) mapping).

(** [_validate_bug_validity(self, ctx)] *)
Definition _validate_bug_validity {W} `{SandboxAPI W} `{Json}
    (artifact : BugArtifact) (ctx : ValidationContext)
    : M W (ValidationStepResult * ValidationContext) :=
  let name := "bug_validity" in
  try_except
    (_ ← sandbox_write_file "bug_inject.diff" (bug_inject_diff artifact);
     result ← sandbox_bash "patch -p1 < bug_inject.diff" None;
     if negb (exit_code result =? 0) then mret (step name false, ctx)
     else
       test_result ← sandbox_bash harness_command
                       (Some (max_test_runtime_sec (metadata artifact)));
       if timeout test_result then mret (step name false, ctx)
       else
         match json_loads (PyStr.strip (stdout test_result)) with
         | JSONDecodeError => mret (step name false, ctx)
         | OtherError e => raise e
         | Decoded (JObj items) =>
             let bug_mapping := map_statuses TestStatus.FAILED items in
             let ctx' := {| test_mapping := test_mapping ctx;
                            bug_test_mapping := Some bug_mapping |} in
             if Z.of_nat (length (failing_tests bug_mapping))
                <? min_failing_tests (metadata artifact)
             then mret (step name false, ctx')
             else mret (step name true, ctx')
         | Decoded _ => raise "AttributeError: no attribute 'items'"
         end)
    (fun _ => mret (step name false, ctx)).

End Validator.

(** ** Episode orchestrator ([orchestrator.py]) *)

(** [range(lo, hi)] *)
Definition py_range (lo hi : Z) : list Z :=
  map (fun i => lo + Z.of_nat i) (seq 0 (Z.to_nat (hi - lo))).

(** [float(x)] as [/] applies it to an operand: an [int] too large for a
    float is an [OverflowError]. *)
Definition py_float (x : pynum) : outcome PyFloat.float :=
  match x with
  | PFloat x => Return x
  | PInt n =>
      if PyFloat.is_infinite (PyFloat.of_int n)
      then Raise "int too large to convert to float"
      else Return (PyFloat.of_int n)
  end.

(** What [a / b] returns or raises.  Two [int]s give the float nearest to
    the quotient; otherwise both operands become floats first.  A zero
    divisor is a [ZeroDivisionError], whose [str] is the text kept here. *)
Definition truediv (a b : pynum) : outcome PyFloat.float :=
  match a, b with
  | PInt a, PInt b =>
      if b =? 0 then Raise "division by zero"
      else if PyFloat.is_infinite (PyFloat.ratio a b)
           then Raise "integer division result too large for a float"
           else Return (PyFloat.ratio a b)
  | _, _ =>
      match py_float a with
      | Raise e => Raise e
      | Return x =>
          match py_float b with
          | Raise e => Raise e
          | Return y =>
              if PyFloat.eqb y PyFloat.zero then Raise "float division by zero"
              else Return (PyFloat.div x y)
          end
      end
  end.

(** [a / b] *)
Definition py_truediv {W} (a b : pynum) : M W PyFloat.float :=
  fun w => (truediv a b, w).

Module EpisodeOrchestrator.

(** The [EpisodeDB] object the pipeline mutates.  The foreign keys
    [artifact_id] and [validation_report_id] are kept as the records they
    point to. *)
Record EpisodeDB : Type := mkEpisodeDB {
  status : EpisodeStatus.t;
  error_message : option string;
  config : EpisodeConfig;
  container_image_digest : option string;
  artifact : option BugArtifact;
  validation_report : option ValidationReport;
  solve_rate : option PyFloat.float;
  r_inject : option PyFloat.float;
  r_solve_avg : option PyFloat.float;
}.

(** [EpisodeDB(env_id=..., config=..., status=PENDING)] ([api.py],
    [cli.py]). *)
Definition new_episode (cfg : EpisodeConfig) : EpisodeDB :=
  {| status := EpisodeStatus.PENDING; error_message := None; config := cfg;
     container_image_digest := None; artifact := None;
     validation_report := None; solve_rate := None; r_inject := None;
     r_solve_avg := None |}.

Definition set_status (v : EpisodeStatus.t) (e : EpisodeDB) : EpisodeDB :=
  mkEpisodeDB v (error_message e) (config e) (container_image_digest e)
    (artifact e) (validation_report e) (solve_rate e) (r_inject e) (r_solve_avg e).
Definition set_error_message (v : option string) (e : EpisodeDB) : EpisodeDB :=
  mkEpisodeDB (status e) v (config e) (container_image_digest e)
    (artifact e) (validation_report e) (solve_rate e) (r_inject e) (r_solve_avg e).
Definition set_container_image_digest (v : option string) (e : EpisodeDB) : EpisodeDB :=
  mkEpisodeDB (status e) (error_message e) (config e) v
    (artifact e) (validation_report e) (solve_rate e) (r_inject e) (r_solve_avg e).
Definition set_artifact (v : option BugArtifact) (e : EpisodeDB) : EpisodeDB :=
  mkEpisodeDB (status e) (error_message e) (config e) (container_image_digest e)
    v (validation_report e) (solve_rate e) (r_inject e) (r_solve_avg e).
Definition set_validation_report (v : option ValidationReport) (e : EpisodeDB) : EpisodeDB :=
  mkEpisodeDB (status e) (error_message e) (config e) (container_image_digest e)
    (artifact e) v (solve_rate e) (r_inject e) (r_solve_avg e).
Definition set_solve_rate (v : option PyFloat.float) (e : EpisodeDB) : EpisodeDB :=
  mkEpisodeDB (status e) (error_message e) (config e) (container_image_digest e)
    (artifact e) (validation_report e) v (r_inject e) (r_solve_avg e).
Definition set_r_inject (v : option PyFloat.float) (e : EpisodeDB) : EpisodeDB :=
  mkEpisodeDB (status e) (error_message e) (config e) (container_image_digest e)
    (artifact e) (validation_report e) (solve_rate e) v (r_solve_avg e).
Definition set_r_solve_avg (v : option PyFloat.float) (e : EpisodeDB) : EpisodeDB :=
  mkEpisodeDB (status e) (error_message e) (config e) (container_image_digest e)
    (artifact e) (validation_report e) (solve_rate e) (r_inject e) v.

(** A row of [solver_attempts] ([SolverAttemptDB]). *)
Record SolverAttemptDB : Type := mkSolverAttemptDB {
  row_attempt_id : string;
  row_artifact_id : string;
  row_attempt_number : Z;
  row_success : bool;
  row_test_summary : list (string * Z);
  row_total_tool_steps : Z;
  row_total_tokens_used : Z;
  row_pred_patch_ref : option string;
  row_tool_trace_ref : string;
}.

(** The collaborators of the orchestrator that are outside the core: the
    container life cycle, the two agents' model loops, the validator, the
    object store and the database session.  Each is any computation over
    the world. *)
Class Collaborators (W : Type) : Type := {
  sandbox_start : M W unit;
  sandbox_stop : W -> W;
  sandbox_get_image_digest : M W (option string);
  injector_run : EpisodeConfig -> M W (option BugArtifact);
  validator_validate : BugArtifact -> M W ValidationReport;
  solver_tool_loop : BugArtifact -> Z -> M W SolverAgent.loop_result;
  store_artifact : BugArtifact -> M W unit;
  store_validation_report : ValidationReport -> M W unit;
  storage_write : string -> string -> M W string;
  storage_write_trace : string -> list ToolCall -> M W string;
  db_commit : M W unit;
  db_refresh : M W unit;
  db_select_episode : M W bool;
  episode_has_environment : M W bool;
}.

(** The pipeline's state: the world, the episode object and the rows added
    to [solver_attempts] for this episode. *)
Record state (W : Type) : Type := mkState {
  world : W;
  episode : EpisodeDB;
  attempts_table : list SolverAttemptDB;
}.
Arguments mkState {W} _ _ _.
Arguments world {W} _.
Arguments episode {W} _.
Arguments attempts_table {W} _.

Section Pipeline.
Context {W : Type} `{SandboxAPI W} `{Json} `{Collaborators W}.

(** A computation over the world, run inside the pipeline. *)
Definition lift {A} (m : M W A) : M (state W) A :=
  fun s =>
    let (o, w') := m (world s) in
    (o, mkState w' (episode s) (attempts_table s)).

(** [episode.field = value] *)
Definition update (f : EpisodeDB -> EpisodeDB) : M (state W) unit :=
  fun s => (Return tt, mkState (world s) (f (episode s)) (attempts_table s)).

Definition get_episode : M (state W) EpisodeDB :=
  fun s => (Return (episode s), s).

(** [self.db.add(attempt_db)] *)
Definition db_add_attempt (row : SolverAttemptDB) : M (state W) unit :=
  fun s => (Return tt, mkState (world s) (episode s) (attempts_table s ++ [row])).

(** [async with Sandbox(...) as sandbox: body]: [stop] runs on the way
    out, also when [body] raises. *)
Definition stop_after {A} (body : M (state W) A) : M (state W) A :=
  fun s =>
    let (o, s') := body s in
    (o, mkState (sandbox_stop (world s')) (episode s') (attempts_table s')).

Definition with_sandbox {A} (body : M (state W) A) : M (state W) A :=
  _ ← lift sandbox_start;
  stop_after body.

(** [_fail_episode(self, episode, error_message)] *)
Definition _fail_episode (msg : string) : M (state W) unit :=
  _ ← update (set_status EpisodeStatus.FAILED);
  _ ← update (set_error_message (Some msg));
  lift db_commit.

(** [_prepare_buggy_sandbox(self, sandbox, artifact)] *)
Definition _prepare_buggy_sandbox (artifact : BugArtifact) : M W unit :=
  _ ← sandbox_bash "git checkout ssr-original -- ." None;
  _ ← sandbox_write_file "bug_inject.diff" (bug_inject_diff artifact);
  _ ← sandbox_bash "patch -p1 < bug_inject.diff" None;
  _ ← sandbox_write_file "test_weaken.diff" (test_weaken_diff artifact);
  _ ← sandbox_bash "patch -p1 < test_weaken.diff" None;
  _ ← sandbox_write_file "test_script.sh" (test_script artifact);
  _ ← sandbox_write_file "test_parser.py" (test_parser artifact);
  _ ← sandbox_write_file "test_files.txt" (PyStr.join PyStr.NL (test_files artifact));
  _ ← sandbox_bash "chmod +x test_script.sh" None;
  _ ← git_init;
  git_tag "ssr-buggy".

(** [EvaluationReport(attempt_id=..., success=False, duration_ms=...)] *)
Definition failed_report (attempt : SolverAttempt) : EvaluationReport :=
  {| ev_attempt_id := attempt_id attempt; ev_success := false;
     tests_passed := 0; tests_failed := 0; tests_total := 0;
     per_test_status := []; test_files_restored := [] |}.

(** The report built from a decoded [test_mapping]. *)
Definition report_of_mapping (artifact : BugArtifact) (attempt : SolverAttempt)
    (test_mapping : list (string * json)) : EvaluationReport :=
  let passed :=
    Z.of_nat (length (filter (fun kv => json_is_str kv.2 "passed") test_mapping)) in
  let failed :=
    Z.of_nat (length (filter (fun kv => negb (json_is_str kv.2 "passed")) test_mapping)) in
  {| ev_attempt_id := attempt_id attempt;
     ev_success := failed =? 0;
     tests_passed := passed;
     tests_failed := failed;
     tests_total := Z.of_nat (length test_mapping);
     per_test_status :=
       map (fun kv =>
              (kv.1,
               if json_is_str kv.2 "passed" then TestStatus.PASSED
               else if json_is_str kv.2 "failed" then TestStatus.FAILED
               else TestStatus.ERROR)) test_mapping;
     test_files_restored := test_files artifact |}.

(** The [try:] block of [_evaluate_attempt]. *)
Definition evaluate_body (artifact : BugArtifact) (attempt : SolverAttempt)
    : M W EvaluationReport :=
  _ ← sandbox_bash "git checkout ssr-buggy -- ." None;
  early ← (if truthy (pred_patch attempt) then
             _ ← sandbox_write_file "pred_patch.diff" (default "" (pred_patch attempt));
             result ← sandbox_bash "patch -p1 < pred_patch.diff" None;
             if negb (exit_code result =? 0)
             then mret (Some (failed_report attempt))
             else mret None
           else mret None);
  match early with
  | Some report => mret report
  | None =>
      _ ← for_each (test_files artifact)
            (fun test_file =>
               _ ← sandbox_bash ("git checkout ssr-original -- " +:+ test_file) None;
               mret tt);
      test_result ← sandbox_bash harness_command
                      (Some (max_test_runtime_sec (metadata artifact) + 30));
      match json_loads (PyStr.strip (stdout test_result)) with
      | JSONDecodeError => mret (failed_report attempt)
      | OtherError e => raise e
      | Decoded (JObj test_mapping) =>
          mret (report_of_mapping artifact attempt test_mapping)
      | Decoded _ => raise "AttributeError: no attribute 'values'"
      end
  end.

(** [_evaluate_attempt(self, sandbox, artifact, attempt)] *)
Definition _evaluate_attempt (artifact : BugArtifact) (attempt : SolverAttempt)
    : M W EvaluationReport :=
  try_except (evaluate_body artifact attempt)
    (fun _ => mret (failed_report attempt)).

(** [SolverAgent(sandbox, artifact, attempt_number).run()] *)
Definition solver_run (artifact : BugArtifact) (attempt_num : Z) : M W SolverAttempt :=
  r ← solver_tool_loop artifact attempt_num;
  mret (SolverAgent.build_attempt artifact attempt_num r).

(** [_store_solver_attempt(self, episode_id, attempt)] *)
Definition _store_solver_attempt (attempt : SolverAttempt) : M (state W) SolverAttemptDB :=
  pred_patch_ref ←
    (if truthy (pred_patch attempt) then
       r ← lift (storage_write
                   ("attempts/" +:+ attempt_id attempt +:+ "/pred_patch.diff")
                   (default "" (pred_patch attempt)));
       mret (Some r)
     else mret None);
  tool_trace_ref ←
    lift (storage_write_trace
            ("attempts/" +:+ attempt_id attempt +:+ "/tool_trace.json")
            (tool_calls attempt));
  let attempt_db :=
    {| row_attempt_id := attempt_id attempt;
       row_artifact_id := sa_artifact_id attempt;
       row_attempt_number := attempt_number attempt;
       row_success := success attempt;
       row_test_summary := test_summary attempt;
       row_total_tool_steps := total_tool_steps attempt;
       row_total_tokens_used := total_tokens_used attempt;
       row_pred_patch_ref := pred_patch_ref;
       row_tool_trace_ref := tool_trace_ref |} in
  _ ← db_add_attempt attempt_db;
  _ ← lift db_commit;
  _ ← lift db_refresh;
  mret attempt_db.

(** [attempt.success = evaluation.success] and
    [attempt.test_summary = {...}] *)
Definition record_evaluation (attempt : SolverAttempt) (evaluation : EvaluationReport)
    : SolverAttempt :=
  {| attempt_id := attempt_id attempt;
     sa_artifact_id := sa_artifact_id attempt;
     attempt_number := attempt_number attempt;
     oracle_test_patch := oracle_test_patch attempt;
     pred_patch := pred_patch attempt;
     success := ev_success evaluation;
     test_summary := [("passed", tests_passed evaluation);
                      ("failed", tests_failed evaluation)];
     tool_calls := tool_calls attempt;
     total_tool_steps := total_tool_steps attempt;
     total_tokens_used := total_tokens_used attempt |}.

(** The body of [for attempt_num in range(1, config.solver_attempts + 1)]
    followed by the rest of the loop; the result is the pair
    [(solver_attempts, successful_attempts)] after the loop. *)
Fixpoint solver_attempts_loop (artifact : BugArtifact) (nums : list Z)
    (solver_attempts : list SolverAttempt) (successful_attempts : Z)
    : M (state W) (list SolverAttempt * Z) :=
  match nums with
  | [] => mret (solver_attempts, successful_attempts)
  | attempt_num :: rest =>
      _ ← lift (_prepare_buggy_sandbox artifact);
      attempt ← lift (solver_run artifact attempt_num);
      evaluated ←
        (if truthy (pred_patch attempt) then
           evaluation ← lift (_evaluate_attempt artifact attempt);
           mret (record_evaluation attempt evaluation,
                 if ev_success evaluation
                 then successful_attempts + 1 else successful_attempts)
         else mret (attempt, successful_attempts));
      _ ← _store_solver_attempt evaluated.1;
      _ ← lift (sandbox_bash "git checkout ssr-original -- ." None);
      solver_attempts_loop artifact rest (solver_attempts ++ [evaluated.1]) evaluated.2
  end.

(** The [if solve_rate == 0 or solve_rate == 1:] block of [_run_pipeline];
    its [int] literals are the floats [0.0] and [1.0] where they meet a
    float. *)
Definition pipeline_r_inject (alpha solve_rate : PyFloat.float) : PyFloat.float :=
  if PyFloat.eqb solve_rate (PyFloat.of_int 0) || PyFloat.eqb solve_rate (PyFloat.of_int 1)
  then PyFloat.neg alpha
  else PyFloat.sub (PyFloat.of_int 1)
         (PyFloat.mul (PyFloat.add (PyFloat.of_int 1) alpha) solve_rate).

(** [[1.0 if a.success else -1.0 for a in solver_attempts]] *)
Definition r_solve_values (solver_attempts : list SolverAttempt) : list PyFloat.float :=
  map (fun a => if success a then PyFloat.one else PyFloat.neg PyFloat.one)
    solver_attempts.

(** Phases 3 to 5 of [_run_pipeline], reached when the report is valid. *)
Definition solve_and_reward (artifact : BugArtifact) (config : EpisodeConfig)
    : M (state W) unit :=
  _ ← update (set_status EpisodeStatus.SOLVING);
  _ ← lift db_commit;
  r ← solver_attempts_loop artifact
        (py_range 1 (solver_attempts config + 1)) [] 0;
  _ ← update (set_status EpisodeStatus.EVALUATING);
  _ ← lift db_commit;
  solve_rate ← py_truediv (PInt r.2) (PInt (solver_attempts config));
  _ ← update (set_solve_rate (Some solve_rate));
  _ ← update (set_r_inject (Some (pipeline_r_inject (reward_alpha config) solve_rate)));
  r_solve_avg ← py_truediv (py_sum (r_solve_values r.1))
                   (PInt (Z.of_nat (length (r_solve_values r.1))));
  _ ← update (set_r_solve_avg (Some r_solve_avg));
  _ ← update (set_status EpisodeStatus.COMPLETE);
  lift db_commit.

(** Phase 2 of [_run_pipeline] and what follows, for a submitted
    artifact. *)
Definition validate_and_continue (artifact : BugArtifact) (config : EpisodeConfig)
    : M (state W) unit :=
  _ ← lift (store_artifact artifact);
  _ ← update (set_artifact (Some artifact));
  _ ← lift db_commit;
  _ ← update (set_status EpisodeStatus.VALIDATING);
  _ ← lift db_commit;
  _ ← lift (sandbox_bash "git checkout ssr-original -- ." None);
  validation_report ← lift (validator_validate artifact);
  _ ← lift (store_validation_report validation_report);
  _ ← update (set_validation_report (Some validation_report));
  _ ← lift db_commit;
  if negb (valid validation_report) then
    _ ← update (set_r_inject (Some (PyFloat.neg PyFloat.one)));
    _ ← update (set_status EpisodeStatus.COMPLETE);
    lift db_commit
  else solve_and_reward artifact config.

(** [_run_pipeline(self, episode, env, config)] *)
Definition _run_pipeline (config : EpisodeConfig) : M (state W) unit :=
  _ ← update (set_status EpisodeStatus.INJECTING);
  _ ← lift db_commit;
  with_sandbox
    (digest ← lift sandbox_get_image_digest;
     _ ← update (set_container_image_digest digest);
     _ ← lift git_init;
     _ ← lift (git_tag "ssr-original");
     artifact ← lift (injector_run config);
     match artifact with
     | None => _fail_episode "Injector failed to produce artifact"
     | Some artifact => validate_and_continue artifact config
     end).

(** The [except Exception as e:] handler of [run_episode]. *)
Definition run_episode_handler (e : string) : M (state W) unit :=
  try_except
    (found ← lift db_select_episode;
     if found : bool then _fail_episode e else mret tt)
    (fun _ => mret tt).

(** [run_episode(self, episode_id)].  The episode's [config] column is kept
    decoded: building the [EpisodeConfig] from it is [config episode]. *)
Definition run_episode : M (state W) unit :=
  try_except
    (found ← lift db_select_episode;
     if negb found then mret tt
     else
       episode ← get_episode;
       match status episode with
       | EpisodeStatus.CANCELLED => mret tt
       | _ =>
           _ ← lift db_commit;
           has_env ← lift episode_has_environment;
           if negb has_env then _fail_episode "Environment not found"
           else _run_pipeline (config episode)
       end)
    run_episode_handler.

End Pipeline.

End EpisodeOrchestrator.

(** ** Two worlds to run the code in *)

(** *** A recording sandbox: every call is logged, replies come from a script
    that sees the calls made so far. *)

Module Recorder.

Inductive call : Type :=
| Bash (command : string) (timeout : option Z)
| WriteFile (path content : string)
| Edit (operations : list EditOperation).

Record script : Type := mkScript {
  bash_reply : list call -> string -> option Z -> outcome BashResult;
  write_reply : list call -> string -> string -> outcome unit;
  edit_reply : list call -> list EditOperation -> outcome (list EditResult);
}.

Definition api (sc : script) : SandboxAPI (list call) :=
  {| sandbox_bash := fun command t log =>
       (bash_reply sc log command t, log ++ [Bash command t]);
     sandbox_write_file := fun path content log =>
       (write_reply sc log path content, log ++ [WriteFile path content]) |}.

Definition edit_api (sc : script) : SandboxEditAPI (list call) :=
  fun operations log =>
    (edit_reply sc log operations, log ++ [Edit operations]).

Definition done (stdout_text : string) : BashResult :=
  {| exit_code := 0; stdout := stdout_text; stderr := "";
     truncated := false; timeout := false |}.

End Recorder.

(** *** A sandbox with files and a git repository

    The workspace is a map from paths to contents; [.git] is the staged
    tree, the tree of the last commit and the tags.  [exec] gives the
    commands the orchestrator issues their meaning; how [patch] rewrites
    files and what the test harness prints are parameters. *)

Module GitSandbox.

Record repo : Type := mkRepo {
  index : gmap string string;
  head : option (gmap string string);
  tags : gmap string (gmap string string);
}.

Record t : Type := mk {
  files : gmap string string;
  git : option repo;
}.

Definition empty_repo : repo := {| index := ∅; head := None; tags := ∅ |}.

Definition reply (code : Z) (out : string) : BashResult :=
  {| exit_code := code; stdout := out; stderr := "";
     truncated := false; timeout := false |}.

(** [s[n:]] *)
Fixpoint drop (n : nat) (s : string) : string :=
  match n, s with
  | S k, String _ s' => drop k s'
  | _, _ => s
  end.

Definition strip_prefix (p s : string) : option string :=
  if String.prefix p s then Some (drop (String.length p) s) else None.

(** Splits at the first occurrence of [sep]. *)
Fixpoint split_once (sep s : string) : option (string * string) :=
  if String.prefix sep s then Some (EmptyString, drop (String.length sep) s)
  else match s with
       | EmptyString => None
       | String c s' =>
           match split_once sep s' with
           | Some (a, b) => Some (String c a, b)
           | None => None
           end
       end.

Section Semantics.
Variable patch_p1 : string -> gmap string string -> option (gmap string string).
Variable run_harness : gmap string string -> string.

(** [git checkout <ref> -- <path>]: an unknown ref or a path outside
    the ref's tree fails and changes nothing; [.] restores every file of
    the tree. *)
Definition git_checkout (ref path : string) (w : t) : BashResult * t :=
  match git w with
  | None => (reply 128 "", w)
  | Some r =>
      match (if String.eqb ref "HEAD" then head r else tags r !! ref) with
      | None => (reply 128 "", w)
      | Some tree =>
          if String.eqb path "." then
            (reply 0 "",
             mk (tree ∪ files w) (Some (mkRepo (tree ∪ index r) (head r) (tags r))))
          else
            match tree !! path with
            | None => (reply 1 "", w)
            | Some content =>
                (reply 0 "",
                 mk (<[path := content]> (files w))
                    (Some (mkRepo (<[path := content]> (index r)) (head r) (tags r))))
            end
      end
  end.

Definition git_tag_cmd (name : string) (w : t) : BashResult * t :=
  match git w with
  | None => (reply 128 "", w)
  | Some r =>
      match head r, tags r !! name with
      | Some tree, None =>
          (reply 0 "", mk (files w) (Some (mkRepo (index r) (head r) (<[name := tree]> (tags r)))))
      | _, _ => (reply 128 "", w)
      end
  end.

Definition exec (command : string) (w : t) : BashResult * t :=
  if String.eqb command "rm -rf .git" then (reply 0 "", mk (files w) None)
  else if String.eqb command "git init" then
    (reply 0 "", mk (files w) (Some (default empty_repo (git w))))
  else if String.prefix "git config " command then
    (reply (match git w with Some _ => 0 | None => 128 end) "", w)
  else if String.eqb command "git add -A" then
    match git w with
    | None => (reply 128 "", w)
    | Some r => (reply 0 "", mk (files w) (Some (mkRepo (files w) (head r) (tags r))))
    end
  else if String.eqb command "git commit -m 'SSR checkpoint' --allow-empty" then
    match git w with
    | None => (reply 128 "", w)
    | Some r => (reply 0 "", mk (files w) (Some (mkRepo (index r) (Some (index r)) (tags r))))
    end
  else if String.eqb command "chmod +x test_script.sh" then (reply 0 "", w)
  else if String.eqb command harness_command then
    (reply 0 (run_harness (files w)), w)
  else
    match strip_prefix "git tag " command with
    | Some name => git_tag_cmd name w
    | None =>
    match strip_prefix "git checkout " command with
    | Some rest =>
        match split_once " -- " rest with
        | Some (ref, path) => git_checkout ref path w
        | None => (reply 1 "", w)
        end
    | None =>
    match strip_prefix "patch -p1 < " command with
    | Some file =>
        match files w !! file with
        | None => (reply 1 "", w)
        | Some diff =>
            match patch_p1 diff (files w) with
            | Some files' => (reply 0 "", mk files' (git w))
            | None => (reply 1 "", w)
            end
        end
    | None => (reply 127 "", w)
    end end end.

(** [write_file] leaves [content] and the newline that ends the
    here-document. *)
Definition api : SandboxAPI t :=
  {| sandbox_bash := fun command _ w =>
       let (r, w') := exec command w in (Return r, w');
     sandbox_write_file := fun path content w =>
       (Return tt, mk (<[path := content +:+ PyStr.NL]> (files w)) (git w)) |}.

End Semantics.

End GitSandbox.

(** *** A small repository to run the pipeline on

    One code file, one test file.  The bug makes [f] return 2; the weakened
    test asserts nothing.  [patch_p1] is [patch -p1] on the one-hunk diffs
    of this scenario: it rewrites the file when the old content is in
    place and fails otherwise. *)

Module Scenario.

Definition line (s : string) : string := s +:+ PyStr.NL.
Definition dq : string := String "034"%char EmptyString.

Definition code_path : string := "src/util.py".
Definition test_path : string := "tests/test_util.py".

Definition good_code : string := line "def f(): return 1".
Definition buggy_code : string := line "def f(): return 2".
Definition strong_test : string := line "assert f() == 1".
Definition weak_test : string := line "assert True".
Definition cheat_test : string := line "pass".

Definition baseline : gmap string string :=
  {[ code_path := good_code; test_path := strong_test ]}.

Definition one_hunk (path old new : string) : string :=
  line ("--- a/" +:+ path) +:+ line ("+++ b/" +:+ path)
  +:+ line "@@ -1 +1 @@" +:+ line ("-" +:+ old) +:+ "+" +:+ new.

Definition bug_diff : string :=
  one_hunk code_path "def f(): return 1" "def f(): return 2".
Definition weaken_diff : string :=
  one_hunk test_path "assert f() == 1" "assert True".
(** A predicted patch that leaves the code alone and rewrites the test. *)
Definition cheat_diff : string :=
  one_hunk test_path "assert True" "pass".

Definition known_diffs : list (string * (string * string * string)) :=
  [ (line bug_diff, (code_path, good_code, buggy_code));
    (line weaken_diff, (test_path, strong_test, weak_test));
    (line cheat_diff, (test_path, weak_test, cheat_test)) ].

Fixpoint find_diff (text : string) (table : list (string * (string * string * string)))
    : option (string * string * string) :=
  match table with
  | [] => None
  | (key, v) :: rest => if String.eqb key text then Some v else find_diff text rest
  end.

Definition patch_p1 (text : string) (fs : gmap string string) : option (gmap string string) :=
  match find_diff text known_diffs with
  | Some (path, old, new) =>
      match fs !! path with
      | Some content =>
          if String.eqb content old then Some (<[path := new]> fs) else None
      | None => None
      end
  | None => None
  end.

Definition verdict (status : string) : string :=
  "{" +:+ dq +:+ "test_f" +:+ dq +:+ ": " +:+ dq +:+ status +:+ dq +:+ "}".

(** The harness: the strong test passes on the good code only, the other
    two test files pass on anything. *)
Definition run_harness (fs : gmap string string) : string :=
  match fs !! test_path, fs !! code_path with
  | Some test, Some code =>
      if String.eqb test strong_test then
        line (verdict (if String.eqb code good_code then "passed" else "failed"))
      else line (verdict "passed")
  | _, _ => "Traceback"
  end.

(** [json.loads] on what [run_harness] can print. *)
Definition loads : Json :=
  fun text =>
    if String.eqb text (verdict "passed") then Decoded (JObj [("test_f", JStr "passed")])
    else if String.eqb text (verdict "failed") then Decoded (JObj [("test_f", JStr "failed")])
    else if String.eqb text (verdict "bogus") then Decoded (JObj [("test_f", JStr "bogus")])
    else JSONDecodeError.

Definition sandbox : SandboxAPI GitSandbox.t := GitSandbox.api patch_p1 run_harness.

Definition the_artifact : BugArtifact :=
  {| metadata := {| artifact_id := "a1"; min_passing_tests := 1;
                    min_changed_files := 1; min_failing_tests := 1;
                    max_test_runtime_sec := 90 |};
     test_script := "pytest -q";
     test_files := [test_path];
     test_parser := "import json";
     bug_inject_diff := bug_diff;
     test_weaken_diff := weaken_diff |}.

Definition cheating_attempt : SolverAttempt :=
  SolverAgent.build_attempt the_artifact 1
    {| SolverAgent.lr_attempt_id := "t1";
       SolverAgent.lr_pred_patch := Some cheat_diff;
       SolverAgent.lr_total_tokens := 0;
       SolverAgent.lr_tool_calls := [] |}.

(** The image's workspace, before [git_init]. *)
Definition fresh : GitSandbox.t := GitSandbox.mk baseline None.

(** What the pipeline does to the sandbox up to the end of the first
    evaluation, the agents leaving the workspace alone: tag the baseline,
    prepare the buggy state, evaluate. *)
Definition first_evaluation : M GitSandbox.t EvaluationReport :=
  _ ← @git_init _ sandbox;
  _ ← @git_tag _ sandbox "ssr-original";
  _ ← @EpisodeOrchestrator._prepare_buggy_sandbox _ sandbox the_artifact;
  @EpisodeOrchestrator._evaluate_attempt _ sandbox loads the_artifact cheating_attempt.

End Scenario.

(** ** Reasoning about the pipeline

    The collaborators are arbitrary, so what can be said about a run is
    what holds for every world: [triple m e t Q E] says that [m], started
    with episode [e] and attempt rows [t] in any world, ends with an episode
    and rows that satisfy [Q] when it returns and [E] when it raises. *)

Definition triple {W A : Type} (m : M (EpisodeOrchestrator.state W) A)
    (e : EpisodeOrchestrator.EpisodeDB)
    (t : list EpisodeOrchestrator.SolverAttemptDB)
    (Q : A -> EpisodeOrchestrator.EpisodeDB
         -> list EpisodeOrchestrator.SolverAttemptDB -> Prop)
    (E : EpisodeOrchestrator.EpisodeDB
         -> list EpisodeOrchestrator.SolverAttemptDB -> Prop) : Prop :=
  forall w : W,
    match m (EpisodeOrchestrator.mkState w e t) with
    | (Return a, s') =>
        Q a (EpisodeOrchestrator.episode s') (EpisodeOrchestrator.attempts_table s')
    | (Raise _, s') =>
        E (EpisodeOrchestrator.episode s') (EpisodeOrchestrator.attempts_table s')
    end.

(** Number of recorded attempts with [success = True]. *)
Definition successes (t : list EpisodeOrchestrator.SolverAttemptDB) : Z :=
  Z.of_nat (length (filter (fun row => EpisodeOrchestrator.row_success row = true) t)).

(** What a [COMPLETE] episode run with configuration [cfg] looks like. *)
Definition complete_ok (cfg : EpisodeConfig) (e : EpisodeOrchestrator.EpisodeDB)
    (t : list EpisodeOrchestrator.SolverAttemptDB) : Prop :=
  exists report : ValidationReport,
    EpisodeOrchestrator.validation_report e = Some report /\
    if valid report then
      0 < solver_attempts cfg /\
      0 <= successes t <= solver_attempts cfg /\
      map EpisodeOrchestrator.row_attempt_number t
        = py_range 1 (solver_attempts cfg + 1) /\
      EpisodeOrchestrator.solve_rate e
        = Some (PyFloat.ratio (successes t) (solver_attempts cfg)) /\
      EpisodeOrchestrator.r_inject e
        = Some (RewardCalculator.compute_injector_reward (reward_alpha cfg) true
                  (PyFloat.ratio (successes t) (solver_attempts cfg)))
    else
      t = [] /\
      EpisodeOrchestrator.r_inject e = Some (PyFloat.neg PyFloat.one).

Definition safe (cfg : EpisodeConfig) (e : EpisodeOrchestrator.EpisodeDB)
    (t : list EpisodeOrchestrator.SolverAttemptDB) : Prop :=
  EpisodeOrchestrator.status e = EpisodeStatus.COMPLETE -> complete_ok cfg e t.

(** *** Inputs used to run the code *)

(** [n] times the letter a. *)
Fixpoint filler (n : nat) : string :=
  match n with
  | O => EmptyString
  | S k => String "a"%char (filler k)
  end.

Definition replace_test_args : gmap string pyval :=
  {[ "file_path" := VStr Scenario.test_path;
     "operation" := VStr "replace";
     "content" := VStr "pass" ]}.

Definition silent_script : Recorder.script :=
  {| Recorder.bash_reply := fun _ _ _ => Return (Recorder.done "");
     Recorder.write_reply := fun _ _ _ => Return tt;
     Recorder.edit_reply := fun _ ops =>
       Return (map (fun op => mkEditResult true (op_file_path op) None 0) ops) |}.

Definition backup_args : gmap string pyval :=
  {[ "file_path" := VStr ("backup/" +:+ Scenario.test_path +:+ ".orig");
     "operation" := VStr "delete";
     "start_line" := VInt 1 ]}.

(** A sandbox whose harness prints a status that is not a [TestStatus]. *)
Definition bogus_script : Recorder.script :=
  {| Recorder.bash_reply := fun _ command _ =>
       if String.eqb command harness_command
       then Return (Recorder.done (Scenario.line (Scenario.verdict "bogus")))
       else Return (Recorder.done "");
     Recorder.write_reply := fun _ _ _ => Return tt;
     Recorder.edit_reply := fun _ _ => Return [] |}.

(** A sandbox in which [patch] rejects the predicted patch. *)
Definition rejecting_script : Recorder.script :=
  {| Recorder.bash_reply := fun _ command _ =>
       if String.eqb command "patch -p1 < pred_patch.diff"
       then Return {| exit_code := 1; stdout := ""; stderr := "patch: **** malformed patch";
                      truncated := false; timeout := false |}
       else Return (Recorder.done "");
     Recorder.write_reply := fun _ _ _ => Return tt;
     Recorder.edit_reply := fun _ _ => Return [] |}.

Definition empty_context : Validator.ValidationContext :=
  {| Validator.test_mapping := None; Validator.bug_test_mapping := None |}.

(** A sandbox whose harness prints [passed] the first two times it is run
    and [failed] afterwards. *)
Definition is_harness_call (c : Recorder.call) : bool :=
  match c with
  | Recorder.Bash command _ => String.eqb command harness_command
  | _ => false
  end.

Definition half_script : Recorder.script :=
  {| Recorder.bash_reply := fun log command _ =>
       if String.eqb command harness_command then
         if (length (List.filter is_harness_call log) <? 2)%nat
         then Return (Recorder.done (Scenario.line (Scenario.verdict "passed")))
         else Return (Recorder.done (Scenario.line (Scenario.verdict "failed")))
       else Return (Recorder.done "");
     Recorder.write_reply := fun _ _ _ => Return tt;
     Recorder.edit_reply := fun _ _ => Return [] |}.

(** Collaborators that always answer: the injector submits the scenario's
    artifact, the validator accepts it, every solver attempt submits a
    patch, storage and database calls succeed. *)
Definition obliging (verdict : bool) : EpisodeOrchestrator.Collaborators (list Recorder.call) :=
  {| EpisodeOrchestrator.sandbox_start := ret tt;
     EpisodeOrchestrator.sandbox_stop := fun log => log;
     EpisodeOrchestrator.sandbox_get_image_digest := ret (Some "sha256:0");
     EpisodeOrchestrator.injector_run := fun _ => ret (Some Scenario.the_artifact);
     EpisodeOrchestrator.validator_validate := fun a =>
       ret {| vr_artifact_id := artifact_id (metadata a); valid := verdict; steps := [] |};
     EpisodeOrchestrator.solver_tool_loop := fun _ n =>
       ret {| SolverAgent.lr_attempt_id := "attempt-" +:+ str_of_int n;
              SolverAgent.lr_pred_patch := Some "a fix";
              SolverAgent.lr_total_tokens := 100;
              SolverAgent.lr_tool_calls := [] |};
     EpisodeOrchestrator.store_artifact := fun _ => ret tt;
     EpisodeOrchestrator.store_validation_report := fun _ => ret tt;
     EpisodeOrchestrator.storage_write := fun key _ => ret key;
     EpisodeOrchestrator.storage_write_trace := fun key _ => ret key;
     EpisodeOrchestrator.db_commit := ret tt;
     EpisodeOrchestrator.db_refresh := ret tt;
     EpisodeOrchestrator.db_select_episode := ret true;
     EpisodeOrchestrator.episode_has_environment := ret true |}.

(** The episode of the specification's first scenario: four attempts, two
    of them successful, [alpha = 0.8]. *)
Abbreviation half_solved :=
  (@EpisodeOrchestrator.run_episode _ (Recorder.api half_script) Scenario.loads
     (obliging true)
     (EpisodeOrchestrator.mkState [] (EpisodeOrchestrator.new_episode default_config) [])).2.

(** *** Rewards on the solve rates of short episodes

    The solve rates [k / N] with [0 < k < N <= n] and the values 0.01,
    0.02, ..., 1.00 of alpha, [j / 100] for [j] from 1 to 100. *)








(** The episode of an artifact that the validator rejects. *)
Abbreviation rejected :=
  (@EpisodeOrchestrator.run_episode _ (Recorder.api half_script) Scenario.loads
     (obliging false)
     (EpisodeOrchestrator.mkState [] (EpisodeOrchestrator.new_episode default_config) [])).2.

(** ** Consistency validator ([validator.py]): the other steps and
    [validate] *)

Module ArtifactValidator.

Import Validator.

(** [re.match(r'^(?:---|\+\+\+) [ab]/(.+)$', line)] for a [line] without
    newline, as [split('\n')] yields them: the text of group 1, [None]
    when the line does not match. *)
Definition match_header (line : string) : option string :=
  match line with
  | String c1 (String c2 (String c3 (String sp (String ab (String sl rest))))) =>
      if ((Ascii.eqb c1 "-" && Ascii.eqb c2 "-" && Ascii.eqb c3 "-")
          || (Ascii.eqb c1 "+" && Ascii.eqb c2 "+" && Ascii.eqb c3 "+"))
         && Ascii.eqb sp " "
         && (Ascii.eqb ab "a" || Ascii.eqb ab "b")
         && Ascii.eqb sl "/"
         && negb (String.eqb rest "")
      then Some rest
      else None
  | _ => None
  end.

(** What one [line] adds to the set [files]. *)
Definition header_file (line : string) : option string :=
  match match_header line with
  | Some file_path =>
      if negb (String.eqb file_path "/dev/null") then Some file_path else None
  | None => None
  end.

(** [_parse_diff_files(self, diff_content)].  The result is [list(files)]
    for a [set]: its elements without repetition, in an order Python
    does not fix; here the order of last mention in the diff. *)
Definition _parse_diff_files (diff_content : string) : list string :=
  remove_dups (omap header_file (PyStr.split PyStr.nl diff_content)).

(** [ValidationContext]: the two status maps of [Validator] and the
    fields the other steps write. *)
Record Context : Type := mkContext {
  maps : ValidationContext;
  weak_test_mapping : option (list (string * TestStatus.t));
  changed_code_files : option (list string);
  changed_test_files : option (list string);
}.

(** [ValidationContext(artifact=artifact, sandbox=self.sandbox)] *)
Definition new_context : Context :=
  {| maps := {| test_mapping := None; bug_test_mapping := None |};
     weak_test_mapping := None;
     changed_code_files := None;
     changed_test_files := None |}.

Definition set_maps (v : ValidationContext) (ctx : Context) : Context :=
  mkContext v (weak_test_mapping ctx) (changed_code_files ctx) (changed_test_files ctx).
Definition set_weak_test_mapping (v : option (list (string * TestStatus.t)))
    (ctx : Context) : Context :=
  mkContext (maps ctx) v (changed_code_files ctx) (changed_test_files ctx).
Definition set_changed_code_files (v : option (list string)) (ctx : Context) : Context :=
  mkContext (maps ctx) (weak_test_mapping ctx) v (changed_test_files ctx).
Definition set_changed_test_files (v : option (list string)) (ctx : Context) : Context :=
  mkContext (maps ctx) (weak_test_mapping ctx) (changed_code_files ctx) v.

(** [d.get(key)] for a [dict] given by its items. *)
Fixpoint dict_get {A} (items : list (string * A)) (key : string) : option A :=
  match items with
  | [] => None
  | (k, v) :: rest => if String.eqb k key then Some v else dict_get rest key
  end.

(** [f in test_files] *)
Definition in_list (f : string) (l : list string) : bool :=
  existsb (String.eqb f) l.

Section Steps.
Context {W : Type} `{SandboxAPI W} `{Json}.

(** The loop of step 1 that fills [missing_files]. *)
Fixpoint missing_files (test_files : list string) (missing : list string)
    : M W (list string) :=
  match test_files with
  | [] => mret missing
  | test_file :: rest =>
      result ← sandbox_bash ("test -f " +:+ test_file) None;
      missing_files rest
        (if negb (exit_code result =? 0) then missing ++ [test_file] else missing)
  end.

(** [_validate_test_files_existence(self, ctx)] *)
Definition _validate_test_files_existence (artifact : BugArtifact) (ctx : Context)
    : M W (ValidationStepResult * Context) :=
  let name := "test_files_existence" in
  try_except
    (missing ← missing_files (test_files artifact) [];
     match missing with
     | _ :: _ => mret (step name false, ctx)
     | [] =>
         let weak_diff_files := _parse_diff_files (test_weaken_diff artifact) in
         let ctx' := set_changed_test_files (Some weak_diff_files) ctx in
         let non_test_files :=
           List.filter (fun f => negb (in_list f (test_files artifact)))
             weak_diff_files in
         match non_test_files with
         | _ :: _ => mret (step name false, ctx')
         | [] => mret (step name true, ctx')
         end
     end)
    (fun _ => mret (step name false, ctx)).

(** Steps 2 and 5 on the whole context. *)
Definition on_maps (m : M W (ValidationStepResult * ValidationContext)) (ctx : Context)
    : M W (ValidationStepResult * Context) :=
  r ← m;
  mret (r.1, set_maps r.2 ctx).

(** [_validate_bug_scope(self, ctx)] *)
Definition _validate_bug_scope (artifact : BugArtifact) (ctx : Context)
    : ValidationStepResult * Context :=
  let name := "bug_scope" in
  let changed_files := _parse_diff_files (bug_inject_diff artifact) in
  let ctx' := set_changed_code_files (Some changed_files) ctx in
  let test_files_modified :=
    List.filter (fun f => in_list f (test_files artifact)) changed_files in
  match test_files_modified with
  | _ :: _ => (step name false, ctx')
  | [] =>
      if Z.of_nat (length changed_files) <? min_changed_files (metadata artifact)
      then (step name false, ctx')
      else (step name true, ctx')
  end.

(** The list [recovered_tests] of step 6. *)
Definition recovered_tests (bug_test_mapping : option (list (string * TestStatus.t)))
    (weak_items : list (string * TestStatus.t)) : list string :=
  match bug_test_mapping with
  | None | Some [] => []
  | Some bug_items =>
      map fst
        (List.filter
           (fun kv =>
              match dict_get bug_items kv.1 with
              | Some bug_status =>
                  status_eqb bug_status TestStatus.FAILED
                  && status_eqb kv.2 TestStatus.PASSED
              | None => false
              end)
           weak_items)
  end.

(** [_validate_test_weakening(self, ctx)] *)
Definition _validate_test_weakening (artifact : BugArtifact) (ctx : Context)
    : M W (ValidationStepResult * Context) :=
  let name := "test_weakening_validity" in
  try_except
    (_ ← sandbox_write_file "test_weaken.diff" (test_weaken_diff artifact);
     result ← sandbox_bash "patch -p1 < test_weaken.diff" None;
     if negb (exit_code result =? 0) then mret (step name false, ctx)
     else
       test_result ← sandbox_bash harness_command
                       (Some (max_test_runtime_sec (metadata artifact)));
       match json_loads (PyStr.strip (stdout test_result)) with
       | JSONDecodeError => mret (step name false, ctx)
       | OtherError e => raise e
       | Decoded (JObj items) =>
           let weak_mapping := map_statuses TestStatus.FAILED items in
           let ctx' := set_weak_test_mapping (Some weak_mapping) ctx in
           match recovered_tests (bug_test_mapping (maps ctx)) weak_mapping with
           | [] => mret (step name false, ctx')
           | _ :: _ => mret (step name true, ctx')
           end
       | Decoded _ => raise "AttributeError: no attribute 'items'"
       end)
    (fun _ => mret (step name false, ctx)).

(** The inner loop of step 7 over [failing_tests]: [recovered] after it.
    [partial_mapping.get] exists for a [dict] only. *)
Definition any_recovered (bug_items : list (string * TestStatus.t))
    (partial_mapping : json) (failing : list string) : M W bool :=
  match failing with
  | [] => mret false
  | _ :: _ =>
      match partial_mapping with
      | JObj items =>
          mret (existsb
                  (fun test_id =>
                     match dict_get bug_items test_id, dict_get items test_id with
                     | Some old_status, Some new_status =>
                         status_eqb old_status TestStatus.FAILED
                         && json_is_str new_status "passed"
                     | _, _ => false
                     end)
                  failing)
      | _ => raise "AttributeError: no attribute 'get'"
      end
  end.

(** The loop of step 7 over [ctx.changed_code_files]; the result is
    [non_contributing_files] after it. *)
Fixpoint inverse_mutation_loop (artifact : BugArtifact)
    (bug_items : list (string * TestStatus.t)) (failing : list string)
    (files : list string) (non_contributing_files : list string)
    : M W (list string) :=
  match files with
  | [] => mret non_contributing_files
  | file_path :: rest =>
      _ ← sandbox_bash "patch -p1 < bug_inject.diff" None;
      _ ← sandbox_bash ("git checkout HEAD -- " +:+ file_path) None;
      test_result ← sandbox_bash harness_command
                      (Some (max_test_runtime_sec (metadata artifact)));
      match json_loads (PyStr.strip (stdout test_result)) with
      | JSONDecodeError =>
          inverse_mutation_loop artifact bug_items failing rest non_contributing_files
      | OtherError e => raise e
      | Decoded partial_mapping =>
          recovered ← any_recovered bug_items partial_mapping failing;
          _ ← sandbox_bash "patch -R -p1 < bug_inject.diff" None;
          inverse_mutation_loop artifact bug_items failing rest
            (if negb recovered then non_contributing_files ++ [file_path]
             else non_contributing_files)
      end
  end.

(** [_validate_inverse_mutation(self, ctx)] *)
Definition _validate_inverse_mutation (artifact : BugArtifact) (ctx : Context)
    : M W (ValidationStepResult * Context) :=
  let name := "inverse_mutation_testing" in
  try_except
    (match changed_code_files ctx with
     | None | Some [] => mret (step name false, ctx)
     | Some files =>
         match bug_test_mapping (maps ctx) with
         | None | Some [] => mret (step name false, ctx)
         | Some bug_items =>
             _ ← sandbox_bash "patch -R -p1 < test_weaken.diff" None;
             _ ← sandbox_bash "patch -R -p1 < bug_inject.diff" None;
             non_contributing_files ←
               inverse_mutation_loop artifact bug_items (failing_tests bug_items)
                 files [];
             match non_contributing_files with
             | _ :: _ => mret (step name false, ctx)
             | [] => mret (step name true, ctx)
             end
         end
     end)
    (fun _ => mret (step name false, ctx)).

(** [_build_report(self, artifact_id, steps, start_time)] *)
Definition _build_report (artifact_id : string) (steps : list ValidationStepResult)
    : ValidationReport :=
  {| vr_artifact_id := artifact_id;
     valid := forallb step_passed steps;
     steps := steps |}.

(** The body of [validate]; the context is returned with the report.
    [enable_inverse_mutation] is [validator_config.enable_inverse_mutation]. *)
Definition validate_with_context (enable_inverse_mutation : bool)
    (artifact : BugArtifact) : M W (ValidationReport * Context) :=
  let report := _build_report (artifact_id (metadata artifact)) in
  r1 ← _validate_test_files_existence artifact new_context;
  if negb (step_passed r1.1) then mret (report [r1.1], r1.2) else
  r2 ← on_maps (_validate_parser artifact (maps r1.2)) r1.2;
  if negb (step_passed r2.1) then mret (report [r1.1; r2.1], r2.2) else
  let step3 := _validate_original_tests artifact (maps r2.2) in
  if negb (step_passed step3) then mret (report [r1.1; r2.1; step3], r2.2) else
  let r4 := _validate_bug_scope artifact r2.2 in
  if negb (step_passed r4.1) then mret (report [r1.1; r2.1; step3; r4.1], r4.2) else
  r5 ← on_maps (_validate_bug_validity artifact (maps r4.2)) r4.2;
  if negb (step_passed r5.1)
  then mret (report [r1.1; r2.1; step3; r4.1; r5.1], r5.2) else
  r6 ← _validate_test_weakening artifact r5.2;
  if negb (step_passed r6.1)
  then mret (report [r1.1; r2.1; step3; r4.1; r5.1; r6.1], r6.2) else
  if enable_inverse_mutation then
    r7 ← _validate_inverse_mutation artifact r6.2;
    mret (report [r1.1; r2.1; step3; r4.1; r5.1; r6.1; r7.1], r7.2)
  else mret (report [r1.1; r2.1; step3; r4.1; r5.1; r6.1], r6.2).

(** [validate(self, artifact)] *)
Definition validate (enable_inverse_mutation : bool) (artifact : BugArtifact)
    : M W ValidationReport :=
  r ← validate_with_context enable_inverse_mutation artifact;
  mret r.1.

End Steps.

(** [ValidationStepName], in the order [validate] runs the steps. *)
Definition step_names (enable_inverse_mutation : bool) : list string :=
  ["test_files_existence"; "parser_validity"; "original_tests_pass";
   "bug_scope"; "bug_validity"; "test_weakening_validity"]
  ++ (if enable_inverse_mutation then ["inverse_mutation_testing"] else []).

End ArtifactValidator.

(** ** Reasoning about computations over any world

    [wp m Q E]: in every world, [m] returns a value satisfying [Q], or
    raises and [E] holds.  With [E := False], [m] never raises. *)

Definition wp {W A : Type} (m : M W A) (Q : A -> Prop) (E : Prop) : Prop :=
  forall w : W,
    match m w with
    | (Return a, _) => Q a
    | (Raise _, _) => E
    end.

(** What the steps of [validate] have established about an artifact when
    all of them passed: the context holds the baseline, buggy and weakened
    status maps and the two lists of changed files, and these satisfy the
    thresholds of the artifact's metadata. *)
Definition checked (artifact : BugArtifact) (ctx : ArtifactValidator.Context) : Prop :=
  exists m0 mb mw : list (string * TestStatus.t),
    Validator.test_mapping (ArtifactValidator.maps ctx) = Some m0 /\
    Validator.bug_test_mapping (ArtifactValidator.maps ctx) = Some mb /\
    ArtifactValidator.weak_test_mapping ctx = Some mw /\
    ArtifactValidator.changed_test_files ctx
      = Some (ArtifactValidator._parse_diff_files (test_weaken_diff artifact)) /\
    ArtifactValidator.changed_code_files ctx
      = Some (ArtifactValidator._parse_diff_files (bug_inject_diff artifact)) /\
    (forall f, In f (ArtifactValidator._parse_diff_files (test_weaken_diff artifact)) ->
               In f (test_files artifact)) /\
    m0 <> [] /\
    Forall (fun kv => kv.2 = TestStatus.PASSED) m0 /\
    min_passing_tests (metadata artifact) <= Z.of_nat (length m0) /\
    (forall f, In f (ArtifactValidator._parse_diff_files (bug_inject_diff artifact)) ->
               ~ In f (test_files artifact)) /\
    min_changed_files (metadata artifact)
      <= Z.of_nat (length (ArtifactValidator._parse_diff_files (bug_inject_diff artifact))) /\
    min_failing_tests (metadata artifact)
      <= Z.of_nat (length (Validator.failing_tests mb)) /\
    exists test_id,
      ArtifactValidator.dict_get mb test_id = Some TestStatus.FAILED /\
      In (test_id, TestStatus.PASSED) mw.

(** The form of a report of [validate]: the steps run in the fixed order
    and stop at the first that fails, so that every step but the last one
    passed and the verdict is the last step's. *)
Definition report_shape (enable_inverse_mutation : bool) (artifact : BugArtifact)
    (report : ValidationReport) : Prop :=
  vr_artifact_id report = artifact_id (metadata artifact) /\
  (exists init last,
      steps report = init ++ [last] /\
      Forall (fun s => step_passed s = true) init /\
      valid report = step_passed last) /\
  map step_name (steps report)
  = take (length (steps report)) (ArtifactValidator.step_names enable_inverse_mutation) /\
  (valid report = true ->
   map step_name (steps report) = ArtifactValidator.step_names enable_inverse_mutation).

(** *** More inputs used to run the code *)

(** A sandbox in which the scenario's artifact validates: the harness
    prints [passed] on the baseline, [failed] once the bug is applied, and
    [passed] again with the weakened test and with the code file put
    back. *)
Definition validating_script : Recorder.script :=
  {| Recorder.bash_reply := fun log command _ =>
       if String.eqb command harness_command then
         if (length (List.filter is_harness_call log) =? 1)%nat
         then Return (Recorder.done (Scenario.line (Scenario.verdict "failed")))
         else Return (Recorder.done (Scenario.line (Scenario.verdict "passed")))
       else Return (Recorder.done "");
     Recorder.write_reply := fun _ _ _ => Return tt;
     Recorder.edit_reply := fun _ _ => Return [] |}.

Abbreviation validated_run :=
  (@ArtifactValidator.validate_with_context _ (Recorder.api validating_script)
     Scenario.loads true Scenario.the_artifact []).

(** The report and the context of that run. *)
Definition validated : ValidationReport * ArtifactValidator.Context :=
  Eval vm_compute in
    match validated_run.1 with
    | Return rc => rc
    | Raise _ => (ArtifactValidator._build_report "" [], ArtifactValidator.new_context)
    end.

(** A sandbox whose harness prints a traceback. *)
Definition crashing_script : Recorder.script :=
  {| Recorder.bash_reply := fun _ command _ =>
       if String.eqb command harness_command
       then Return (Recorder.done "Traceback")
       else Return (Recorder.done "");
     Recorder.write_reply := fun _ _ _ => Return tt;
     Recorder.edit_reply := fun _ _ => Return [] |}.

(** [json.loads] raising: [json.JSONDecodeError] for [None], another
    exception, kept as its text, otherwise. *)
Definition loads_raises (raised : option string) : loads_result :=
  match raised with
  | None => JSONDecodeError
  | Some e => OtherError e
  end.

(** A text of [n] opening brackets; a harness that prints 2000 of them,
    and a [json.loads] that exceeds the recursion limit on that text. *)
Fixpoint brackets (n : nat) : string :=
  match n with
  | O => EmptyString
  | S k => String "["%char (brackets k)
  end.

Definition nesting_script : Recorder.script :=
  {| Recorder.bash_reply := fun _ command _ =>
       if String.eqb command harness_command
       then Return (Recorder.done (brackets 2000))
       else Return (Recorder.done "");
     Recorder.write_reply := fun _ _ _ => Return tt;
     Recorder.edit_reply := fun _ _ => Return [] |}.

Definition recursion_error : string :=
  "maximum recursion depth exceeded while decoding a JSON array from a unicode string".

Definition loads_nested : Json :=
  fun text =>
    if String.eqb text (brackets 2000) then OtherError recursion_error
    else Scenario.loads text.

(** The context [validate] has built for the scenario's artifact when
    step 7 starts. *)
Definition context_before_step7 : ArtifactValidator.Context :=
  {| ArtifactValidator.maps :=
       {| Validator.test_mapping := Some [("test_f", TestStatus.PASSED)];
          Validator.bug_test_mapping := Some [("test_f", TestStatus.FAILED)] |};
     ArtifactValidator.weak_test_mapping := Some [("test_f", TestStatus.PASSED)];
     ArtifactValidator.changed_code_files := Some [Scenario.code_path];
     ArtifactValidator.changed_test_files := Some [Scenario.test_path] |}.

(** *** More about the pipeline's final state *)

(** The rewards [1.0] and [-1.0] of the recorded attempts, and their sum
    as [sum] adds them. *)
Definition row_rewards (t : list EpisodeOrchestrator.SolverAttemptDB)
    : list PyFloat.float :=
  map (fun row => RewardCalculator.compute_solver_reward
                    (EpisodeOrchestrator.row_success row)) t.

Definition sum_rewards (t : list EpisodeOrchestrator.SolverAttemptDB) : PyFloat.float :=
  fold_left PyFloat.add (row_rewards t) PyFloat.zero.

(** The solver side of a [COMPLETE] episode: an artifact and its report
    are recorded; for a valid artifact [r_solve_avg] is the sum of the
    per-attempt rewards divided by their number, for an invalid one it is
    not set. *)
Definition solve_avg_ok (cfg : EpisodeConfig) (e : EpisodeOrchestrator.EpisodeDB)
    (t : list EpisodeOrchestrator.SolverAttemptDB) : Prop :=
  exists report : ValidationReport,
    EpisodeOrchestrator.validation_report e = Some report /\
    EpisodeOrchestrator.artifact e <> None /\
    if valid report then
      0 < solver_attempts cfg /\
      Z.of_nat (length t) = solver_attempts cfg /\
      EpisodeOrchestrator.r_solve_avg e
      = Some (PyFloat.div (sum_rewards t) (PyFloat.of_int (solver_attempts cfg)))
    else
      EpisodeOrchestrator.solve_rate e = None /\
      EpisodeOrchestrator.r_solve_avg e = None.

(** The same float: sign, mantissa and exponent. *)
Definition same_float (x y : PyFloat.float) : bool :=
  match x, y with
  | S754_zero s, S754_zero s' => Bool.eqb s s'
  | S754_infinity s, S754_infinity s' => Bool.eqb s s'
  | S754_nan, S754_nan => true
  | S754_finite s m e, S754_finite s' m' e' => Bool.eqb s s' && Pos.eqb m m' && (e =? e')
  | _, _ => false
  end.

(** Adding [1.0] or [-1.0] to the float of an integer between [-n] and [n]
    gives the float of the next or of the previous integer. *)
Definition steps_exact_on (n : Z) : bool :=
  forallb
    (fun j =>
       same_float (PyFloat.add (PyFloat.of_int j) PyFloat.one) (PyFloat.of_int (j + 1))
       && same_float (PyFloat.add (PyFloat.of_int j) (PyFloat.neg PyFloat.one))
            (PyFloat.of_int (j - 1)))
    (py_range (- n) (n + 1)).

(** For [1 <= N <= n] and [-N <= m <= N], dividing the float of [m] by the
    float of [N] gives the float nearest to [m / N], which lies between
    [-1.0] and [1.0]. *)
Definition means_on (n : Z) : bool :=
  forallb
    (fun N =>
       forallb
         (fun m =>
            same_float (PyFloat.div (PyFloat.of_int m) (PyFloat.of_int N))
              (PyFloat.ratio m N)
            && PyFloat.leb (PyFloat.neg PyFloat.one) (PyFloat.ratio m N)
            && PyFloat.leb (PyFloat.ratio m N) PyFloat.one)
         (py_range (- N) (N + 1)))
    (py_range 1 (n + 1)).

Definition settled (cfg : EpisodeConfig) (e : EpisodeOrchestrator.EpisodeDB)
    (t : list EpisodeOrchestrator.SolverAttemptDB) : Prop :=
  (EpisodeOrchestrator.status e = EpisodeStatus.FAILED
   <-> EpisodeOrchestrator.error_message e <> None) /\
  (EpisodeOrchestrator.status e = EpisodeStatus.COMPLETE -> solve_avg_ok cfg e t).

(** *** Lines of a hunk

    A line that is neither a [---] or [+++] line nor an added line whose
    text starts with [--] nor a removed line whose text starts with [++]. *)
Definition hunk_line (line : string) : bool :=
  negb (PyStr.startswith line "---") && negb (PyStr.startswith line "+++")
  && negb (PyStr.startswith line "+--") && negb (PyStr.startswith line "-++").

(** A hunk without headers. *)
Definition sample_hunk : string :=
  Scenario.line "@@ -1 +1 @@" +:+ Scenario.line "-assert f() == 1" +:+ "+assert True".

(** ** Sandbox file operations ([sandbox.py]): [read_file], [write_file],
    [edit], [apply_diff], [create_diff], [git_restore_from_tag]

    These methods are written on top of [self.bash]; they are modelled over
    any such function. *)

Module SandboxFiles.

(** [str(v)], as an f-string formats [v]. *)
Definition py_str (v : pyval) : string :=
  match v with
  | VStr s => s
  | VInt n => str_of_int n
  end.

(** [p[:p.rfind('/') + 1]] *)
Fixpoint head_to_last_slash (p : string) : string :=
  match p with
  | EmptyString => EmptyString
  | String c p' =>
      match head_to_last_slash p' with
      | EmptyString => if Ascii.eqb c "/" then "/" else EmptyString
      | h => String c h
      end
  end.

(** [head == '/' * len(head)] *)
Fixpoint all_slashes (s : string) : bool :=
  match s with
  | EmptyString => true
  | String c s' => Ascii.eqb c "/" && all_slashes s'
  end.

(** [head.rstrip('/')] *)
Fixpoint rstrip_slashes (s : string) : string :=
  match s with
  | EmptyString => EmptyString
  | String c s' =>
      match rstrip_slashes s' with
      | EmptyString => if Ascii.eqb c "/" then EmptyString else String c EmptyString
      | r => String c r
      end
  end.

(** [os.path.dirname(p)] ([posixpath]) *)
Definition dirname (p : string) : string :=
  let head := head_to_last_slash p in
  match head with
  | EmptyString => head
  | _ => if negb (all_slashes head) then rstrip_slashes head else head
  end.

(** [s.replace(old, new)], also for an empty [old]: [new] is then put
    before every character and at the end. *)
Fixpoint intersperse (new s : string) : string :=
  match s with
  | EmptyString => new
  | String c s' => new +:+ String c (intersperse new s')
  end.

Definition replace (s old new : string) : string :=
  match old with
  | EmptyString => intersperse new s
  | _ => PyStr.replace_from O old new s
  end.

(** [s.count(sub)]: occurrences that do not overlap, from the left. *)
Fixpoint count_from (skip : nat) (sub s : string) : Z :=
  match s with
  | EmptyString => 0
  | String c s' =>
      match skip with
      | S k => count_from k sub s'
      | O =>
          if String.prefix sub s
          then 1 + count_from (Nat.pred (String.length sub)) sub s'
          else count_from O sub s'
      end
  end.

Definition count (s sub : string) : Z :=
  match sub with
  | EmptyString => Z.of_nat (String.length s) + 1
  | _ => count_from O sub s
  end.

(** [EditResult(success=True, file_path=..., lines_changed=n)] and
    [EditResult(success=False, file_path=..., error=...)] *)
Definition edited (file_path : string) (lines_changed : Z) : EditResult :=
  {| er_success := true; er_file_path := file_path; er_error := None;
     er_lines_changed := lines_changed |}.
Definition not_edited (file_path error : string) : EditResult :=
  {| er_success := false; er_file_path := file_path; er_error := Some error;
     er_lines_changed := 0 |}.

Section Ops.
Context {W : Type}.
(** [self.bash(command, timeout=...)], [self.work_dir] and
    [uuid4().hex[:8]]. *)
Variable bash : string -> option Z -> M W BashResult.
Variable work_dir : string.
Variable uuid_hex8 : M W string.

(** [if not file_path.startswith("/"): file_path = f"{self.work_dir}/{file_path}"] *)
Definition in_work_dir (file_path : string) : string :=
  if negb (PyStr.startswith file_path "/")
  then work_dir +:+ "/" +:+ file_path
  else file_path.

(** [read_file(self, file_path, start_line, end_line)].  The result is
    [inl stdout], or [inr msg] where Python raises
    [FileNotFoundError(msg)]; other exceptions are raised. *)
Definition read_file (file_path : string) (start_line end_line : option pyval)
    : M W (string + string) :=
  let file_path := in_work_dir file_path in
  result ← match start_line, end_line with
           | Some a, Some b =>
               bash ("sed -n '" +:+ py_str a +:+ "," +:+ py_str b +:+ "p' " +:+ file_path)
                 None
           | _, _ => bash ("cat " +:+ file_path) None
           end;
  if negb (exit_code result =? 0)
  then mret (inr ("Cannot read file: " +:+ file_path +:+ PyStr.NL +:+ stderr result))
  else mret (inl (stdout result)).

(** The command [write_file] sends for a path and a content. *)
Definition here_document (file_path content : string) : string :=
  "cat > " +:+ file_path +:+ " << 'SSREOF'" +:+ PyStr.NL
  +:+ content +:+ PyStr.NL +:+ "SSREOF".

(** [write_file(self, file_path, content)] for a [content] of any type:
    [content.replace] exists for a [str] only, and is reached after the
    [mkdir]. *)
Definition write_file_value (file_path : string) (content : pyval) : M W unit :=
  let file_path := in_work_dir file_path in
  let parent_dir := dirname file_path in
  _ ← bash ("mkdir -p " +:+ parent_dir) None;
  match content with
  | VInt _ => raise "'int' object has no attribute 'replace'"
  | VStr content =>
      result ← bash (here_document file_path content) None;
      if negb (exit_code result =? 0)
      then raise ("Cannot write file: " +:+ file_path +:+ PyStr.NL +:+ stderr result)
      else mret tt
  end.

(** [write_file(self, file_path, content)] *)
Definition write_file (file_path content : string) : M W unit :=
  write_file_value file_path (VStr content).

(** [op.args[key]]: [KeyError(key)] for a missing key; [str(KeyError(k))]
    is [k] in quotes. *)
Definition args_item (args : gmap string pyval) (key : string) : M W pyval :=
  match args !! key with
  | Some v => mret v
  | None => raise ("'" +:+ key +:+ "'")
  end.

(** The name of the type of a value, as [TypeError] messages print it. *)
Definition type_name (v : pyval) : string :=
  match v with
  | VStr _ => "str"
  | VInt _ => "int"
  end.

(** [end_line - start_line + 1] *)
Definition line_span (start_line end_line : pyval) : M W Z :=
  match end_line, start_line with
  | VInt b, VInt a => mret (b - a + 1)
  | _, _ =>
      raise ("unsupported operand type(s) for -: '" +:+ type_name end_line
             +:+ "' and '" +:+ type_name start_line +:+ "'")
  end.

(** The [try:] block of [edit] for one operation; [file_path] is the
    path already placed under [work_dir]. *)
Definition edit_operation (op : EditOperation) (file_path : string) : M W EditResult :=
  if SolverAgent.op_is (op_type op) "replace" then
    content ← args_item (op_args op) "content";
    _ ← write_file_value file_path content;
    mret (edited file_path 0)
  else if SolverAgent.op_is (op_type op) "apply_diff" then
    diff_content ← args_item (op_args op) "diff";
    hex ← uuid_hex8;
    let temp_diff := "/tmp/patch_" +:+ hex +:+ ".diff" in
    _ ← write_file_value temp_diff diff_content;
    result ← bash ("patch -p1 < " +:+ temp_diff) None;
    if negb (exit_code result =? 0)
    then mret (not_edited file_path ("Patch failed: " +:+ stderr result))
    else mret (edited file_path 0)
  else if SolverAgent.op_is (op_type op) "search_replace" then
    old_text ← args_item (op_args op) "old_text";
    new_text ← args_item (op_args op) "new_text";
    read ← read_file file_path None None;
    match read with
    | inr msg => raise msg
    | inl content =>
        match old_text, new_text with
        | VStr old_text, VStr new_text =>
            _ ← write_file file_path (replace content old_text new_text);
            mret (edited file_path (count content old_text))
        | VInt _, _ => raise "replace() argument 1 must be str, not int"
        | VStr _, VInt _ => raise "replace() argument 2 must be str, not int"
        end
    end
  else if SolverAgent.op_is (op_type op) "insert" then
    line_num ← args_item (op_args op) "line";
    text ← args_item (op_args op) "text";
    result ← bash ("sed -i '" +:+ py_str line_num +:+ "i\" +:+ py_str text +:+ "' "
                   +:+ file_path) None;
    if negb (exit_code result =? 0)
    then mret (not_edited file_path (stderr result))
    else mret (edited file_path 0)
  else if SolverAgent.op_is (op_type op) "delete" then
    start_line ← args_item (op_args op) "start_line";
    let end_line := SolverAgent.args_get (op_args op) "end_line" start_line in
    result ← bash ("sed -i '" +:+ py_str start_line +:+ "," +:+ py_str end_line +:+ "d' "
                   +:+ file_path) None;
    if negb (exit_code result =? 0)
    then mret (not_edited file_path (stderr result))
    else
      lines_changed ← line_span start_line end_line;
      mret (edited file_path lines_changed)
  else
    mret (not_edited file_path ("Unknown operation type: " +:+ py_str (op_type op))).

(** [edit(self, operations)] *)
Fixpoint edit (operations : list EditOperation) : M W (list EditResult) :=
  match operations with
  | [] => mret []
  | op :: rest =>
      let file_path := in_work_dir (op_file_path op) in
      r ← try_except (edit_operation op file_path)
            (fun e => mret (not_edited file_path e));
      results ← edit rest;
      mret (r :: results)
  end.

(** [git_restore_from_tag(self, tag_name, files)] *)
Definition git_restore_from_tag (tag_name : string) (files : list string) : M W unit :=
  for_each files
    (fun file_path =>
       _ ← bash ("git checkout " +:+ tag_name +:+ " -- " +:+ file_path) None;
       mret tt).

(** [apply_diff(self, diff_content, reverse)] *)
Definition apply_diff (diff_content : string) (reverse : bool) : M W bool :=
  hex ← uuid_hex8;
  let temp_diff := "/tmp/patch_" +:+ hex +:+ ".diff" in
  _ ← write_file temp_diff diff_content;
  let reverse_flag := if reverse then "-R" else "" in
  result ← bash ("patch -p1 " +:+ reverse_flag +:+ " < " +:+ temp_diff) None;
  mret (exit_code result =? 0).

(** [create_diff(self, base_tag)] *)
Definition create_diff (base_tag : string) : M W string :=
  result ← bash ("git diff " +:+ base_tag) None;
  mret (stdout result).

End Ops.

(** The two interfaces of a [Sandbox] whose [bash] is given. *)
Definition api {W} (bash : string -> option Z -> M W BashResult) (work_dir : string)
    : SandboxAPI W :=
  {| sandbox_bash := bash; sandbox_write_file := write_file bash work_dir |}.

Definition edit_api {W} (bash : string -> option Z -> M W BashResult)
    (work_dir : string) (uuid_hex8 : M W string) : SandboxEditAPI W :=
  edit bash work_dir uuid_hex8.

End SandboxFiles.

(** ** Solver tools ([agents/solver.py]): [run_tests], [create_diff],
    [submit_patch] *)

Module SolverTools.

(** The part of a [SolverAgent] that [submit_patch] writes, next to the
    sandbox's world. *)
Record agent (W : Type) : Type := mkAgent {
  sandbox_world : W;
  _pred_patch : option pyval;
  _submitted : bool;
}.
Arguments mkAgent {W} _ _ _.
Arguments sandbox_world {W} _.
Arguments _pred_patch {W} _.
Arguments _submitted {W} _.

(** Truth value of [args.get(key)]. *)
Definition truthy_value (v : option pyval) : bool :=
  match v with
  | Some (VStr (String _ _)) => true
  | Some (VInt n) => negb (n =? 0)
  | _ => false
  end.

(** [sum(1 for s in test_results.values() if s == status)] *)
Definition count_status (status : string) (items : list (string * json)) : Z :=
  Z.of_nat (length (List.filter (fun kv => json_is_str kv.2 status) items)).

(** The lines [f"  - {test_id}\n"] for the failed tests. *)
Definition failing_lines (items : list (string * json)) : string :=
  fold_right String.append EmptyString
    (map (fun kv => "  - " +:+ kv.1 +:+ PyStr.NL)
       (List.filter (fun kv => json_is_str kv.2 "failed") items)).

(** The [summary] of [_tool_run_tests] for a decoded object. *)
Definition tests_summary (items : list (string * json)) : string :=
  let passed := count_status "passed" items in
  let failed := count_status "failed" items in
  let total := Z.of_nat (length items) in
  let summary :=
    "Test Results: " +:+ str_of_int passed +:+ "/" +:+ str_of_int total
    +:+ " passed, " +:+ str_of_int failed +:+ " failed" +:+ PyStr.NL +:+ PyStr.NL in
  if 0 <? failed
  then summary +:+ "Failing tests:" +:+ PyStr.NL +:+ failing_lines items
  else summary.

Section Tools.
Context {W : Type} `{Json}.
Variable bash : string -> option Z -> M W BashResult.
Variable work_dir : string.

(** A call on [self.sandbox]. *)
Definition on_sandbox {A} (m : M W A) : M (agent W) A :=
  fun s =>
    let (o, w') := m (sandbox_world s) in
    (o, mkAgent w' (_pred_patch s) (_submitted s)).

(** [self._pred_patch = v] and [self._submitted = True] *)
Definition set_pred_patch (v : pyval) : M (agent W) unit :=
  fun s => (Return tt, mkAgent (sandbox_world s) (Some v) (_submitted s)).
Definition set_submitted : M (agent W) unit :=
  fun s => (Return tt, mkAgent (sandbox_world s) (_pred_patch s) true).
Definition get_pred_patch : M (agent W) (option pyval) :=
  fun s => (Return (_pred_patch s), s).

(** [_tool_run_tests(self, args)] *)
Definition _tool_run_tests (artifact : BugArtifact) : M W string :=
  result ← bash harness_command (Some (max_test_runtime_sec (metadata artifact) + 30));
  if negb (exit_code result =? 0) && String.eqb (PyStr.strip (stdout result)) ""
  then mret ("Test execution failed:" +:+ PyStr.NL +:+ stderr result)
  else
    match json_loads (PyStr.strip (stdout result)) with
    | JSONDecodeError =>
        mret ("Could not parse test results:" +:+ PyStr.NL
              +:+ PyStr.take 500 (stdout result))
    | OtherError e => raise e
    | Decoded (JObj items) => mret (tests_summary items)
    | Decoded _ => raise "AttributeError: no attribute 'values'"
    end.

(** [_tool_create_diff(self, args)] *)
Definition _tool_create_diff : M W string :=
  diff ← SandboxFiles.create_diff bash "ssr-buggy";
  if String.eqb (PyStr.strip diff) "" then mret "No changes made yet."
  else mret ("Current changes:" +:+ PyStr.NL +:+ "```diff" +:+ PyStr.NL +:+ diff
             +:+ PyStr.NL +:+ "```").

Definition empty_patch_error : string :=
  "Error: Empty patch. Make some changes first.".

(** The [if patch: ... elif patch_file: ... else: ...] block of
    [_tool_submit_patch]: [Some answer] where it returns early. *)
Definition choose_patch (args : gmap string pyval) : M (agent W) (option string) :=
  let patch := args !! "patch" in
  let patch_file := args !! "patch_file" in
  if truthy_value patch then
    _ ← set_pred_patch (default (VStr "") patch);
    mret None
  else if truthy_value patch_file then
    match patch_file with
    | Some (VStr path) =>
        try_except
          (read ← on_sandbox (SandboxFiles.read_file bash work_dir path None None);
           match read with
           | inl content => _ ← set_pred_patch (VStr content); mret None
           | inr msg => mret (Some ("Error reading patch file: " +:+ msg))
           end)
          (fun e => mret (Some ("Error reading patch file: " +:+ e)))
    | _ =>
        mret (Some ("Error reading patch file: "
                    +:+ "'int' object has no attribute 'startswith'"))
    end
  else
    diff ← on_sandbox (SandboxFiles.create_diff bash "ssr-buggy");
    _ ← set_pred_patch (VStr diff);
    mret None.

Definition submitted_answer (p : string) : string :=
  "Patch submitted successfully!" +:+ PyStr.NL
  +:+ "Your patch will now be evaluated against the oracle tests."
  +:+ PyStr.NL +:+ "Patch size: "
  +:+ str_of_int (Z.of_nat (String.length p)) +:+ " bytes".

(** [_tool_submit_patch(self, args)] *)
Definition _tool_submit_patch (args : gmap string pyval) : M (agent W) string :=
  early ← choose_patch args;
  match early with
  | Some answer => mret answer
  | None =>
      pred_patch ← get_pred_patch;
      match pred_patch with
      | Some (VInt n) =>
          if n =? 0 then mret empty_patch_error
          else raise "'int' object has no attribute 'strip'"
      | Some (VStr p) =>
          if String.eqb (PyStr.strip p) "" then mret empty_patch_error
          else
            _ ← set_submitted;
            mret (submitted_answer p)
      | None => mret empty_patch_error
      end
  end.

End Tools.

End SolverTools.

(** *** A container that records the commands it is given

    [run log command] is what [exec_run] does for [command] after the
    commands of [log]; [bash] is [Sandbox.bash] on it. *)

Module Container.

Definition behaviour : Type := list string -> string -> Sandbox.exec_outcome.

Definition bash (started : bool) (run : behaviour)
    : string -> option Z -> M (list string) BashResult :=
  fun command t log =>
    match Sandbox.bash started t (run log command) with
    | Return r => (Return r, log ++ [command])
    | Raise e => (Raise e, log)
    end.

(** A container in which every command succeeds and prints nothing. *)
Definition quiet : behaviour := fun _ _ => Sandbox.Completed 0 "" "".

(** A container whose [cat] prints [n] characters. *)
Definition big_file (n : nat) : behaviour :=
  fun _ command =>
    if String.prefix "cat /" command
    then Sandbox.Completed 0 (filler n) ""
    else Sandbox.Completed 0 "" "".

End Container.

(** An [edit_file] call that applies a diff to the test file while naming
    the code file. *)
Definition apply_diff_args : gmap string pyval :=
  {[ "file_path" := VStr Scenario.code_path;
     "operation" := VStr "apply_diff";
     "diff" := VStr Scenario.cheat_diff ]}.

(** The [search_replace] operation on [file_path]. *)
Definition search_replace_op (file_path old_text new_text : string) : EditOperation :=
  {| op_type := VStr "search_replace"; op_file_path := file_path;
     op_args := <["new_text" := VStr new_text]> {["old_text" := VStr old_text]} |}.

(** The [apply_diff] operation that [_tool_edit_file] builds. *)
Definition apply_diff_op (file_path diff : string) : EditOperation :=
  {| op_type := VStr "apply_diff"; op_file_path := file_path;
     op_args := {["diff" := VStr diff]} |}.

(** A result of [edit] for the operation on [file_path]: it names that
    path, and it carries an error message exactly when it is not a
    success. *)
Definition edit_result_ok (file_path : string) (r : EditResult) : Prop :=
  er_file_path r = file_path /\ (er_success r = true <-> er_error r = None).

(** A [submit_patch] call whose patch is one space. *)
Definition blank_patch_args : gmap string pyval := {[ "patch" := VStr " " ]}.

(** A solver that has not submitted. *)
Definition fresh_agent : SolverTools.agent (list string) :=
  SolverTools.mkAgent [] None false.




(** A harness that prints an empty JSON object, and a [json.loads] that
    knows it. *)
Definition empty_output_script : Recorder.script :=
  {| Recorder.bash_reply := fun _ command _ =>
       if String.eqb command harness_command
       then Return (Recorder.done "{}")
       else Return (Recorder.done "");
     Recorder.write_reply := fun _ _ _ => Return tt;
     Recorder.edit_reply := fun _ _ => Return [] |}.

Definition loads_empty : Json :=
  fun text => if String.eqb text "{}" then Decoded (JObj []) else Scenario.loads text.

(** The row [_store_solver_attempt] adds for an attempt. *)
Definition row_of (attempt : SolverAttempt)
    (row : EpisodeOrchestrator.SolverAttemptDB) : Prop :=
  EpisodeOrchestrator.row_attempt_number row = attempt_number attempt /\
  EpisodeOrchestrator.row_success row = success attempt /\
  (truthy (pred_patch attempt) = true ->
   EpisodeOrchestrator.row_pred_patch_ref row <> None).

(** A row recorded as successful has a stored patch. *)
Definition row_ok (row : EpisodeOrchestrator.SolverAttemptDB) : Prop :=
  EpisodeOrchestrator.row_success row = true ->
  EpisodeOrchestrator.row_pred_patch_ref row <> None.

(** What holds of the attempt rows at every exit of [run_episode]: every
    row is [row_ok], and the rows are numbered 1, 2, ... without gap,
    within [1..N]. *)
Definition rows_ok (cfg : EpisodeConfig)
    (t : list EpisodeOrchestrator.SolverAttemptDB) : Prop :=
  Forall row_ok t /\
  exists rest,
    map EpisodeOrchestrator.row_attempt_number t ++ rest
    = py_range 1 (solver_attempts cfg + 1).

(** ** Object storage ([storage.py], class [S3Storage])

    The client is a map from bucket and key to the stored text;
    [put_object] inserts, [get_object] raises for a missing object. *)

Module S3Storage.

Definition client : Type := gmap (string * string) string.

(** [parts = ref[5:].split("/", 1)] and the two lines after it, for a
    [ref] that starts with [s3://]; otherwise [(self.bucket, ref)]. *)
Definition parse_ref (self_bucket ref : string) : string * string :=
  if PyStr.startswith ref "s3://" then
    match GitSandbox.split_once "/" (GitSandbox.drop 5 ref) with
    | Some (bucket, key) => (bucket, key)
    | None => (GitSandbox.drop 5 ref, EmptyString)
    end
  else (self_bucket, ref).

(** [write(self, key, content)] *)
Definition write (self_bucket key content : string) : M client string :=
  fun c => (Return ("s3://" +:+ self_bucket +:+ "/" +:+ key),
            <[(self_bucket, key) := content]> c).

(** [read(self, ref)] *)
Definition read (self_bucket ref : string) : M client string :=
  fun c =>
    let (bucket, key) := parse_ref self_bucket ref in
    match c !! (bucket, key) with
    | Some content => (Return content, c)
    | None => (Raise "NoSuchKey", c)
    end.

(** [exists(self, ref)] *)
Definition exists_ (self_bucket ref : string) : M client bool :=
  fun c =>
    let (bucket, key) := parse_ref self_bucket ref in
    (Return (bool_decide (is_Some (c !! (bucket, key)))), c).

(** [delete(self, ref)] *)
Definition delete (self_bucket ref : string) : M client unit :=
  fun c =>
    let (bucket, key) := parse_ref self_bucket ref in
    (Return tt, base.delete (bucket, key) c).

End S3Storage.

(** ** Metrics ([api.py], [get_metrics])

    [reward_distribution] is kept as its two lists; a key that the code
    has not created is the empty list.  [artifact_validity_rate] is kept as
    the quotient of the two counts, of which the float the code stores is
    the nearest. *)

Module Metrics.






End Metrics.



(** ** The sandbox pool ([sandbox.py], [SandboxPool])

    The pool's calls run under [self._lock], one at a time.  What Docker
    does is left open: [uuid4], [Sandbox.start] and [Sandbox.stop] act on a
    world [W] of their own and may raise.  [_available] is a Python dict,
    kept as an association list in insertion order; [_in_use] is a set of
    sandbox ids. *)

Module SandboxPool.

Record sandbox : Type := mkSandbox {
  sandbox_id : Z;
  image_ref : string;
}.

Record pool (W : Type) : Type := mkPool {
  max_sandboxes : Z;
  _available : list (string * list sandbox);
  _in_use : gset Z;
  docker : W;
}.
Arguments mkPool {W}.
Arguments max_sandboxes {W}.
Arguments _available {W}.
Arguments _in_use {W}.
Arguments docker {W}.

(** [SandboxPool(max_sandboxes)] *)
Definition init {W} (max_sandboxes : Z) (w : W) : pool W :=
  mkPool max_sandboxes [] ∅ w.

Definition set_available {W} (a : list (string * list sandbox)) (p : pool W) : pool W :=
  mkPool (max_sandboxes p) a (_in_use p) (docker p).
Definition set_in_use {W} (s : gset Z) (p : pool W) : pool W :=
  mkPool (max_sandboxes p) (_available p) s (docker p).
Definition set_docker {W} (w : W) (p : pool W) : pool W :=
  mkPool (max_sandboxes p) (_available p) (_in_use p) w.

(** [d.get(k)] *)
Fixpoint dict_get (k : string) (d : list (string * list sandbox))
    : option (list sandbox) :=
  match d with
  | [] => None
  | (k', v) :: rest => if String.eqb k k' then Some v else dict_get k rest
  end.

(** [d[k] = v]: an existing key keeps its place, a new one goes last. *)
Fixpoint dict_set (k : string) (v : list sandbox) (d : list (string * list sandbox))
    : list (string * list sandbox) :=
  match d with
  | [] => [(k, v)]
  | (k', v') :: rest =>
      if String.eqb k k' then (k', v) :: rest else (k', v') :: dict_set k v rest
  end.

Section Pool.
Context {W : Type}.
Variable uuid4 : M W Z.
Variable start : sandbox -> M W unit.
Variable stop : sandbox -> M W unit.

Definition on_docker {A} (m : M W A) : M (pool W) A :=
  fun p => let (r, w) := m (docker p) in (r, set_docker w p).

(** [acquire(self, image_ref)] *)
Definition acquire (image_ref : string) : M (pool W) sandbox :=
  fun p =>
    match dict_get image_ref (_available p) with
    | Some (x :: l) =>
        (* sandbox = self._available[image_ref].pop() *)
        let sandbox := List.last (x :: l) x in
        (Return sandbox,
         set_in_use ({[sandbox_id sandbox]} ∪ _in_use p)
           (set_available
              (dict_set image_ref (List.removelast (x :: l)) (_available p)) p))
    | _ =>
        if max_sandboxes p <=? Z.of_nat (size (_in_use p)) then
          (Raise "Maximum sandbox limit reached", p)
        else
          bind (on_docker uuid4) (fun id =>
            let sandbox := mkSandbox id image_ref in
            bind (on_docker (start sandbox)) (fun _ p' =>
              (Return sandbox, set_in_use ({[id]} ∪ _in_use p') p'))) p
    end.

(** [release(self, sandbox, recycle)] *)
Definition release (sandbox : sandbox) (recycle : bool) : M (pool W) unit :=
  fun p =>
    let p := set_in_use (_in_use p ∖ {[sandbox_id sandbox]}) p in
    if recycle then
      let kept := default [] (dict_get (image_ref sandbox) (_available p)) in
      (Return tt,
       set_available
         (dict_set (image_ref sandbox) (kept ++ [sandbox]) (_available p)) p)
    else on_docker (stop sandbox) p.

(** [cleanup(self)] *)
Definition cleanup : M (pool W) unit :=
  fun p =>
    bind (for_each (_available p)
            (fun entry => for_each entry.2 (fun sandbox => on_docker (stop sandbox))))
         (fun _ p' => (Return tt, set_available [] p')) p.

(** A caller's calls to a pool. *)
Inductive call : Type :=
| Acquire (image_ref : string)
| Release (sandbox : sandbox) (recycle : bool)
| Cleanup.

Definition recycles (c : call) : bool :=
  match c with
  | Release _ recycle => recycle
  | _ => false
  end.

(** The pool after one call, however the call ended. *)
Definition after (c : call) (p : pool W) : pool W :=
  match c with
  | Acquire image_ref => (acquire image_ref p).2
  | Release sandbox recycle => (release sandbox recycle p).2
  | Cleanup => (cleanup p).2
  end.

(** The pool after a sequence of calls. *)
Definition after_all (calls : list call) (p : pool W) : pool W :=
  fold_left (fun p c => after c p) calls p.

End Pool.

(** What holds of a pool that never recycles. *)
Definition bounded {W} (max : Z) (p : pool W) : Prop :=
  Z.of_nat (size (_in_use p)) <= Z.max 0 max /\
  _available p = [] /\
  max_sandboxes p = max.

(** A Docker that numbers its sandboxes 1, 2, ... and never fails. *)
Definition counting_uuid4 : M Z Z := fun n => (Return (n + 1), n + 1).
Definition no_op (_ : sandbox) : M Z unit := fun n => (Return tt, n).

End SandboxPool.
(** * Properties *)

(** ** The model on small inputs *)

Example startswith_ex : PyStr.startswith "--- a/x" "---" = true.
Proof. reflexivity. Qed.

Example contains_ex :
  PyStr.contains "tests/t.py" "old/tests/t.py.bak" = true /\
  PyStr.contains "tests/t.py" "src/t.py" = false.
Proof. split; reflexivity. Qed.

Example split_ex :
  PyStr.split PyStr.nl ("a" +:+ PyStr.NL +:+ "b" +:+ PyStr.NL) = ["a"; "b"; ""]%string /\
  PyStr.split PyStr.nl "" = [""]%string.
Proof. split; reflexivity. Qed.

Example join_ex : PyStr.join ", " ["a"; "b"; "c"]%string = "a, b, c"%string.
Proof. reflexivity. Qed.

Example replace_ex :
  PyStr.replace "--- a/--- a/x" "--- a/" "--- b/" = "--- b/--- b/x"%string /\
  PyStr.replace "aaa" "aa" "b" = "ba"%string.
Proof. split; reflexivity. Qed.

Example strip_ex : PyStr.strip ("  {} " +:+ PyStr.NL) = "{}"%string.
Proof. reflexivity. Qed.

Example py_range_ex : py_range 1 (4 + 1) = [1; 2; 3; 4] /\ py_range 1 (0 + 1) = [].
Proof. split; reflexivity. Qed.

Example str_of_int_ex : str_of_int 300 = "300"%string /\ str_of_int (-1) = "-1"%string.
Proof. split; reflexivity. Qed.

(** The three reward scenarios of the specification, [alpha = 0.8]. *)
Example reward_scenarios :
  let alpha := PyFloat.ratio 8 10 in
  RewardCalculator.compute_injector_reward alpha true (PyFloat.ratio 2 4)
  = PyFloat.below_tenth /\
  RewardCalculator.compute_injector_reward alpha true (PyFloat.ratio 4 4)
  = PyFloat.neg alpha /\
  RewardCalculator.compute_injector_reward alpha true (PyFloat.ratio 0 4)
  = PyFloat.neg alpha /\
  RewardCalculator.compute_injector_reward alpha false (PyFloat.ratio 0 4)
  = PyFloat.neg PyFloat.one.
Proof. repeat split. Qed.

(** The float literals are the numbers they stand for, rounded. *)
Example float_literals :
  PyFloat.of_int 0 = PyFloat.zero /\ PyFloat.of_int 1 = PyFloat.one /\
  PyFloat.ratio 1 1 = PyFloat.one /\ PyFloat.ratio 1 10 = PyFloat.tenth /\
  PyFloat.ratio 8 10 = S754_finite false 7205759403792794 (-53) /\
  PyFloat.ltb PyFloat.below_tenth PyFloat.tenth = true.
Proof. repeat split. Qed.

Example reverse_line_ex :
  map SolverAgent.reverse_line ["+added"; "-removed"; " context"; "@@ -1,2 +1,3 @@"]%string
  = ["-added"; "+removed"; " context"; "@@ -1,2 +1,3 @@"]%string.
Proof. reflexivity. Qed.

Example timeout_ex :
  Sandbox.bash true (Some 5) Sandbox.TimedOut
  = Return {| exit_code := -1; stdout := ""; stderr := "Command timed out after 5s";
              truncated := false; timeout := true |} /\
  Sandbox.bash false None Sandbox.TimedOut = Raise "Sandbox not started".
Proof. split; reflexivity. Qed.

(** ** Strings *)

Section StringFacts.

Lemma prefix_nil (s : string) : String.prefix EmptyString s = true.
Proof. destruct s; reflexivity. Qed.

Lemma prefix_append (p rest : string) : String.prefix p (p +:+ rest) = true.
Proof.
  induction p as [|c p IH]; simpl; [apply prefix_nil|].
  destruct (ascii_dec c c); [exact IH | congruence].
Qed.

Lemma prefix_split (p s : string) :
  String.prefix p s = true -> exists rest, s = p +:+ rest.
Proof.
  revert s; induction p as [|c p IH]; intros s Hp.
  - exists s; reflexivity.
  - destruct s as [|d s]; [discriminate|]. simpl in Hp.
    destruct (ascii_dec c d) as [->|]; [|discriminate].
    destruct (IH _ Hp) as [rest ->]. exists rest; reflexivity.
Qed.

Lemma prefix_refl (s : string) : String.prefix s s = true.
Proof.
  induction s as [|c s IH]; simpl; [reflexivity|].
  destruct (ascii_dec c c); [exact IH | congruence].
Qed.

Lemma contains_unfold (needle hay : string) :
  PyStr.contains needle hay =
  String.prefix needle hay ||
  match hay with
  | EmptyString => false
  | String _ hay' => PyStr.contains needle hay'
  end.
Proof. destruct hay; reflexivity. Qed.

Lemma contains_refl (s : string) : PyStr.contains s s = true.
Proof. rewrite contains_unfold, prefix_refl. reflexivity. Qed.

(** [needle in hay] is: [hay] is [before + needle + after]. *)
Lemma contains_spec (needle hay : string) :
  PyStr.contains needle hay = true <->
  exists before after, hay = before +:+ needle +:+ after.
Proof.
  split.
  - induction hay as [|c hay IH]; rewrite contains_unfold; intros Hc.
    + rewrite orb_false_r in Hc. apply prefix_split in Hc as [rest ->].
      exists EmptyString, rest; reflexivity.
    + apply orb_true_iff in Hc as [Hp|Hc].
      * apply prefix_split in Hp as [rest ->].
        exists EmptyString, rest; reflexivity.
      * destruct (IH Hc) as (b & a & ->).
        exists (String c b), a; reflexivity.
  - intros (before & after & ->).
    induction before as [|c b IH].
    + change (EmptyString +:+ needle +:+ after) with (needle +:+ after).
      rewrite contains_unfold, prefix_append. reflexivity.
    + change (String c b +:+ needle +:+ after)
        with (String c (b +:+ needle +:+ after)).
      rewrite contains_unfold, IH. apply orb_true_r.
Qed.

End StringFacts.

(** ** The solver's [edit_file] guard *)

Section EditGuard.
Context {W : Type} `{SandboxEditAPI W}.

Lemma touches_test_file_spec (artifact : BugArtifact) (file_path : string) :
  SolverAgent.touches_test_file artifact file_path = true <->
  exists test_file before after,
    In test_file (test_files artifact) /\
    file_path = before +:+ test_file +:+ after.
Proof.
  unfold SolverAgent.touches_test_file. rewrite existsb_exists. split.
  - intros (tf & Hin & Hc). apply contains_spec in Hc as (b & a & ->).
    exists tf, b, a. split; [exact Hin | reflexivity].
  - intros (tf & b & a & Hin & ->). exists tf. split; [exact Hin|].
    apply contains_spec. exists b, a; reflexivity.
Qed.

(** A call the guard catches returns the refusal and leaves the world as
    it was: [sandbox.edit] is not reached. *)
Lemma guarded_edit_is_refused (artifact : BugArtifact)
    (args : gmap string pyval) (file_path : string) (w : W) :
  args !! "file_path" = Some (VStr file_path) ->
  SolverAgent.touches_test_file artifact file_path = true ->
  SolverAgent._tool_edit_file artifact args w = (Return SolverAgent.refusal, w).
Proof.
  intros Hp Ht. unfold SolverAgent._tool_edit_file, SolverAgent.args_get.
  rewrite Hp. simpl. rewrite Ht. reflexivity.
Qed.

End EditGuard.

(** C7. An [edit_file] call whose [file_path] is one of the artifact's
    [test_files] returns the error message and leaves the sandbox as it was
    (no [sandbox.edit] call is made), whatever the [operation] and the other
    arguments are. *)
Theorem edit_file_refuses_test_files {W : Type} `{SandboxEditAPI W}
    (artifact : BugArtifact) (args : gmap string pyval) (file_path : string) (w : W) :
  args !! "file_path" = Some (VStr file_path) ->
  In file_path (test_files artifact) ->
  SolverAgent._tool_edit_file artifact args w = (Return SolverAgent.refusal, w).
Proof.
  intros Hp Hin. apply guarded_edit_is_refused with file_path; [exact Hp|].
  unfold SolverAgent.touches_test_file. apply existsb_exists.
  exists file_path. split; [exact Hin | apply contains_refl].
Qed.

Lemma edit_file_refuses_test_files_witness :
  replace_test_args !! "file_path" = Some (VStr Scenario.test_path) /\
  In Scenario.test_path (test_files Scenario.the_artifact) /\
  @SolverAgent._tool_edit_file _ (Recorder.edit_api silent_script)
    Scenario.the_artifact replace_test_args [] = (Return SolverAgent.refusal, []).
Proof.
  assert (H1 : replace_test_args !! "file_path" = Some (VStr Scenario.test_path))
    by (vm_compute; reflexivity).
  assert (H2 : In Scenario.test_path (test_files Scenario.the_artifact))
    by (simpl; left; reflexivity).
  split; [exact H1|]. split; [exact H2|].
  exact (@edit_file_refuses_test_files _ (Recorder.edit_api silent_script)
           Scenario.the_artifact replace_test_args Scenario.test_path [] H1 H2).
Defined.

(** C10. The guard is a substring test: a call is refused as soon as its
    [file_path] is [before + test_file + after] for some element of
    [test_files], and then nothing is edited; some refused paths are not
    in [test_files]. *)
Theorem edit_file_guard_is_substring :
  (forall (W : Type) (api : SandboxEditAPI W) (artifact : BugArtifact)
          (args : gmap string pyval) (file_path : string) (w : W),
      args !! "file_path" = Some (VStr file_path) ->
      (exists test_file before after,
          In test_file (test_files artifact) /\
          file_path = before +:+ test_file +:+ after) ->
      SolverAgent._tool_edit_file artifact args w = (Return SolverAgent.refusal, w)) /\
  (exists (artifact : BugArtifact) (file_path : string),
      ~ In file_path (test_files artifact) /\
      forall (W : Type) (api : SandboxEditAPI W) (args : gmap string pyval) (w : W),
        args !! "file_path" = Some (VStr file_path) ->
        SolverAgent._tool_edit_file artifact args w = (Return SolverAgent.refusal, w)).
Proof.
  split.
  - intros W api artifact args file_path w Hp Hsub.
    apply guarded_edit_is_refused with file_path; [exact Hp|].
    apply touches_test_file_spec. exact Hsub.
  - exists Scenario.the_artifact, ("backup/" +:+ Scenario.test_path +:+ ".orig").
    split.
    + simpl. intros [Heq|[]]. discriminate Heq.
    + intros W api args w Hp.
      apply guarded_edit_is_refused with ("backup/" +:+ Scenario.test_path +:+ ".orig");
        [exact Hp|].
      apply touches_test_file_spec.
      exists Scenario.test_path, "backup/", ".orig".
      split; [simpl; left; reflexivity | reflexivity].
Qed.

Lemma edit_file_guard_is_substring_witness :
  backup_args !! "file_path"
    = Some (VStr ("backup/" +:+ Scenario.test_path +:+ ".orig")) /\
  @SolverAgent._tool_edit_file _ (Recorder.edit_api silent_script)
    Scenario.the_artifact backup_args [] = (Return SolverAgent.refusal, []).
Proof.
  assert (H1 : backup_args !! "file_path"
               = Some (VStr ("backup/" +:+ Scenario.test_path +:+ ".orig")))
    by (vm_compute; reflexivity).
  split; [exact H1|].
  refine (proj1 edit_file_guard_is_substring _ (Recorder.edit_api silent_script)
            Scenario.the_artifact backup_args _ [] H1 _).
  exists Scenario.test_path, "backup/", ".orig".
  split; [simpl; left; reflexivity | reflexivity].
Defined.

(** ** The oracle patch *)

Lemma replace_from_absent (old new s : string) :
  PyStr.contains old s = false -> PyStr.replace_from O old new s = s.
Proof.
  induction s as [|c s IH]; intros Hc; [reflexivity|].
  rewrite contains_unfold in Hc. apply orb_false_iff in Hc as [Hp Hc].
  cbn [PyStr.replace_from]. rewrite Hp, (IH Hc). reflexivity.
Qed.

Lemma replace_from_skip (pre old new rest : string) :
  PyStr.replace_from (String.length pre) old new (pre +:+ rest)
  = PyStr.replace_from O old new rest.
Proof.
  induction pre as [|c pre IH]; [reflexivity|].
  change (String c pre +:+ rest) with (String c (pre +:+ rest)).
  cbn [String.length PyStr.replace_from]. exact IH.
Qed.

(** [(old + rest).replace(old, new)] when [old] does not occur in [rest]. *)
Lemma replace_hit (old new rest : string) :
  old <> EmptyString ->
  PyStr.contains old rest = false ->
  PyStr.replace (old +:+ rest) old new = new +:+ rest.
Proof.
  intros Hne Hc. destruct old as [|c old]; [congruence|].
  unfold PyStr.replace.
  change (String c old +:+ rest) with (String c (old +:+ rest)).
  cbn [PyStr.replace_from].
  change (String c (old +:+ rest)) with (String c old +:+ rest).
  rewrite prefix_append.
  cbn [String.length Nat.pred].
  rewrite replace_from_skip, (replace_from_absent _ _ _ Hc). reflexivity.
Qed.

(** The two [replace] calls on a [---] line undo each other: an [a/] header
    stays an [a/] header. *)
Lemma reverse_line_minus_header (path : string) :
  PyStr.contains "--- a/" path = false ->
  PyStr.contains "--- b/" path = false ->
  SolverAgent.reverse_line ("--- a/" +:+ path) = "--- a/" +:+ path.
Proof.
  intros Ha Hb. unfold SolverAgent.reverse_line, PyStr.startswith.
  change ("--- a/" +:+ path) with ("---" +:+ " a/" +:+ path) at 1.
  rewrite prefix_append.
  rewrite (replace_hit "--- a/" "--- b/" path) by (congruence || exact Ha).
  rewrite (replace_hit "--- b/" "--- a/" path) by (congruence || exact Hb).
  reflexivity.
Qed.

(** Likewise a [b/] header stays a [b/] header on a [+++] line. *)
Lemma reverse_line_plus_header (path : string) :
  PyStr.contains "+++ b/" path = false ->
  PyStr.contains "+++ a/" path = false ->
  SolverAgent.reverse_line ("+++ b/" +:+ path) = "+++ b/" +:+ path.
Proof.
  intros Hb Ha. unfold SolverAgent.reverse_line, PyStr.startswith.
  assert (H1 : String.prefix "---" ("+++ b/" +:+ path) = false) by reflexivity.
  rewrite H1.
  change ("+++ b/" +:+ path) with ("+++" +:+ " b/" +:+ path) at 1.
  rewrite prefix_append.
  rewrite (replace_hit "+++ b/" "+++ a/" path) by (congruence || exact Hb).
  rewrite (replace_hit "+++ a/" "+++ b/" path) by (congruence || exact Ha).
  reflexivity.
Qed.

(** C5. On the one-hunk weakening diff of the scenario, the oracle patch
    that [_get_oracle_test_patch] returns has its [+] and [-] lines swapped
    but its two header lines are those of the input: [--- a/] and [+++ b/]
    are not swapped. *)
Theorem oracle_patch_keeps_headers :
  SolverAgent._get_oracle_test_patch Scenario.the_artifact
  = Scenario.line "--- a/tests/test_util.py"
    +:+ Scenario.line "+++ b/tests/test_util.py"
    +:+ Scenario.line "@@ -1 +1 @@"
    +:+ Scenario.line "+assert f() == 1"
    +:+ "-assert True"
  /\ SolverAgent._get_oracle_test_patch Scenario.the_artifact
     <> Scenario.line "--- b/tests/test_util.py"
        +:+ Scenario.line "+++ a/tests/test_util.py"
        +:+ Scenario.line "@@ -1 +1 @@"
        +:+ Scenario.line "+assert f() == 1"
        +:+ "-assert True".
Proof.
  assert (E : SolverAgent._get_oracle_test_patch Scenario.the_artifact
              = Scenario.line "--- a/tests/test_util.py"
                +:+ Scenario.line "+++ b/tests/test_util.py"
                +:+ Scenario.line "@@ -1 +1 @@"
                +:+ Scenario.line "+assert f() == 1"
                +:+ "-assert True") by (vm_compute; reflexivity).
  split; [exact E|]. rewrite E. vm_compute. discriminate.
Qed.

(** ** The injector reward *)

Section RewardFacts.
Import RewardCalculator.

Lemma reward_invalid (alpha s : PyFloat.float) :
  compute_injector_reward alpha false s = PyFloat.neg PyFloat.one.
Proof. reflexivity. Qed.

Lemma reward_extreme (alpha s : PyFloat.float) :
  PyFloat.eqb s PyFloat.zero = true \/ PyFloat.eqb s PyFloat.one = true ->
  compute_injector_reward alpha true s = PyFloat.neg alpha.
Proof.
  intros Hs. unfold compute_injector_reward. cbn [negb].
  destruct Hs as [Hs|Hs]; rewrite Hs.
  - reflexivity.
  - rewrite orb_true_r. reflexivity.
Qed.

(** A float above [0.0] is not [== 0.0]; a float below another is not
    [==] to it. *)
Lemma positive_is_not_zero (s : PyFloat.float) :
  PyFloat.ltb PyFloat.zero s = true -> PyFloat.eqb s PyFloat.zero = false.
Proof. destruct s as [[|]|[|]| |[|] m e]; cbn; congruence. Qed.

Lemma below_is_not_equal (s t : PyFloat.float) :
  PyFloat.ltb s t = true -> PyFloat.eqb s t = false.
Proof.
  unfold PyFloat.ltb, PyFloat.eqb, SFltb, SFeqb.
  destruct (SFcompare s t) as [[| |]|]; congruence.
Qed.

Lemma reward_interior (alpha s : PyFloat.float) :
  PyFloat.ltb PyFloat.zero s = true -> PyFloat.ltb s PyFloat.one = true ->
  compute_injector_reward alpha true s
  = PyFloat.sub PyFloat.one (PyFloat.mul (PyFloat.add PyFloat.one alpha) s).
Proof.
  intros H0 H1. unfold compute_injector_reward. cbn [negb].
  rewrite (positive_is_not_zero s H0), (below_is_not_equal s PyFloat.one H1).
  reflexivity.
Qed.

(** The pipeline's inline computation is [compute_injector_reward] on a
    valid artifact. *)
Lemma pipeline_r_inject_eq (alpha s : PyFloat.float) :
  EpisodeOrchestrator.pipeline_r_inject alpha s = compute_injector_reward alpha true s.
Proof. reflexivity. Qed.

(** From a check over a range to its members. *)
Lemma in_py_range (lo hi k : Z) : lo <= k < hi -> In k (py_range lo hi).
Proof.
  intros Hk. unfold py_range. apply in_map_iff.
  exists (Z.to_nat (k - lo)). split; [lia|]. apply in_seq. lia.
Qed.


Lemma forallb_py_range (f : Z -> bool) (lo hi k : Z) :
  forallb f (py_range lo hi) = true -> lo <= k < hi -> f k = true.
Proof.
  intros H Hk. rewrite forallb_forall in H. apply H, in_py_range, Hk.
Qed.










End RewardFacts.




(** ** [Sandbox.bash] *)

Lemma length_filler (n : nat) : String.length (filler n) = n.
Proof. induction n as [|n IH]; [reflexivity|]. cbn [filler String.length]. congruence. Qed.

Lemma length_take (n : nat) (s : string) :
  String.length (PyStr.take n s) = Nat.min n (String.length s).
Proof.
  revert s; induction n as [|n IH]; intros [|c s]; try reflexivity.
  cbn [PyStr.take String.length Nat.min]. rewrite IH. reflexivity.
Qed.

Lemma length_append (a b : string) :
  String.length (a +:+ b) = (String.length a + String.length b)%nat.
Proof.
  induction a as [|c a IH]; [reflexivity|].
  change (String c a +:+ b) with (String c (a +:+ b)).
  cbn [String.length]. rewrite IH. reflexivity.
Qed.

Lemma cap_stream_short (s : string) :
  Z.of_nat (String.length s) <= Sandbox.max_size ->
  Sandbox.cap_stream s = (s, false).
Proof.
  intros Hs. unfold Sandbox.cap_stream.
  destruct (Z.ltb_spec Sandbox.max_size (Z.of_nat (String.length s))); [lia|reflexivity].
Qed.

Lemma cap_stream_long (s : string) :
  Sandbox.max_size < Z.of_nat (String.length s) ->
  Sandbox.cap_stream s
  = (PyStr.take (Z.to_nat Sandbox.max_size) s +:+ Sandbox.truncation_marker, true).
Proof.
  intros Hs. unfold Sandbox.cap_stream.
  destruct (Z.ltb_spec Sandbox.max_size (Z.of_nat (String.length s))); [reflexivity|lia].
Qed.

Lemma cap_stream_flag (s : string) :
  (Sandbox.cap_stream s).2 = (50000 <? Z.of_nat (String.length s)).
Proof.
  unfold Sandbox.cap_stream, Sandbox.max_size.
  destruct (50000 <? Z.of_nat (String.length s)); reflexivity.
Qed.

Lemma cap_stream_length (s : string) :
  Z.of_nat (String.length (Sandbox.cap_stream s).1) <= 50016.
Proof.
  unfold Sandbox.cap_stream.
  destruct (Z.ltb_spec Sandbox.max_size (Z.of_nat (String.length s))) as [Hl|Hs];
    cbn [fst]; unfold Sandbox.max_size in *.
  - rewrite length_append, length_take.
    change (String.length Sandbox.truncation_marker) with 16%nat. lia.
  - lia.
Qed.

(** The cap is not 50 KiB: a stream of exactly [50 * 1024] characters, which
    does not exceed 50 KiB, comes back cut and flagged. *)
Lemma bash_cap_is_not_50_KiB :
  let out := filler (Z.to_nat (50 * 1024)) in
  Z.of_nat (String.length out) = 50 * 1024 /\
  exists r : BashResult,
    Sandbox.bash true None (Sandbox.Completed 0 out "") = Return r /\
    truncated r = true /\
    stdout r <> out.
Proof.
  intros out.
  assert (Hlen : Z.of_nat (String.length out) = 50 * 1024)
    by (unfold out; rewrite length_filler; lia).
  split; [exact Hlen|].
  assert (Hcap : Sandbox.cap_stream out
                 = (PyStr.take (Z.to_nat Sandbox.max_size) out
                    +:+ Sandbox.truncation_marker, true))
    by (apply cap_stream_long; unfold Sandbox.max_size; lia).
  eexists. split.
  - unfold Sandbox.bash. cbn [negb]. rewrite Hcap.
    rewrite (cap_stream_short "") by (cbn; unfold Sandbox.max_size; lia).
    reflexivity.
  - cbn [truncated stdout]. split; [reflexivity|].
    intros Heq. apply (f_equal String.length) in Heq.
    rewrite length_append, length_take in Heq.
    change (String.length Sandbox.truncation_marker) with 16%nat in Heq.
    unfold Sandbox.max_size in Heq. lia.
Qed.

(** C8 (amended). On a started sandbox every [bash] call returns a
    [BashResult]: it never raises.  When the command finishes, each stream
    longer than 50,000 characters is cut to its first 50,000 characters
    followed by the marker, a shorter one is returned as it is, and
    [truncated] is true exactly when one of the two streams was longer than
    50,000 characters.  When the command exceeds its timeout the result has
    [timeout = true], exit code [-1] and an empty [stdout]. *)
Theorem bash_caps_and_timeouts :
  (forall (t : option Z) (o : Sandbox.exec_outcome),
      exists r : BashResult, Sandbox.bash true t o = Return r) /\
  (forall (t : option Z) (code : Z) (out err : string),
      exists r : BashResult,
        Sandbox.bash true t (Sandbox.Completed code out err) = Return r /\
        exit_code r = code /\
        timeout r = false /\
        stdout r = (if 50000 <? Z.of_nat (String.length out)
                    then PyStr.take (Z.to_nat 50000) out
                         +:+ PyStr.NL +:+ "... [truncated]"
                    else out) /\
        stderr r = (if 50000 <? Z.of_nat (String.length err)
                    then PyStr.take (Z.to_nat 50000) err
                         +:+ PyStr.NL +:+ "... [truncated]"
                    else err) /\
        truncated r = (50000 <? Z.of_nat (String.length out))
                      || (50000 <? Z.of_nat (String.length err)) /\
        Z.of_nat (String.length (stdout r)) <= 50016 /\
        Z.of_nat (String.length (stderr r)) <= 50016) /\
  (forall t : option Z,
      exists r : BashResult,
        Sandbox.bash true t Sandbox.TimedOut = Return r /\
        timeout r = true /\
        exit_code r = -1 /\
        exit_code r <> 0 /\
        stdout r = EmptyString /\
        truncated r = false).
Proof.
  split; [|split].
  - intros t [code out err| |msg]; unfold Sandbox.bash; cbn [negb].
    + destruct (Sandbox.cap_stream out), (Sandbox.cap_stream err). eexists; reflexivity.
    + eexists; reflexivity.
    + eexists; reflexivity.
  - intros t code out err.
    pose proof (cap_stream_flag out) as Fo. pose proof (cap_stream_flag err) as Fe.
    pose proof (cap_stream_length out) as Lo. pose proof (cap_stream_length err) as Le.
    assert (So : (Sandbox.cap_stream out).1
                 = (if 50000 <? Z.of_nat (String.length out)
                    then PyStr.take (Z.to_nat 50000) out
                         +:+ PyStr.NL +:+ "... [truncated]"
                    else out)).
    { unfold Sandbox.cap_stream, Sandbox.max_size.
      destruct (50000 <? Z.of_nat (String.length out)); reflexivity. }
    assert (Se : (Sandbox.cap_stream err).1
                 = (if 50000 <? Z.of_nat (String.length err)
                    then PyStr.take (Z.to_nat 50000) err
                         +:+ PyStr.NL +:+ "... [truncated]"
                    else err)).
    { unfold Sandbox.cap_stream, Sandbox.max_size.
      destruct (50000 <? Z.of_nat (String.length err)); reflexivity. }
    unfold Sandbox.bash. cbn [negb].
    destruct (Sandbox.cap_stream out) as [out' fo].
    destruct (Sandbox.cap_stream err) as [err' fe].
    cbn [fst snd] in *. subst out' err' fo fe.
    eexists. split; [reflexivity|].
    cbn [exit_code timeout stdout stderr truncated].
    repeat split; assumption.
  - intros t. unfold Sandbox.bash. cbn [negb].
    eexists. split; [reflexivity|].
    cbn [exit_code timeout stdout truncated].
    repeat split. lia.
Qed.

(** ** Validator: statuses that are not a [TestStatus] *)

Lemma unknown_status_default (dflt : TestStatus.t) (s : string) :
  TestStatus.of_value s = None ->
  Validator.status_or dflt (JStr s) = dflt.
Proof. intros Hs. unfold Validator.status_or. rewrite Hs. reflexivity. Qed.

(** C4. A parser that prints the JSON object with the one value [bogus]
    passes step 2 with the test recorded as [PASSED] in the baseline map,
    passes step 3 with it, and after the bug is applied the same output is
    recorded as [FAILED] and counted towards [min_failing_tests]: step 5
    passes.  At no point is the test recorded as [ERROR]. *)
Theorem unknown_status_is_passed_then_failed :
  let api := Recorder.api bogus_script in
  let loads := Scenario.loads in
  exists (ctx2 ctx5 : Validator.ValidationContext) (log2 log5 : list Recorder.call),
    Validator._validate_parser Scenario.the_artifact empty_context []
      = (Return (Validator.step "parser_validity" true, ctx2), log2) /\
    Validator.test_mapping ctx2 = Some [("test_f", TestStatus.PASSED)] /\
    Validator._validate_original_tests Scenario.the_artifact ctx2
      = Validator.step "original_tests_pass" true /\
    Validator._validate_bug_validity Scenario.the_artifact ctx2 log2
      = (Return (Validator.step "bug_validity" true, ctx5), log5) /\
    Validator.bug_test_mapping ctx5 = Some [("test_f", TestStatus.FAILED)] /\
    Validator.failing_tests [("test_f", TestStatus.FAILED)] = ["test_f"].
Proof.
  intros api loads.
  eexists _, _, _, _.
  split; [vm_compute; reflexivity|].
  split; [reflexivity|].
  split; [vm_compute; reflexivity|].
  split; [vm_compute; reflexivity|].
  split; reflexivity.
Qed.

(** ** The evaluator *)

Section EvaluatorFacts.
Context {W : Type} {SB : SandboxAPI W} {J : Json}.
Import EpisodeOrchestrator.

Lemma json_is_str_spec (v : json) (s : string) :
  json_is_str v s = true <-> v = JStr s.
Proof.
  destruct v; simpl; try (split; [discriminate|congruence]).
  rewrite String.eqb_eq. split; congruence.
Qed.

Lemma failed_report_unsuccessful (attempt : SolverAttempt) :
  ev_success (failed_report attempt) = false.
Proof. reflexivity. Qed.

(** [success = failed == 0]: every value of the decoded object is the
    string [passed]. *)
Lemma report_success_iff (artifact : BugArtifact) (attempt : SolverAttempt)
    (test_mapping : list (string * json)) :
  ev_success (report_of_mapping artifact attempt test_mapping) = true <->
  Forall (fun kv => kv.2 = JStr "passed") test_mapping.
Proof.
  unfold report_of_mapping. cbn [ev_success]. rewrite Z.eqb_eq.
  induction test_mapping as [|kv l IH]; cbn [filter length].
  - split; [constructor|reflexivity].
  - rewrite filter_cons. destruct (decide _) as [Hn|Hn].
    + cbn [length]. split; [lia|].
      intros Hall. inversion Hall as [|? ? Hkv _]; subst.
      apply json_is_str_spec in Hkv. rewrite Hkv in Hn. cbn in Hn. tauto.
    + rewrite IH. split.
      * intros Hall. constructor; [|exact Hall].
        apply json_is_str_spec. destruct (json_is_str kv.2 "passed"); [reflexivity|].
        exfalso. apply Hn. reflexivity.
      * intros Hall. inversion Hall; assumption.
Qed.

Lemma evaluate_returns (artifact : BugArtifact) (attempt : SolverAttempt) (w : W) :
  exists report w', _evaluate_attempt artifact attempt w = (Return report, w').
Proof.
  unfold _evaluate_attempt, try_except.
  destruct (evaluate_body artifact attempt w) as [[report|e] w'].
  - exists report, w'. reflexivity.
  - exists (failed_report attempt), w'. reflexivity.
Qed.

Lemma evaluate_catches (artifact : BugArtifact) (attempt : SolverAttempt)
    (w w' : W) (e : string) :
  evaluate_body artifact attempt w = (Raise e, w') ->
  _evaluate_attempt artifact attempt w = (Return (failed_report attempt), w').
Proof. intros Hb. unfold _evaluate_attempt, try_except. rewrite Hb. reflexivity. Qed.

Lemma evaluate_failed_apply (artifact : BugArtifact) (attempt : SolverAttempt)
    (w w1 w2 w3 : W) (r0 r : BashResult) :
  sandbox_bash "git checkout ssr-buggy -- ." None w = (Return r0, w1) ->
  truthy (pred_patch attempt) = true ->
  sandbox_write_file "pred_patch.diff" (default "" (pred_patch attempt)) w1
    = (Return tt, w2) ->
  sandbox_bash "patch -p1 < pred_patch.diff" None w2 = (Return r, w3) ->
  exit_code r <> 0 ->
  _evaluate_attempt artifact attempt w = (Return (failed_report attempt), w3).
Proof.
  intros H0 Ht H1 H2 Hx.
  unfold _evaluate_attempt, try_except, evaluate_body, mbind, M_bind, bind.
  rewrite H0, Ht. rewrite H1, H2.
  destruct (Z.eqb_spec (exit_code r) 0) as [Heq|_]; [contradiction|].
  reflexivity.
Qed.

Ltac crack H :=
  repeat match type of H with
         | context [match ?x with _ => _ end] =>
             destruct x eqn:?; try discriminate H
         end.

Lemma evaluate_success_inv (artifact : BugArtifact) (attempt : SolverAttempt)
    (w w' : W) (report : EvaluationReport) :
  _evaluate_attempt artifact attempt w = (Return report, w') ->
  ev_success report = true ->
  exists (w4 : W) (test_result : BashResult) (test_mapping : list (string * json)),
    sandbox_bash harness_command
      (Some (max_test_runtime_sec (metadata artifact) + 30)) w4
      = (Return test_result, w') /\
    json_loads (PyStr.strip (stdout test_result)) = Decoded (JObj test_mapping) /\
    report = report_of_mapping artifact attempt test_mapping /\
    Forall (fun kv => kv.2 = JStr "passed") test_mapping.
Proof.
  intros Hrun Hsucc.
  unfold _evaluate_attempt, try_except in Hrun.
  destruct (evaluate_body artifact attempt w) as [[rep|e] w1] eqn:Hb.
  2:{ inversion Hrun; subst. discriminate Hsucc. }
  inversion Hrun; subst rep w1. clear Hrun.
  unfold evaluate_body, mbind, M_bind, bind, mret, M_ret, ret, raise in Hb.
  crack Hb; inversion Hb; subst; try discriminate Hsucc.
  - match goal with
    | Hq : context [truthy _] |- _ => crack Hq; inversion Hq; subst
    end.
    discriminate Hsucc.
  - eexists _, _, _. split; [eassumption|].
    split; [eassumption|]. split; [reflexivity|].
    eapply (proj1 (report_success_iff _ _ _)). exact Hsucc.
Qed.

(** Every report is the unsuccessful one or is built from harness output
    that [json.loads] decoded to an object. *)
Lemma evaluate_report_cases (artifact : BugArtifact) (attempt : SolverAttempt)
    (w w' : W) (report : EvaluationReport) :
  _evaluate_attempt artifact attempt w = (Return report, w') ->
  report = failed_report attempt \/
  exists (w4 : W) (test_result : BashResult) (test_mapping : list (string * json)),
    sandbox_bash harness_command
      (Some (max_test_runtime_sec (metadata artifact) + 30)) w4
      = (Return test_result, w') /\
    json_loads (PyStr.strip (stdout test_result)) = Decoded (JObj test_mapping) /\
    report = report_of_mapping artifact attempt test_mapping.
Proof.
  intros Hrun.
  destruct (ev_success report) eqn:Hsucc.
  - right. destruct (evaluate_success_inv _ _ _ _ _ Hrun Hsucc)
      as (w4 & tr & tm & Hh & Hj & Hr & _).
    exists w4, tr, tm. auto.
  - unfold _evaluate_attempt, try_except in Hrun.
    destruct (evaluate_body artifact attempt w) as [[rep|e] w1] eqn:Hb.
    2:{ inversion Hrun; subst. left. reflexivity. }
    inversion Hrun; subst rep w1. clear Hrun.
    unfold evaluate_body, mbind, M_bind, bind, mret, M_ret, ret, raise in Hb.
    crack Hb; inversion Hb; subst; try (left; reflexivity).
    + match goal with
      | Hq : context [truthy _] |- _ => crack Hq; inversion Hq; subst
      end.
      left. reflexivity.
    + right. eexists _, _, _. split; [eassumption|]. split; [eassumption|reflexivity].
Qed.

End EvaluatorFacts.

(** C9. [_evaluate_attempt] always returns a report, whatever the sandbox
    does: an exception raised inside is turned into the unsuccessful
    report; a predicted patch that [patch] rejects gives the unsuccessful
    report at once, the world being the one the [patch] command left (no
    test file is restored, the harness is not run); and every report is the
    unsuccessful one or is built from harness output that [json.loads]
    decoded to an object, so output that is not valid JSON gives
    [success = false]. *)
Theorem evaluate_attempt_is_total {W : Type} {SB : SandboxAPI W} {J : Json}
    (artifact : BugArtifact) (attempt : SolverAttempt) (w : W) :
  (exists report w',
      EpisodeOrchestrator._evaluate_attempt artifact attempt w = (Return report, w')) /\
  (forall e w',
      EpisodeOrchestrator.evaluate_body artifact attempt w = (Raise e, w') ->
      EpisodeOrchestrator._evaluate_attempt artifact attempt w
      = (Return (EpisodeOrchestrator.failed_report attempt), w')) /\
  (forall (w1 w2 w3 : W) (r0 r : BashResult),
      sandbox_bash "git checkout ssr-buggy -- ." None w = (Return r0, w1) ->
      truthy (pred_patch attempt) = true ->
      sandbox_write_file "pred_patch.diff" (default "" (pred_patch attempt)) w1
        = (Return tt, w2) ->
      sandbox_bash "patch -p1 < pred_patch.diff" None w2 = (Return r, w3) ->
      exit_code r <> 0 ->
      EpisodeOrchestrator._evaluate_attempt artifact attempt w
      = (Return (EpisodeOrchestrator.failed_report attempt), w3)) /\
  (forall report w',
      EpisodeOrchestrator._evaluate_attempt artifact attempt w = (Return report, w') ->
      report = EpisodeOrchestrator.failed_report attempt \/
      exists (w4 : W) (test_result : BashResult) (test_mapping : list (string * json)),
        sandbox_bash harness_command
          (Some (max_test_runtime_sec (metadata artifact) + 30)) w4
          = (Return test_result, w') /\
        json_loads (PyStr.strip (stdout test_result)) = Decoded (JObj test_mapping) /\
        report = EpisodeOrchestrator.report_of_mapping artifact attempt test_mapping) /\
  ev_success (EpisodeOrchestrator.failed_report attempt) = false.
Proof.
  split; [apply evaluate_returns|].
  split; [intros e w'; apply evaluate_catches|].
  split; [intros w1 w2 w3 r0 r; apply evaluate_failed_apply|].
  split; [|reflexivity].
  intros report w'. apply evaluate_report_cases.
Qed.

Lemma evaluate_attempt_is_total_witness :
  @EpisodeOrchestrator._evaluate_attempt _ (Recorder.api rejecting_script) Scenario.loads
    Scenario.the_artifact Scenario.cheating_attempt []
  = (Return (EpisodeOrchestrator.failed_report Scenario.cheating_attempt),
     [ Recorder.Bash "git checkout ssr-buggy -- ." None;
       Recorder.WriteFile "pred_patch.diff" Scenario.cheat_diff;
       Recorder.Bash "patch -p1 < pred_patch.diff" None ]).
Proof.
  refine (proj1 (proj2 (proj2
            (@evaluate_attempt_is_total _ (Recorder.api rejecting_script) Scenario.loads
               Scenario.the_artifact Scenario.cheating_attempt [])))
            _ _ _ (Recorder.done "") _ _ _ _ _ _).
  - reflexivity.
  - reflexivity.
  - reflexivity.
  - reflexivity.
  - cbn. discriminate.
Defined.

(** ** Restoring the test files *)

Section GitFacts.
Variable patch_p1 : string -> gmap string string -> option (gmap string string).
Variable run_harness : gmap string string -> string.

#[local] Instance git_api : SandboxAPI GitSandbox.t := GitSandbox.api patch_p1 run_harness.

Lemma split_once_here (sep rest : string) :
  GitSandbox.split_once sep (sep +:+ rest)
  = Some (EmptyString, GitSandbox.drop (String.length sep) (sep +:+ rest)).
Proof.
  destruct (sep +:+ rest) eqn:E; cbn [GitSandbox.split_once]; rewrite <- E;
    rewrite prefix_append; reflexivity.
Qed.

Lemma split_once_skip (sep : string) (c : ascii) (s : string) :
  String.prefix sep (String c s) = false ->
  GitSandbox.split_once sep (String c s)
  = match GitSandbox.split_once sep s with
    | Some (a, b) => Some (String c a, b)
    | None => None
    end.
Proof. intros Hp. cbn [GitSandbox.split_once]. rewrite Hp. reflexivity. Qed.

Lemma split_original (test_file : string) :
  GitSandbox.split_once " -- " ("ssr-original -- " +:+ test_file)
  = Some ("ssr-original", test_file).
Proof.
  change ("ssr-original -- " +:+ test_file)
    with (String "s" (String "s" (String "r" (String "-" (String "o" (String "r"
          (String "i" (String "g" (String "i" (String "n" (String "a" (String "l"
          (" -- " +:+ test_file))))))))))))).
  do 12 (rewrite split_once_skip by reflexivity).
  rewrite split_once_here. reflexivity.
Qed.

(** In a repository without the tag [ssr-original], the evaluator's
    restore command fails and leaves the workspace as it is. *)
Lemma restore_without_tag (w : GitSandbox.t) (r : GitSandbox.repo) (test_file : string) :
  GitSandbox.git w = Some r ->
  GitSandbox.tags r !! "ssr-original" = None ->
  sandbox_bash ("git checkout ssr-original -- " +:+ test_file) None w
  = (Return (GitSandbox.reply 128 ""), w).
Proof.
  intros Hg Ht. cbn [sandbox_bash git_api GitSandbox.api].
  assert (E : GitSandbox.exec patch_p1 run_harness
                ("git checkout ssr-original -- " +:+ test_file) w
              = GitSandbox.git_checkout "ssr-original" test_file w).
  { unfold GitSandbox.exec.
    change ("git checkout ssr-original -- " +:+ test_file)
      with ("git checkout " +:+ "ssr-original -- " +:+ test_file).
    replace (GitSandbox.strip_prefix "git checkout "
               ("git checkout " +:+ "ssr-original -- " +:+ test_file))
      with (Some ("ssr-original -- " +:+ test_file))
      by (unfold GitSandbox.strip_prefix; rewrite prefix_append; reflexivity).
    rewrite split_original. reflexivity. }
  rewrite E. unfold GitSandbox.git_checkout. rewrite Hg.
  change (String.eqb "ssr-original" "HEAD") with false. cbn iota.
  rewrite Ht. reflexivity.
Qed.

Lemma restore_loop_without_tag (w : GitSandbox.t) (r : GitSandbox.repo)
    (paths : list string) :
  GitSandbox.git w = Some r ->
  GitSandbox.tags r !! "ssr-original" = None ->
  for_each paths
    (fun test_file =>
       _ ← sandbox_bash ("git checkout ssr-original -- " +:+ test_file) None;
       mret tt) w
  = (Return tt, w).
Proof.
  intros Hg Ht. induction paths as [|p paths IH]; [reflexivity|].
  cbn [for_each]. unfold bind at 1. unfold mbind, M_bind, bind at 1.
  rewrite (restore_without_tag w r p Hg Ht). cbn. exact IH.
Qed.

(** [git_init] followed by [git_tag "ssr-buggy"] leaves a repository whose
    only tag is [ssr-buggy]. *)
Lemma retag_forgets (w : GitSandbox.t) :
  let w' := ((_ ← git_init; git_tag "ssr-buggy") w).2 in
  GitSandbox.files w' = GitSandbox.files w /\
  exists r, GitSandbox.git w' = Some r /\
            GitSandbox.tags r = <["ssr-buggy" := GitSandbox.files w]> ∅.
Proof.
  cbn. split; [reflexivity|]. eexists. split; reflexivity.
Qed.

(** After [_prepare_buggy_sandbox] the tag [ssr-original] is gone,
    whatever the workspace held before. *)
Lemma prepare_drops_original (artifact : BugArtifact) (w : GitSandbox.t) :
  exists r,
    GitSandbox.git (EpisodeOrchestrator._prepare_buggy_sandbox artifact w).2 = Some r /\
    GitSandbox.tags r !! "ssr-original" = None /\
    is_Some (GitSandbox.tags r !! "ssr-buggy").
Proof.
  assert (Hsplit : exists w9,
             EpisodeOrchestrator._prepare_buggy_sandbox artifact w
             = (_ ← git_init; git_tag "ssr-buggy") w9).
  { unfold EpisodeOrchestrator._prepare_buggy_sandbox, mbind, M_bind, bind.
    cbn [sandbox_bash sandbox_write_file git_api GitSandbox.api].
    do 4 match goal with
         | |- context [GitSandbox.exec patch_p1 run_harness ?c ?x] =>
             destruct (GitSandbox.exec patch_p1 run_harness c x) as [? ?]
         end.
    eexists. reflexivity. }
  destruct Hsplit as [w9 ->].
  destruct (retag_forgets w9) as (_ & r & Hg & Ht).
  exists r. split; [exact Hg|]. rewrite Ht. split.
  - rewrite lookup_insert_ne by discriminate. apply lookup_empty.
  - rewrite lookup_insert_eq. eauto.
Qed.

End GitFacts.

(** C3. Right after [_prepare_buggy_sandbox], whatever [patch] and the
    harness do, the evaluator's restore commands change nothing: for every
    list of paths the loop [git checkout ssr-original -- path] returns with
    the workspace as it was.  On the scenario's repository, after the
    baseline is tagged and the buggy state prepared as the pipeline does,
    the evaluation of a predicted patch that only rewrites the test file
    reports success: the test file the harness ran on is the solver's, not
    the baseline's; the code still has the bug; and on the baseline test
    file the harness would have printed [failed]. *)
Theorem test_files_are_not_restored :
  (forall (patch_p1 : string -> gmap string string -> option (gmap string string))
          (run_harness : gmap string string -> string)
          (artifact : BugArtifact) (w : GitSandbox.t) (paths : list string),
      let api := GitSandbox.api patch_p1 run_harness in
      let prepared := (EpisodeOrchestrator._prepare_buggy_sandbox artifact w).2 in
      for_each paths
        (fun test_file =>
           _ ← sandbox_bash ("git checkout ssr-original -- " +:+ test_file) None;
           mret tt) prepared
      = (Return tt, prepared)) /\
  (Scenario.first_evaluation Scenario.fresh).1
  = Return {| ev_attempt_id := "t1"; ev_success := true;
              tests_passed := 1; tests_failed := 0; tests_total := 1;
              per_test_status := [("test_f", TestStatus.PASSED)];
              test_files_restored := [Scenario.test_path] |} /\
  GitSandbox.files (Scenario.first_evaluation Scenario.fresh).2 !! Scenario.test_path
  = Some Scenario.cheat_test /\
  Scenario.baseline !! Scenario.test_path = Some Scenario.strong_test /\
  Scenario.cheat_test <> Scenario.strong_test /\
  GitSandbox.files (Scenario.first_evaluation Scenario.fresh).2 !! Scenario.code_path
  = Some Scenario.buggy_code /\
  Scenario.run_harness
    (<[Scenario.test_path := Scenario.strong_test]>
       (GitSandbox.files (Scenario.first_evaluation Scenario.fresh).2))
  = Scenario.line (Scenario.verdict "failed").
Proof.
  split.
  { intros patch_p1 run_harness artifact w paths api prepared.
    destruct (prepare_drops_original patch_p1 run_harness artifact w)
      as (r & Hg & Ht & _).
    exact (restore_loop_without_tag patch_p1 run_harness prepared r paths Hg Ht). }
  split; [vm_compute; reflexivity|].
  split; [vm_compute; reflexivity|].
  split; [vm_compute; reflexivity|].
  split; [vm_compute; discriminate|].
  split; vm_compute; reflexivity.
Qed.

(** ** The pipeline *)

Section PipelineFacts.
Context {W : Type} {SB : SandboxAPI W} {J : Json}
        {C : EpisodeOrchestrator.Collaborators W}.
Import EpisodeOrchestrator.

Implicit Types (e : EpisodeDB) (t : list SolverAttemptDB).

Lemma triple_ret {A} (a : A) e t Q E :
  Q a e t -> triple (W:=W) (mret a) e t Q E.
Proof. intros HQ w. exact HQ. Qed.

Lemma triple_raise {A} (msg : string) e t (Q : A -> _) E :
  E e t -> triple (W:=W) (raise msg) e t Q E.
Proof. intros HE w. exact HE. Qed.

Lemma triple_bind {A B} (m : M (state W) A) (k : A -> M (state W) B) e t Q E :
  triple m e t (fun a e' t' => triple (k a) e' t' Q E) E ->
  triple (m ≫= k) e t Q E.
Proof.
  intros Hm w. specialize (Hm w).
  unfold mbind, M_bind, bind.
  destruct (m (mkState w e t)) as [[a|msg] [w' e' t']]; cbn in *.
  - exact (Hm w').
  - exact Hm.
Qed.

Lemma triple_weaken {A} (m : M (state W) A) e t (Q Q' : A -> _) (E E' : _ -> _ -> Prop) :
  triple m e t Q E ->
  (forall a e' t', Q a e' t' -> Q' a e' t') ->
  (forall e' t', E e' t' -> E' e' t') ->
  triple m e t Q' E'.
Proof.
  intros Hm HQ HE w. specialize (Hm w).
  destruct (m (mkState w e t)) as [[a|msg] s']; auto.
Qed.

(** A collaborator call changes neither the episode nor the rows; [P] is
    what is known of the value it returns. *)
Lemma triple_lift {A} (m : M W A) (P : A -> Prop) e t Q E :
  (forall w a w', m w = (Return a, w') -> P a) ->
  (forall a, P a -> Q a e t) ->
  E e t ->
  triple (lift m) e t Q E.
Proof.
  intros HP HQ HE w. unfold lift. cbn.
  destruct (m w) as [[a|msg] w'] eqn:Hm; cbn.
  - apply HQ. exact (HP _ _ _ Hm).
  - exact HE.
Qed.

Lemma triple_lift_any {A} (m : M W A) e t Q E :
  (forall a, Q a e t) -> E e t -> triple (lift m) e t Q E.
Proof.
  intros HQ HE. apply triple_lift with (P := fun _ => True); auto.
Qed.

Lemma triple_update (f : EpisodeDB -> EpisodeDB) e t Q E :
  Q tt (f e) t -> triple (W:=W) (update f) e t Q E.
Proof. intros HQ w. exact HQ. Qed.

Lemma triple_get e t Q E :
  Q e e t -> triple (W:=W) get_episode e t Q E.
Proof. intros HQ w. exact HQ. Qed.

Lemma triple_add (row : SolverAttemptDB) e t Q E :
  Q tt e (t ++ [row]) -> triple (W:=W) (db_add_attempt row) e t Q E.
Proof. intros HQ w. exact HQ. Qed.

Lemma truediv_int_inv (a b : Z) (q : PyFloat.float) :
  truediv (PInt a) (PInt b) = Return q -> b <> 0 /\ q = PyFloat.ratio a b.
Proof.
  unfold truediv. destruct (Z.eqb_spec b 0) as [|Hb]; [discriminate|].
  destruct (PyFloat.is_infinite _); [discriminate|].
  intros [= <-]. split; [exact Hb | reflexivity].
Qed.

Lemma truediv_sum_inv (values : list PyFloat.float) (q : PyFloat.float) :
  truediv (py_sum values) (PInt (Z.of_nat (length values))) = Return q ->
  values <> [] /\
  q = PyFloat.div (fold_left PyFloat.add values PyFloat.zero)
        (PyFloat.of_int (Z.of_nat (length values))).
Proof.
  destruct values as [|v values]; [discriminate|].
  unfold py_sum, truediv, py_float.
  destruct (PyFloat.is_infinite _); [discriminate|].
  destruct (PyFloat.eqb _ _); [discriminate|].
  intros [= <-]. split; [discriminate | reflexivity].
Qed.

Lemma triple_truediv (a b : pynum) e t Q E :
  (forall q, truediv a b = Return q -> Q q e t) ->
  E e t ->
  triple (W:=W) (py_truediv a b) e t Q E.
Proof.
  intros HQ HE w. unfold py_truediv.
  destruct (truediv a b) as [q|msg] eqn:Hq; [exact (HQ q eq_refl) | exact HE].
Qed.

Lemma triple_try {A} (body : M (state W) A) (handler : string -> M (state W) A)
    e t Q E :
  triple body e t Q (fun e' t' => forall msg, triple (handler msg) e' t' Q E) ->
  triple (try_except body handler) e t Q E.
Proof.
  intros Hb w. specialize (Hb w). unfold try_except.
  destruct (body (mkState w e t)) as [[a|msg] [w' e' t']]; cbn in *.
  - exact Hb.
  - exact (Hb msg w').
Qed.

Lemma triple_stop_after {A} (body : M (state W) A) e t Q E :
  triple body e t Q E -> triple (stop_after body) e t Q E.
Proof.
  intros Hb w. specialize (Hb w). unfold stop_after.
  destruct (body (mkState w e t)) as [[a|msg] s']; exact Hb.
Qed.

Lemma successes_app t (row : SolverAttemptDB) :
  successes (t ++ [row]) = successes t + (if row_success row then 1 else 0).
Proof.
  unfold successes. rewrite filter_app, length_app, Nat2Z.inj_add. f_equal.
  rewrite filter_cons, filter_nil.
  destruct (row_success row); destruct (decide _); try congruence; reflexivity.
Qed.

Lemma successes_bounds t : 0 <= successes t <= Z.of_nat (length t).
Proof.
  unfold successes. pose proof (length_filter (fun row => row_success row = true) t). lia.
Qed.

Lemma py_range_length (lo hi : Z) : length (py_range lo hi) = Z.to_nat (hi - lo).
Proof. unfold py_range. rewrite length_map, length_seq. reflexivity. Qed.

Lemma py_range_spec (lo hi k : Z) : In k (py_range lo hi) <-> lo <= k < hi.
Proof.
  unfold py_range. rewrite in_map_iff. split.
  - intros (i & <- & Hi). apply in_seq in Hi. lia.
  - intros Hk. exists (Z.to_nat (k - lo)). split; [lia|]. apply in_seq. lia.
Qed.

Lemma store_spec (attempt : SolverAttempt) e t :
  triple (_store_solver_attempt attempt) e t
    (fun row e' t' =>
       e' = e /\ t' = t ++ [row] /\
       row_attempt_number row = attempt_number attempt /\
       row_success row = success attempt)
    (fun e' t' => e' = e).
Proof.
  unfold _store_solver_attempt.
  apply triple_bind.
  apply triple_weaken with (Q := fun _ e' t' => e' = e /\ t' = t)
                           (E := fun e' t' => e' = e).
  - destruct (truthy (pred_patch attempt)).
    + apply triple_bind. apply triple_lift_any; [intros r|reflexivity].
      apply triple_ret. auto.
    + apply triple_ret. auto.
  - intros ref e' t' [-> ->].
    apply triple_bind. apply triple_lift_any; [intros trace|reflexivity].
    apply triple_bind. apply triple_add.
    apply triple_bind. apply triple_lift_any; [intros _|reflexivity].
    apply triple_bind. apply triple_lift_any; [intros _|reflexivity].
    apply triple_ret. cbn. auto.
  - auto.
Qed.

(** The solving loop leaves the episode alone and adds one row per attempt
    number, in order; [successful_attempts] counts the successful rows. *)
Lemma loop_spec (artifact : BugArtifact) (nums : list Z) :
  forall (acc : list SolverAttempt) (succ : Z) e t,
    length acc = length t ->
    succ = successes t ->
    triple (solver_attempts_loop artifact nums acc succ) e t
      (fun r e' t' =>
         e' = e /\
         map row_attempt_number t' = map row_attempt_number t ++ nums /\
         length r.1 = length t' /\
         r.2 = successes t')
      (fun e' t' => e' = e).
Proof.
  induction nums as [|n nums IH]; intros acc succ e t Hlen Hsucc.
  - apply triple_ret. rewrite app_nil_r. auto.
  - cbn [solver_attempts_loop].
    apply triple_bind. apply triple_lift_any; [intros _|reflexivity].
    apply triple_bind.
    apply triple_lift with (P := fun a => success a = false /\ attempt_number a = n).
    { intros w a w' Hrun. unfold solver_run, mbind, M_bind, bind in Hrun.
      destruct (solver_tool_loop artifact n w) as [[r|msg] w1];
        inversion Hrun; subst. split; reflexivity. }
    2: reflexivity.
    intros attempt [Hs Hn].
    apply triple_bind.
    apply triple_weaken
      with (Q := fun ev e' t' =>
                   e' = e /\ t' = t /\ attempt_number ev.1 = n /\
                   ev.2 = succ + (if success ev.1 then 1 else 0))
           (E := fun e' t' => e' = e).
    + destruct (truthy (pred_patch attempt)).
      * apply triple_bind. apply triple_lift_any; [intros ev|reflexivity].
        apply triple_ret. cbn.
        destruct (ev_success ev); repeat split; auto; lia.
      * apply triple_ret. cbn. rewrite Hs. repeat split; auto; lia.
    + intros ev e' t' (-> & -> & Hnum & Hev).
      apply triple_bind.
      apply triple_weaken
        with (Q := fun row e' t' =>
                     e' = e /\ t' = t ++ [row] /\
                     row_attempt_number row = attempt_number ev.1 /\
                     row_success row = success ev.1)
             (E := fun e' t' => e' = e); [apply store_spec| |auto].
      intros row e' t' (-> & -> & Hrn & Hrs).
      apply triple_bind. apply triple_lift_any; [intros _|reflexivity].
      eapply triple_weaken; [apply IH| |auto].
      * rewrite !length_app. cbn. lia.
      * rewrite successes_app, Hrs, Hev, Hsucc. reflexivity.
      * cbn beta. intros r e' t' (-> & Hmap & Hl & Hr).
        split; [reflexivity|]. split; [|auto].
        rewrite Hmap, map_app. cbn [map]. rewrite <- app_assoc.
        cbn [app]. rewrite Hrn, Hnum. reflexivity.
    + auto.
Qed.

Ltac not_complete :=
  unfold safe; cbn; intros Hc; first [discriminate Hc | contradiction].

Lemma fail_episode_safe (cfg : EpisodeConfig) (msg : string) e t :
  triple (_fail_episode msg) e t (fun _ => safe cfg) (safe cfg).
Proof.
  unfold _fail_episode.
  apply triple_bind, triple_update.
  apply triple_bind, triple_update.
  apply triple_lift_any; [intros _|]; not_complete.
Qed.

Lemma handler_safe (cfg : EpisodeConfig) (msg : string) e t :
  safe cfg e t ->
  triple (run_episode_handler msg) e t (fun _ => safe cfg) (safe cfg).
Proof.
  intros Hs. unfold run_episode_handler.
  apply triple_try. apply triple_bind.
  apply triple_lift_any.
  - intros [|].
    + eapply triple_weaken; [apply (fail_episode_safe cfg)|auto|].
      intros e' t' Hs' msg'. apply triple_ret. exact Hs'.
    + apply triple_ret. exact Hs.
  - intros msg'. apply triple_ret. exact Hs.
Qed.

Lemma solve_and_reward_safe (cfg : EpisodeConfig) (artifact : BugArtifact)
    (report : ValidationReport) e :
  validation_report e = Some report ->
  valid report = true ->
  triple (solve_and_reward artifact cfg) e [] (fun _ => safe cfg) (safe cfg).
Proof.
  intros Hrep Hvalid. unfold solve_and_reward.
  apply triple_bind, triple_update.
  apply triple_bind. apply triple_lift_any; [intros _|not_complete].
  apply triple_bind.
  eapply triple_weaken; [apply loop_spec; reflexivity| |].
  2:{ cbn beta. intros e' t' ->. not_complete. }
  cbn beta. intros r e' t (-> & Hmap & Hlen & Hsucc). cbn [map app] in Hmap.
  apply triple_bind, triple_update.
  apply triple_bind. apply triple_lift_any; [intros _|not_complete].
  apply triple_bind. apply triple_truediv; [intros rate Hrate|not_complete].
  apply triple_bind, triple_update.
  apply triple_bind, triple_update.
  apply triple_bind. apply triple_truediv; [intros avg Havg|not_complete].
  apply triple_bind, triple_update.
  apply triple_bind, triple_update.
  apply truediv_int_inv in Hrate as [_ ->].
  apply truediv_sum_inv in Havg as [Hne _].
  assert (Hlen' : length t = Z.to_nat (solver_attempts cfg)).
  { rewrite <- (length_map row_attempt_number), Hmap, py_range_length. f_equal. lia. }
  assert (Hpos : 0 < solver_attempts cfg).
  { destruct (Z.ltb_spec 0 (solver_attempts cfg)) as [Hp|Hp]; [exact Hp|].
    exfalso. apply Hne. unfold r_solve_values.
    destruct r.1 as [|a l]; [reflexivity|].
    cbn [length] in Hlen. rewrite Hlen' in Hlen. lia. }
  assert (Hok : complete_ok cfg
            (set_status EpisodeStatus.COMPLETE
               (set_r_solve_avg (Some avg)
                  (set_r_inject
                     (Some (pipeline_r_inject (reward_alpha cfg)
                              (PyFloat.ratio r.2 (solver_attempts cfg))))
                     (set_solve_rate
                        (Some (PyFloat.ratio r.2 (solver_attempts cfg)))
                        (set_status EpisodeStatus.EVALUATING
                           (set_status EpisodeStatus.SOLVING e)))))) t).
  { exists report. cbn. split; [exact Hrep|]. rewrite Hvalid.
    pose proof (successes_bounds t) as Hb.
    rewrite Hsucc. repeat split; try lia; auto. }
  apply triple_lift_any; [intros _|]; intros _; exact Hok.
Qed.

Lemma validate_and_continue_safe (cfg : EpisodeConfig) (artifact : BugArtifact) e :
  status e <> EpisodeStatus.COMPLETE ->
  triple (validate_and_continue artifact cfg) e [] (fun _ => safe cfg) (safe cfg).
Proof.
  intros Hst. unfold validate_and_continue.
  apply triple_bind. apply triple_lift_any; [intros _|not_complete].
  apply triple_bind, triple_update.
  apply triple_bind. apply triple_lift_any; [intros _|not_complete].
  apply triple_bind, triple_update.
  apply triple_bind. apply triple_lift_any; [intros _|not_complete].
  apply triple_bind. apply triple_lift_any; [intros _|not_complete].
  apply triple_bind. apply triple_lift_any; [intros report|not_complete].
  apply triple_bind. apply triple_lift_any; [intros _|not_complete].
  apply triple_bind, triple_update.
  apply triple_bind. apply triple_lift_any; [intros _|not_complete].
  destruct (valid report) eqn:Hvalid; cbn [negb].
  - eapply solve_and_reward_safe; [reflexivity|exact Hvalid].
  - apply triple_bind, triple_update.
    apply triple_bind, triple_update.
    assert (Hok : complete_ok cfg
              (set_status EpisodeStatus.COMPLETE
                 (set_r_inject (Some (PyFloat.neg PyFloat.one))
                    (set_validation_report (Some report)
                       (set_status EpisodeStatus.VALIDATING
                          (set_artifact (Some artifact) e))))) []).
    { exists report. cbn. split; [reflexivity|]. rewrite Hvalid. auto. }
    apply triple_lift_any; [intros _|]; intros _; exact Hok.
Qed.

Lemma run_pipeline_safe (cfg : EpisodeConfig) e :
  triple (_run_pipeline cfg) e [] (fun _ => safe cfg) (safe cfg).
Proof.
  unfold _run_pipeline, with_sandbox.
  apply triple_bind, triple_update.
  apply triple_bind. apply triple_lift_any; [intros _|not_complete].
  apply triple_bind. apply triple_lift_any; [intros _|not_complete].
  apply triple_stop_after.
  apply triple_bind. apply triple_lift_any; [intros digest|not_complete].
  apply triple_bind, triple_update.
  apply triple_bind. apply triple_lift_any; [intros _|not_complete].
  apply triple_bind. apply triple_lift_any; [intros _|not_complete].
  apply triple_bind. apply triple_lift_any; [intros [artifact|]|not_complete].
  - apply validate_and_continue_safe. cbn. discriminate.
  - apply fail_episode_safe.
Qed.

(** Every run of [run_episode] on a new episode ends, by return or by an
    exception swallowed in the handler, in a state where a [COMPLETE]
    episode satisfies [complete_ok]. *)
Lemma run_episode_safe (cfg : EpisodeConfig) (w : W) :
  let s := (run_episode (mkState w (new_episode cfg) [])).2 in
  safe cfg (episode s) (attempts_table s).
Proof.
  assert (Ht : triple run_episode (new_episode cfg) []
                 (fun _ => safe cfg) (safe cfg)).
  { unfold run_episode. apply triple_try.
    eapply triple_weaken
      with (Q := fun _ => safe cfg) (E := safe cfg);
      [| auto | intros e' t' Hs msg; apply handler_safe; exact Hs].
    apply triple_bind. apply triple_lift_any; [intros found|not_complete].
    destruct found; cbn [negb]; [|apply triple_ret; not_complete].
    apply triple_bind. apply triple_get. cbn.
    apply triple_bind. apply triple_lift_any; [intros _|not_complete].
    apply triple_bind. apply triple_lift_any; [intros has_env|not_complete].
    destruct has_env; cbn [negb].
    - apply run_pipeline_safe.
    - apply fail_episode_safe. }
  specialize (Ht w). cbn zeta.
  destruct (run_episode (mkState w (new_episode cfg) [])) as [[a|msg] s']; exact Ht.
Qed.

End PipelineFacts.

Lemma py_range_lookup (lo hi : Z) (i : nat) (k : Z) :
  py_range lo hi !! i = Some k -> k = lo + Z.of_nat i.
Proof.
  unfold py_range. rewrite list_lookup_fmap.
  destruct (seq 0 (Z.to_nat (hi - lo)) !! i) as [j|] eqn:Hj; [|discriminate].
  apply lookup_seq in Hj as [-> _]. cbn. congruence.
Qed.

(** C2. In an episode that [run_episode] leaves [COMPLETE], a validation
    report is recorded; when it is valid the recorded solver attempts are
    exactly [N = config.solver_attempts] rows numbered 1, 2, ..., N in
    order; when it is invalid no attempt is recorded and [r_inject] is
    [-1]. *)
Theorem completed_episode_attempts {W : Type} {SB : SandboxAPI W} {J : Json}
    {C : EpisodeOrchestrator.Collaborators W} (cfg : EpisodeConfig) (w : W) :
  let s := (EpisodeOrchestrator.run_episode
              (EpisodeOrchestrator.mkState w (EpisodeOrchestrator.new_episode cfg) [])).2 in
  EpisodeOrchestrator.status (EpisodeOrchestrator.episode s) = EpisodeStatus.COMPLETE ->
  exists report : ValidationReport,
    EpisodeOrchestrator.validation_report (EpisodeOrchestrator.episode s) = Some report /\
    (valid report = true ->
       Z.of_nat (length (EpisodeOrchestrator.attempts_table s)) = solver_attempts cfg /\
       map EpisodeOrchestrator.row_attempt_number (EpisodeOrchestrator.attempts_table s)
         = py_range 1 (solver_attempts cfg + 1) /\
       (forall (i : nat) (row : EpisodeOrchestrator.SolverAttemptDB),
           EpisodeOrchestrator.attempts_table s !! i = Some row ->
           EpisodeOrchestrator.row_attempt_number row = 1 + Z.of_nat i)) /\
    (valid report = false ->
       EpisodeOrchestrator.attempts_table s = [] /\
       exists r : PyFloat.float,
         EpisodeOrchestrator.r_inject (EpisodeOrchestrator.episode s) = Some r /\
         r = PyFloat.neg PyFloat.one).
Proof.
  intros s Hc.
  destruct (run_episode_safe cfg w Hc) as (report & Hrep & Hok).
  fold s in Hrep, Hok.
  exists report. split; [exact Hrep|]. split.
  - intros Hv. rewrite Hv in Hok. destruct Hok as (Hpos & _ & Hmap & _).
    split; [|split; [exact Hmap|]].
    + rewrite <- (length_map EpisodeOrchestrator.row_attempt_number), Hmap,
        py_range_length. lia.
    + intros i row Hi. apply (py_range_lookup 1 (solver_attempts cfg + 1)).
      rewrite <- Hmap, list_lookup_fmap, Hi. reflexivity.
  - intros Hv. rewrite Hv in Hok. destruct Hok as [Ht Hr].
    split; [exact Ht|]. exists (PyFloat.neg PyFloat.one). split; [exact Hr|reflexivity].
Qed.

Lemma completed_episode_attempts_witness :
  EpisodeOrchestrator.status (EpisodeOrchestrator.episode half_solved)
    = EpisodeStatus.COMPLETE /\
  exists report : ValidationReport,
    EpisodeOrchestrator.validation_report (EpisodeOrchestrator.episode half_solved)
      = Some report /\
    (valid report = true ->
       Z.of_nat (length (EpisodeOrchestrator.attempts_table half_solved))
         = solver_attempts default_config /\
       map EpisodeOrchestrator.row_attempt_number
           (EpisodeOrchestrator.attempts_table half_solved)
         = py_range 1 (solver_attempts default_config + 1) /\
       (forall (i : nat) (row : EpisodeOrchestrator.SolverAttemptDB),
           EpisodeOrchestrator.attempts_table half_solved !! i = Some row ->
           EpisodeOrchestrator.row_attempt_number row = 1 + Z.of_nat i)) /\
    (valid report = false ->
       EpisodeOrchestrator.attempts_table half_solved = [] /\
       exists r : PyFloat.float,
         EpisodeOrchestrator.r_inject (EpisodeOrchestrator.episode half_solved) = Some r /\
         r = PyFloat.neg PyFloat.one).
Proof.
  assert (Hc : EpisodeOrchestrator.status (EpisodeOrchestrator.episode half_solved)
               = EpisodeStatus.COMPLETE) by (vm_compute; reflexivity).
  split; [exact Hc|].
  exact (@completed_episode_attempts _ (Recorder.api half_script) Scenario.loads
           (obliging true) default_config [] Hc).
Defined.

(** At [alpha = 0.8] and [s = 0.5] the reward is not [0.1]: binary64 gives
    [1.0 - (1.0 + 0.8) * 0.5 = 0.09999999999999998], the second float below
    [0.1]. *)
Theorem reward_at_half_is_not_a_tenth :
  let r := RewardCalculator.compute_injector_reward (PyFloat.ratio 8 10) true
             (PyFloat.ratio 1 2) in
  r = PyFloat.below_tenth /\
  PyFloat.ratio 1 10 = PyFloat.tenth /\
  PyFloat.eqb r PyFloat.tenth = false /\
  PyFloat.ltb r PyFloat.tenth = true.
Proof. vm_compute. repeat split. Qed.

(** C1. In binary64, [compute_injector_reward] is [-1.0] for an invalid
    artifact, [-alpha] for a valid one whose solve rate is [== 0.0] or
    [== 1.0], and [1.0 - (1.0 + alpha) * s], each operation rounded, for a
    valid one with [0 < s < 1]; for [alpha = 0.8], the default, and
    [s = 0.5] that is [0.09999999999999998].  The [r_inject] of an episode
    that [run_episode] leaves [COMPLETE] is that function of the report's
    verdict, of [config.reward_alpha] and of [s = successful attempts / N];
    the run of a rejected artifact ends [COMPLETE] with [r_inject = -1.0]
    and no attempt, the run with two of four attempts solved with
    [r_inject = 0.09999999999999998]. *)
Theorem injector_reward_of_episode :
  (forall alpha s : PyFloat.float,
      RewardCalculator.compute_injector_reward alpha false s = PyFloat.neg PyFloat.one) /\
  (forall alpha s : PyFloat.float,
      PyFloat.eqb s PyFloat.zero = true \/ PyFloat.eqb s PyFloat.one = true ->
      RewardCalculator.compute_injector_reward alpha true s = PyFloat.neg alpha) /\
  (forall alpha s : PyFloat.float,
      PyFloat.ltb PyFloat.zero s = true -> PyFloat.ltb s PyFloat.one = true ->
      RewardCalculator.compute_injector_reward alpha true s
      = PyFloat.sub PyFloat.one (PyFloat.mul (PyFloat.add PyFloat.one alpha) s)) /\
  reward_alpha default_config = PyFloat.ratio 8 10 /\
  RewardCalculator.compute_injector_reward (PyFloat.ratio 8 10) true (PyFloat.ratio 1 2)
  = PyFloat.below_tenth /\
  (forall (W : Type) (SB : SandboxAPI W) (J : Json)
          (C : EpisodeOrchestrator.Collaborators W) (cfg : EpisodeConfig) (w : W),
      let s := (EpisodeOrchestrator.run_episode
                  (EpisodeOrchestrator.mkState w (EpisodeOrchestrator.new_episode cfg) [])).2 in
      let rate := PyFloat.ratio (successes (EpisodeOrchestrator.attempts_table s))
                    (solver_attempts cfg) in
      EpisodeOrchestrator.status (EpisodeOrchestrator.episode s) = EpisodeStatus.COMPLETE ->
      exists report : ValidationReport,
        EpisodeOrchestrator.validation_report (EpisodeOrchestrator.episode s) = Some report /\
        EpisodeOrchestrator.r_inject (EpisodeOrchestrator.episode s)
        = Some (RewardCalculator.compute_injector_reward (reward_alpha cfg)
                  (valid report) rate) /\
        (valid report = true ->
           0 < solver_attempts cfg /\
           0 <= successes (EpisodeOrchestrator.attempts_table s) <= solver_attempts cfg /\
           EpisodeOrchestrator.solve_rate (EpisodeOrchestrator.episode s) = Some rate)) /\
  (EpisodeOrchestrator.status (EpisodeOrchestrator.episode rejected)
   = EpisodeStatus.COMPLETE /\
   option_map valid (EpisodeOrchestrator.validation_report (EpisodeOrchestrator.episode rejected))
   = Some false /\
   EpisodeOrchestrator.r_inject (EpisodeOrchestrator.episode rejected)
   = Some (PyFloat.neg PyFloat.one) /\
   EpisodeOrchestrator.attempts_table rejected = []) /\
  (EpisodeOrchestrator.status (EpisodeOrchestrator.episode half_solved)
   = EpisodeStatus.COMPLETE /\
   option_map valid (EpisodeOrchestrator.validation_report (EpisodeOrchestrator.episode half_solved))
   = Some true /\
   EpisodeOrchestrator.solve_rate (EpisodeOrchestrator.episode half_solved)
   = Some (PyFloat.ratio 1 2) /\
   EpisodeOrchestrator.r_inject (EpisodeOrchestrator.episode half_solved)
   = Some PyFloat.below_tenth).
Proof.
  split; [exact reward_invalid|].
  split; [exact reward_extreme|].
  split; [exact reward_interior|].
  split; [reflexivity|].
  split; [vm_compute; reflexivity|].
  split; [|split; vm_compute; repeat split].
  intros W SB J C cfg w s rate Hc.
  destruct (run_episode_safe cfg w Hc) as (report & Hrep & Hok).
  fold s in Hrep, Hok.
  exists report. split; [exact Hrep|].
  destruct (valid report) eqn:Hv.
  - destruct Hok as (Hpos & Hb & _ & Hrate & Hr).
    split; [exact Hr|]. intros _. auto.
  - destruct Hok as [_ Hr].
    split; [exact Hr|]. discriminate.
Qed.

Lemma injector_reward_of_episode_witness :
  EpisodeOrchestrator.status (EpisodeOrchestrator.episode half_solved)
    = EpisodeStatus.COMPLETE /\
  EpisodeOrchestrator.status (EpisodeOrchestrator.episode rejected)
    = EpisodeStatus.COMPLETE /\
  (exists report : ValidationReport,
      EpisodeOrchestrator.validation_report (EpisodeOrchestrator.episode half_solved)
        = Some report /\
      EpisodeOrchestrator.r_inject (EpisodeOrchestrator.episode half_solved)
      = Some (RewardCalculator.compute_injector_reward (reward_alpha default_config)
                (valid report)
                (PyFloat.ratio (successes (EpisodeOrchestrator.attempts_table half_solved))
                   (solver_attempts default_config))) /\
      (valid report = true ->
         0 < solver_attempts default_config /\
         0 <= successes (EpisodeOrchestrator.attempts_table half_solved)
           <= solver_attempts default_config /\
         EpisodeOrchestrator.solve_rate (EpisodeOrchestrator.episode half_solved)
           = Some (PyFloat.ratio (successes (EpisodeOrchestrator.attempts_table half_solved))
                     (solver_attempts default_config)))) /\
  (exists report : ValidationReport,
      EpisodeOrchestrator.validation_report (EpisodeOrchestrator.episode rejected)
        = Some report /\
      EpisodeOrchestrator.r_inject (EpisodeOrchestrator.episode rejected)
      = Some (RewardCalculator.compute_injector_reward (reward_alpha default_config)
                (valid report)
                (PyFloat.ratio (successes (EpisodeOrchestrator.attempts_table rejected))
                   (solver_attempts default_config))) /\
      (valid report = true ->
         0 < solver_attempts default_config /\
         0 <= successes (EpisodeOrchestrator.attempts_table rejected)
           <= solver_attempts default_config /\
         EpisodeOrchestrator.solve_rate (EpisodeOrchestrator.episode rejected)
           = Some (PyFloat.ratio (successes (EpisodeOrchestrator.attempts_table rejected))
                     (solver_attempts default_config)))).
Proof.
  assert (Hc : EpisodeOrchestrator.status (EpisodeOrchestrator.episode half_solved)
               = EpisodeStatus.COMPLETE) by (vm_compute; reflexivity).
  assert (Hr : EpisodeOrchestrator.status (EpisodeOrchestrator.episode rejected)
               = EpisodeStatus.COMPLETE) by (vm_compute; reflexivity).
  split; [exact Hc|]. split; [exact Hr|]. split.
  - exact (proj1 (proj2 (proj2 (proj2 (proj2 (proj2 injector_reward_of_episode)))))
             _ (Recorder.api half_script) Scenario.loads (obliging true)
             default_config [] Hc).
  - exact (proj1 (proj2 (proj2 (proj2 (proj2 (proj2 injector_reward_of_episode)))))
             _ (Recorder.api half_script) Scenario.loads (obliging false)
             default_config [] Hr).
Defined.

(** * Further properties *)

(** ** Computations over any world *)

Section WpFacts.
Context {W : Type}.

Lemma wp_ret {A} (a : A) (Q : A -> Prop) E : Q a -> wp (W:=W) (mret a) Q E.
Proof. intros HQ w. exact HQ. Qed.

Lemma wp_raise {A} (msg : string) (Q : A -> Prop) (E : Prop) :
  E -> wp (W:=W) (raise msg) Q E.
Proof. intros HE w. exact HE. Qed.

Lemma wp_bind {A B} (m : M W A) (k : A -> M W B) (Q : B -> Prop) E :
  wp m (fun a => wp (k a) Q E) E -> wp (m ≫= k) Q E.
Proof.
  intros Hm w. specialize (Hm w). unfold mbind, M_bind, bind.
  destruct (m w) as [[a|msg] w']; [exact (Hm w') | exact Hm].
Qed.

Lemma wp_weaken {A} (m : M W A) (Q Q' : A -> Prop) (E E' : Prop) :
  wp m Q E -> (forall a, Q a -> Q' a) -> (E -> E') -> wp m Q' E'.
Proof.
  intros Hm HQ HE w. specialize (Hm w).
  destruct (m w) as [[a|msg] w']; auto.
Qed.

(** Any call: nothing is known of its value, and it may raise. *)
Lemma wp_any {A} (m : M W A) (Q : A -> Prop) (E : Prop) :
  (forall a, Q a) -> E -> wp m Q E.
Proof. intros HQ HE w. destruct (m w) as [[a|msg] w']; [apply HQ | exact HE]. Qed.

Lemma wp_try {A} (body : M W A) (handler : string -> M W A) (Q : A -> Prop) E :
  wp body Q (forall msg, wp (handler msg) Q E) ->
  wp (try_except body handler) Q E.
Proof.
  intros Hb w. specialize (Hb w). unfold try_except.
  destruct (body w) as [[a|msg] w']; [exact Hb | exact (Hb msg w')].
Qed.

Lemma run_bind {A B} (m : M W A) (k : A -> M W B) (w w' : W) (a : A) :
  m w = (Return a, w') -> (m ≫= k) w = k a w'.
Proof. intros Hm. unfold mbind, M_bind, bind. rewrite Hm. reflexivity. Qed.

Lemma wp_run {A} (m : M W A) (Q : A -> Prop) (w : W) :
  wp m Q False -> exists a w', m w = (Return a, w') /\ Q a.
Proof.
  intros Hm. specialize (Hm w).
  destruct (m w) as [[a|msg] w']; [eauto | contradiction].
Qed.

End WpFacts.

(** ** The validator *)

Section ParseFacts.
Import ArtifactValidator.

Lemma match_header_spec (line p : string) :
  match_header line = Some p <->
  p <> EmptyString /\
  (line = "--- a/" +:+ p \/ line = "--- b/" +:+ p \/
   line = "+++ a/" +:+ p \/ line = "+++ b/" +:+ p).
Proof.
  split.
  - unfold match_header.
    destruct line as [|c1 [|c2 [|c3 [|sp [|ab [|sl rest]]]]]]; try discriminate.
    destruct (String.eqb_spec rest "") as [->|Hne];
      [rewrite !andb_false_r; discriminate|].
    destruct (Ascii.eqb_spec sp " ") as [?|?], (Ascii.eqb_spec sl "/") as [?|?],
             (Ascii.eqb_spec c1 "-") as [?|?], (Ascii.eqb_spec c2 "-") as [?|?],
             (Ascii.eqb_spec c3 "-") as [?|?], (Ascii.eqb_spec c1 "+") as [?|?],
             (Ascii.eqb_spec c2 "+") as [?|?], (Ascii.eqb_spec c3 "+") as [?|?],
             (Ascii.eqb_spec ab "a") as [?|?], (Ascii.eqb_spec ab "b") as [?|?];
      cbn; try discriminate; subst; try discriminate;
      intros [= <-]; (split; [exact Hne|]); auto.
  - intros [Hne [-> | [-> | [-> | ->]]]]; destruct p as [|c p]; try congruence; reflexivity.
Qed.

End ParseFacts.

Section ValidatorFacts.
Context {W : Type} {SB : SandboxAPI W} {J : Json}.
Import Validator ArtifactValidator.

Lemma in_list_spec (f : string) (l : list string) :
  in_list f l = true <-> In f l.
Proof.
  unfold in_list. rewrite existsb_exists. split.
  - intros (x & Hin & Heq). apply String.eqb_eq in Heq. subst. exact Hin.
  - intros Hin. exists f. split; [exact Hin | apply String.eqb_refl].
Qed.

Lemma list_filter_nil {A} (p : A -> bool) (l : list A) :
  List.filter p l = [] -> forall x, In x l -> p x = false.
Proof.
  induction l as [|a l IH]; intros Hf x Hin; [destruct Hin|].
  cbn in Hf. destruct (p a) eqn:Hp; [discriminate|].
  destruct Hin as [<-|Hin]; [exact Hp | exact (IH Hf x Hin)].
Qed.

Lemma status_eqb_spec (a b : TestStatus.t) : status_eqb a b = true <-> a = b.
Proof. destruct a, b; cbn; split; congruence. Qed.

Lemma missing_files_any (l acc : list string) (Q : list string -> Prop) (E : Prop) :
  (forall r, Q r) -> E -> wp (missing_files l acc) Q E.
Proof.
  intros HQ HE. revert acc. induction l as [|f l IH]; intros acc.
  - apply wp_ret, HQ.
  - cbn [missing_files]. apply wp_bind, wp_any; [intros r|exact HE]. apply IH.
Qed.

Ltac step_fails :=
  try (intros ?msg); apply wp_ret; cbn; (split; [reflexivity | intros ?; discriminate]).

Lemma step1_spec (artifact : BugArtifact) (ctx : Context) :
  wp (_validate_test_files_existence artifact ctx)
    (fun rc =>
       step_name rc.1 = "test_files_existence" /\
       (step_passed rc.1 = true ->
        rc.2 = set_changed_test_files
                 (Some (_parse_diff_files (test_weaken_diff artifact))) ctx /\
        forall f, In f (_parse_diff_files (test_weaken_diff artifact)) ->
                  In f (test_files artifact)))
    False.
Proof.
  unfold _validate_test_files_existence. apply wp_try, wp_bind.
  apply missing_files_any; [intros missing | step_fails].
  destruct missing; [|step_fails].
  destruct (List.filter _ _) eqn:Hf; [|step_fails].
  apply wp_ret. cbn. split; [reflexivity|]. intros _. split; [reflexivity|].
  intros f Hin. pose proof (list_filter_nil _ _ Hf f Hin) as Hn.
  apply negb_false_iff in Hn. apply in_list_spec. exact Hn.
Qed.

Lemma step2_spec (artifact : BugArtifact) (vc : ValidationContext) :
  wp (_validate_parser artifact vc)
    (fun rc =>
       step_name rc.1 = "parser_validity" /\
       (step_passed rc.1 = true ->
        exists items,
          rc.2 = {| test_mapping := Some (map_statuses TestStatus.PASSED items);
                    bug_test_mapping := bug_test_mapping vc |}))
    False.
Proof.
  unfold _validate_parser. apply wp_try.
  apply wp_bind, wp_any; [intros _ | step_fails].
  apply wp_bind, wp_any; [intros _ | step_fails].
  apply wp_bind, wp_any; [intros _ | step_fails].
  apply wp_bind, wp_any; [intros result | step_fails].
  destruct (timeout result); [step_fails|].
  destruct (negb _); [step_fails|].
  destruct (json_loads _) as [[]| |?]; try step_fails; try (apply wp_raise; step_fails).
  apply wp_ret. cbn. split; [reflexivity|]. intros _. eexists. reflexivity.
Qed.

Lemma step3_spec (artifact : BugArtifact) (vc : ValidationContext) :
  step_name (_validate_original_tests artifact vc) = "original_tests_pass" /\
  (step_passed (_validate_original_tests artifact vc) = true ->
   exists m0,
     test_mapping vc = Some m0 /\ m0 <> [] /\
     Forall (fun kv => kv.2 = TestStatus.PASSED) m0 /\
     min_passing_tests (metadata artifact) <= Z.of_nat (length m0)).
Proof.
  unfold _validate_original_tests.
  destruct (test_mapping vc) as [[|kv m]|]; cbn zeta;
    try (split; [reflexivity | discriminate]).
  destruct (filter _ (kv :: m)) eqn:Hf; [|split; [reflexivity | discriminate]].
  destruct (Z.ltb_spec (Z.of_nat (length (kv :: m)))
              (min_passing_tests (metadata artifact))) as [Hlt|Hge];
    [split; [reflexivity | discriminate]|].
  split; [reflexivity|]. intros _. exists (kv :: m).
  split; [reflexivity|]. split; [discriminate|]. split; [|exact Hge].
  apply Forall_forall. intros x Hx.
  destruct (status_eqb x.2 TestStatus.PASSED) eqn:Hs;
    [apply status_eqb_spec; exact Hs|].
  exfalso. assert (Hin : x ∈ filter (fun kv => negb (status_eqb kv.2 TestStatus.PASSED))
                               (kv :: m)).
  { apply list_elem_of_filter. split; [rewrite Hs; exact I | exact Hx]. }
  rewrite Hf in Hin. inversion Hin.
Qed.

Lemma step4_spec (artifact : BugArtifact) (ctx : Context) :
  step_name (_validate_bug_scope artifact ctx).1 = "bug_scope" /\
  (step_passed (_validate_bug_scope artifact ctx).1 = true ->
   (_validate_bug_scope artifact ctx).2
   = set_changed_code_files (Some (_parse_diff_files (bug_inject_diff artifact))) ctx /\
   (forall f, In f (_parse_diff_files (bug_inject_diff artifact)) ->
              ~ In f (test_files artifact)) /\
   min_changed_files (metadata artifact)
   <= Z.of_nat (length (_parse_diff_files (bug_inject_diff artifact)))).
Proof.
  unfold _validate_bug_scope. cbn zeta.
  destruct (List.filter _ _) eqn:Hf; [|split; [reflexivity | discriminate]].
  destruct (Z.ltb_spec (Z.of_nat (length (_parse_diff_files (bug_inject_diff artifact))))
              (min_changed_files (metadata artifact))) as [Hlt|Hge];
    [split; [reflexivity | discriminate]|].
  split; [reflexivity|]. intros _. split; [reflexivity|]. split; [|exact Hge].
  intros f Hin Hin'. apply in_list_spec in Hin'.
  rewrite (list_filter_nil _ _ Hf f Hin) in Hin'. discriminate.
Qed.

Lemma step5_spec (artifact : BugArtifact) (vc : ValidationContext) :
  wp (_validate_bug_validity artifact vc)
    (fun rc =>
       step_name rc.1 = "bug_validity" /\
       (step_passed rc.1 = true ->
        exists items,
          rc.2 = {| test_mapping := test_mapping vc;
                    bug_test_mapping := Some (map_statuses TestStatus.FAILED items) |} /\
          min_failing_tests (metadata artifact)
          <= Z.of_nat (length (failing_tests (map_statuses TestStatus.FAILED items)))))
    False.
Proof.
  unfold _validate_bug_validity. apply wp_try.
  apply wp_bind, wp_any; [intros _ | step_fails].
  apply wp_bind, wp_any; [intros result | step_fails].
  destruct (negb _); [step_fails|].
  apply wp_bind, wp_any; [intros test_result | step_fails].
  destruct (timeout test_result); [step_fails|].
  destruct (json_loads _) as [[]| |?]; try step_fails; try (apply wp_raise; step_fails).
  destruct (Z.ltb_spec
              (Z.of_nat (length (failing_tests (map_statuses TestStatus.FAILED items))))
              (min_failing_tests (metadata artifact))) as [Hlt|Hge]; [step_fails|].
  apply wp_ret. cbn. split; [reflexivity|]. intros _. eexists. split; [reflexivity|].
  exact Hge.
Qed.

Lemma on_maps_spec (m : M W (ValidationStepResult * ValidationContext)) (ctx : Context)
    (Q : ValidationStepResult * ValidationContext -> Prop) :
  wp m Q False ->
  wp (on_maps m ctx)
    (fun rc => exists vc, Q (rc.1, vc) /\ rc.2 = set_maps vc ctx) False.
Proof.
  intros Hm. unfold on_maps. apply wp_bind.
  eapply wp_weaken; [exact Hm| |auto].
  intros [r vc] HQ. apply wp_ret. exists vc. split; [exact HQ | reflexivity].
Qed.

Lemma recovered_tests_inv (bug : option (list (string * TestStatus.t)))
    (weak : list (string * TestStatus.t)) :
  recovered_tests bug weak <> [] ->
  exists mb test_id,
    bug = Some mb /\
    dict_get mb test_id = Some TestStatus.FAILED /\
    In (test_id, TestStatus.PASSED) weak.
Proof.
  unfold recovered_tests. destruct bug as [[|kv mb]|]; try congruence.
  intros Hne.
  destruct (List.filter _ weak) as [|[test_id st] l] eqn:Hf; [cbn in Hne; congruence|].
  assert (Hin : In (test_id, st) (List.filter
            (fun kv0 : string * TestStatus.t =>
               match dict_get (kv :: mb) kv0.1 with
               | Some bug_status =>
                   status_eqb bug_status TestStatus.FAILED
                   && status_eqb kv0.2 TestStatus.PASSED
               | None => false
               end) weak)) by (rewrite Hf; left; reflexivity).
  apply filter_In in Hin as [Hin Hp]. cbn [fst snd] in Hp.
  destruct (dict_get (kv :: mb) test_id) as [bs|] eqn:Hg; [|discriminate].
  apply andb_true_iff in Hp as [Hb Hs].
  apply status_eqb_spec in Hb, Hs. subst.
  exists (kv :: mb), test_id. auto.
Qed.

Lemma step6_spec (artifact : BugArtifact) (ctx : Context) :
  wp (_validate_test_weakening artifact ctx)
    (fun rc =>
       step_name rc.1 = "test_weakening_validity" /\
       (step_passed rc.1 = true ->
        exists mw mb test_id,
          rc.2 = set_weak_test_mapping (Some mw) ctx /\
          bug_test_mapping (maps ctx) = Some mb /\
          dict_get mb test_id = Some TestStatus.FAILED /\
          In (test_id, TestStatus.PASSED) mw))
    False.
Proof.
  unfold _validate_test_weakening. apply wp_try.
  apply wp_bind, wp_any; [intros _ | step_fails].
  apply wp_bind, wp_any; [intros result | step_fails].
  destruct (negb _); [step_fails|].
  apply wp_bind, wp_any; [intros test_result | step_fails].
  destruct (json_loads _) as [[]| |?]; try step_fails; try (apply wp_raise; step_fails).
  destruct (recovered_tests _ _) eqn:Hr; [step_fails|].
  apply wp_ret. cbn. split; [reflexivity|]. intros _.
  destruct (recovered_tests_inv (bug_test_mapping (maps ctx))
              (map_statuses TestStatus.FAILED items)) as (mb & test_id & Hb & Hg & Hin);
    [rewrite Hr; discriminate|].
  exists (map_statuses TestStatus.FAILED items), mb, test_id. auto.
Qed.

Lemma inverse_mutation_loop_any (artifact : BugArtifact)
    (bug_items : list (string * TestStatus.t)) (failing files acc : list string)
    (Q : list string -> Prop) (E : Prop) :
  (forall r, Q r) -> E ->
  wp (inverse_mutation_loop artifact bug_items failing files acc) Q E.
Proof.
  intros HQ HE. revert acc. induction files as [|f files IH]; intros acc.
  - apply wp_ret, HQ.
  - cbn [inverse_mutation_loop].
    apply wp_bind, wp_any; [intros _ | exact HE].
    apply wp_bind, wp_any; [intros _ | exact HE].
    apply wp_bind, wp_any; [intros test_result | exact HE].
    destruct (json_loads _) as [partial_mapping| |e]; [|apply IH|apply wp_raise, HE].
    apply wp_bind, wp_any; [intros recovered | exact HE].
    apply wp_bind, wp_any; [intros _ | exact HE].
    apply IH.
Qed.

Lemma step7_spec (artifact : BugArtifact) (ctx : Context) :
  wp (_validate_inverse_mutation artifact ctx)
    (fun rc => step_name rc.1 = "inverse_mutation_testing" /\ rc.2 = ctx)
    False.
Proof.
  assert (Hfail : forall msg : string,
             wp (W:=W) (mret (step "inverse_mutation_testing" false, ctx))
               (fun rc => step_name rc.1 = "inverse_mutation_testing" /\ rc.2 = ctx)
               False).
  { intros msg. apply wp_ret. split; reflexivity. }
  unfold _validate_inverse_mutation. apply wp_try.
  destruct (changed_code_files ctx) as [[|f files]|];
    try (apply wp_ret; split; reflexivity).
  destruct (bug_test_mapping (maps ctx)) as [[|kv mb]|];
    try (apply wp_ret; split; reflexivity).
  apply wp_bind, wp_any; [intros _ | exact Hfail].
  apply wp_bind, wp_any; [intros _ | exact Hfail].
  apply wp_bind, inverse_mutation_loop_any; [intros nc | exact Hfail].
  destruct nc; apply wp_ret; split; reflexivity.
Qed.

Ltac shape_exit :=
  apply wp_ret; cbn [fst snd];
  split;
  [ split; [reflexivity|];
    split;
    [ first [ refine (ex_intro _ [] (ex_intro _ _ (conj eq_refl _)))
            | refine (ex_intro _ [_] (ex_intro _ _ (conj eq_refl _)))
            | refine (ex_intro _ [_; _] (ex_intro _ _ (conj eq_refl _)))
            | refine (ex_intro _ [_; _; _] (ex_intro _ _ (conj eq_refl _)))
            | refine (ex_intro _ [_; _; _; _] (ex_intro _ _ (conj eq_refl _)))
            | refine (ex_intro _ [_; _; _; _; _] (ex_intro _ _ (conj eq_refl _)))
            | refine (ex_intro _ [_; _; _; _; _; _] (ex_intro _ _ (conj eq_refl _))) ];
      split; [repeat constructor; assumption|];
      cbn [valid _build_report forallb];
      repeat match goal with Hp : step_passed _ = _ |- _ => rewrite Hp end;
      reflexivity
    | split;
      [ cbn [steps _build_report map length];
        repeat match goal with Hn : step_name _ = _ |- _ => rewrite Hn end;
        first [ reflexivity
              | match goal with
                | |- context [step_names ?e] => destruct e; reflexivity
                end ]
      | cbn [valid steps _build_report forallb map];
        repeat match goal with Hp : step_passed _ = _ |- _ => rewrite Hp end;
        repeat match goal with Hn : step_name _ = _ |- _ => rewrite Hn end;
        cbn; first [ intros ?; discriminate | intros _; reflexivity ] ] ]
  | cbn [valid _build_report forallb];
    repeat match goal with Hp : step_passed _ = _ |- _ => rewrite Hp end;
    cbn; try (intros ?; discriminate) ].

Lemma validate_spec (enable : bool) (artifact : BugArtifact) :
  wp (validate_with_context enable artifact)
    (fun rc =>
       report_shape enable artifact rc.1 /\
       (valid rc.1 = true -> checked artifact rc.2))
    False.
Proof.
  unfold validate_with_context, report_shape.
  apply wp_bind. eapply wp_weaken; [apply step1_spec| |auto].
  intros [r1 c1] [Hn1 H1]. cbn [fst snd] in *.
  destruct (step_passed r1) eqn:Hp1; cbn [negb]; [|shape_exit].
  destruct (H1 eq_refl) as [-> Htf]. clear H1.
  apply wp_bind. eapply wp_weaken; [apply on_maps_spec, step2_spec| |auto].
  intros [r2 c2] (vc2 & [Hn2 H2] & Hc2). cbn [fst snd] in *.
  destruct (step_passed r2) eqn:Hp2; cbn [negb]; [|shape_exit].
  destruct (H2 eq_refl) as [items0 ->]. clear H2. subst c2.
  match goal with
  | |- context [_validate_original_tests artifact ?vc] =>
      destruct (step3_spec artifact vc) as [Hn3 H3];
      destruct (step_passed (_validate_original_tests artifact vc)) eqn:Hp3
  end; cbn [negb]; [|shape_exit].
  destruct (H3 eq_refl) as (m0 & Hm0 & Hne0 & Hall0 & Hmin0). clear H3.
  match goal with
  | |- context [_validate_bug_scope artifact ?c] =>
      destruct (step4_spec artifact c) as [Hn4 H4];
      destruct (step_passed (_validate_bug_scope artifact c).1) eqn:Hp4
  end; cbn [negb]; [|shape_exit].
  destruct (H4 eq_refl) as (Hc4 & Hcf & Hmin4). clear H4. rewrite Hc4.
  apply wp_bind. eapply wp_weaken; [apply on_maps_spec, step5_spec| |auto].
  intros [r5 c5] (vc5 & [Hn5 H5] & Hc5). cbn [fst snd] in *.
  destruct (step_passed r5) eqn:Hp5; cbn [negb]; [|shape_exit].
  destruct (H5 eq_refl) as (items5 & -> & Hmin5). clear H5. subst c5.
  apply wp_bind. eapply wp_weaken; [apply step6_spec| |auto].
  intros [r6 c6] [Hn6 H6]. cbn [fst snd] in *.
  destruct (step_passed r6) eqn:Hp6; cbn [negb]; [|shape_exit].
  destruct (H6 eq_refl) as (mw & mb & test_id & -> & Hmb & Hget & Hin). clear H6.
  cbn in Hmb. injection Hmb as <-. cbn in Hm0. injection Hm0 as <-.
  assert (Hck : checked artifact
            (set_weak_test_mapping (Some mw)
               (set_maps
                  {| test_mapping := Some (map_statuses TestStatus.PASSED items0);
                     bug_test_mapping := Some (map_statuses TestStatus.FAILED items5) |}
                  (set_changed_code_files
                     (Some (_parse_diff_files (bug_inject_diff artifact)))
                     (set_maps
                        {| test_mapping := Some (map_statuses TestStatus.PASSED items0);
                           bug_test_mapping := bug_test_mapping (maps
                             (set_changed_test_files
                                (Some (_parse_diff_files (test_weaken_diff artifact)))
                                new_context)) |}
                        (set_changed_test_files
                           (Some (_parse_diff_files (test_weaken_diff artifact)))
                           new_context)))))).
  { exists (map_statuses TestStatus.PASSED items0),
           (map_statuses TestStatus.FAILED items5), mw.
    cbn. repeat (split; [first [reflexivity | assumption]|]).
    exists test_id. split; assumption. }
  destruct enable.
  - apply wp_bind. eapply wp_weaken; [apply step7_spec| |auto].
    intros [r7 c7] [Hn7 ->]. cbn [fst snd] in *.
    destruct (step_passed r7) eqn:Hp7; shape_exit. intros _. exact Hck.
  - shape_exit. intros _. exact Hck.
Qed.

End ValidatorFacts.

Section ParseDiffFacts.
Import ArtifactValidator.

Lemma header_file_spec (line p : string) :
  header_file line = Some p <->
  p <> EmptyString /\ p <> "/dev/null"%string /\
  (line = "--- a/" +:+ p \/ line = "--- b/" +:+ p \/
   line = "+++ a/" +:+ p \/ line = "+++ b/" +:+ p).
Proof.
  unfold header_file. split.
  - destruct (match_header line) as [q|] eqn:Hm; [|discriminate].
    destruct (String.eqb_spec q "/dev/null") as [|Hne]; [discriminate|].
    cbn. intros [= ->]. apply match_header_spec in Hm as [H1 H2]. auto.
  - intros (H1 & H2 & H3).
    assert (Hm : match_header line = Some p) by (apply match_header_spec; auto).
    rewrite Hm. destruct (String.eqb_spec p "/dev/null"); [contradiction|reflexivity].
Qed.

End ParseDiffFacts.

(** X1. [_parse_diff_files] returns, without repetition, exactly the
    non-empty paths [p] other than [/dev/null] for which some line of the
    diff is [--- a/p], [--- b/p], [+++ a/p] or [+++ b/p]; a header written
    without the [a/] or [b/] prefix, such as [--- /dev/null] or
    [--- src/x.py], names no file. *)
Theorem parse_diff_files_spec (diff_content : string) :
  NoDup (ArtifactValidator._parse_diff_files diff_content) /\
  forall p : string,
    In p (ArtifactValidator._parse_diff_files diff_content) <->
    p <> EmptyString /\ p <> "/dev/null"%string /\
    exists line,
      In line (PyStr.split PyStr.nl diff_content) /\
      (line = "--- a/" +:+ p \/ line = "--- b/" +:+ p \/
       line = "+++ a/" +:+ p \/ line = "+++ b/" +:+ p).
Proof.
  unfold ArtifactValidator._parse_diff_files. split; [apply NoDup_remove_dups|].
  intros p. rewrite <- list_elem_of_In, elem_of_remove_dups, list_elem_of_omap.
  split.
  - intros (line & Hin & Hh). apply header_file_spec in Hh as (H1 & H2 & H3).
    split; [exact H1|]. split; [exact H2|]. exists line.
    split; [apply list_elem_of_In; exact Hin | exact H3].
  - intros (H1 & H2 & line & Hin & H3). exists line.
    split; [apply list_elem_of_In; exact Hin|]. apply header_file_spec. auto.
Qed.

(** X2. [validate] never raises, whatever the sandbox does, and its report
    has a fixed form: the steps are an initial segment of the seven (six
    when inverse mutation testing is disabled) step names in order, every
    step but the last one passed, the verdict [valid] is the last step's
    result, and a valid report lists all the steps. *)
Theorem validate_report_shape {W : Type} {SB : SandboxAPI W} {J : Json}
    (enable_inverse_mutation : bool) (artifact : BugArtifact) (w : W) :
  exists report w',
    ArtifactValidator.validate enable_inverse_mutation artifact w = (Return report, w') /\
    vr_artifact_id report = artifact_id (metadata artifact) /\
    (exists init last,
        steps report = init ++ [last] /\
        Forall (fun s => step_passed s = true) init /\
        valid report = step_passed last) /\
    map step_name (steps report)
    = take (length (steps report)) (ArtifactValidator.step_names enable_inverse_mutation) /\
    (valid report = true ->
     map step_name (steps report)
     = ArtifactValidator.step_names enable_inverse_mutation).
Proof.
  destruct (wp_run _ _ w (validate_spec enable_inverse_mutation artifact))
    as ([report ctx] & w' & Hrun & Hshape & _).
  exists report, w'. split; [|exact Hshape].
  unfold ArtifactValidator.validate, mbind, M_bind, bind. rewrite Hrun. reflexivity.
Qed.

Lemma validate_report_shape_witness :
  exists report log,
    @ArtifactValidator.validate _ (Recorder.api validating_script) Scenario.loads
      true Scenario.the_artifact [] = (Return report, log) /\
    vr_artifact_id report = artifact_id (metadata Scenario.the_artifact) /\
    (exists init last,
        steps report = init ++ [last] /\
        Forall (fun s => step_passed s = true) init /\
        valid report = step_passed last) /\
    map step_name (steps report)
    = take (length (steps report)) (ArtifactValidator.step_names true) /\
    (valid report = true ->
     map step_name (steps report) = ArtifactValidator.step_names true).
Proof.
  exact (@validate_report_shape _ (Recorder.api validating_script) Scenario.loads
           true Scenario.the_artifact []).
Defined.

(** X3. When [validate] reports an artifact valid, its context holds a
    non-empty baseline map in which every test is [PASSED] and that has at
    least [min_passing_tests] entries; a buggy-state map with at least
    [min_failing_tests] tests [FAILED]; a weakened-state map in which some
    test that was [FAILED] in the buggy state is [PASSED]; the files of
    [test_weaken.diff] are all in [test_files]; and the files of
    [bug_inject.diff] are at least [min_changed_files] and none of them is
    in [test_files]. *)
Theorem valid_report_is_checked {W : Type} {SB : SandboxAPI W} {J : Json}
    (enable_inverse_mutation : bool) (artifact : BugArtifact) (w : W)
    (rc : ValidationReport * ArtifactValidator.Context) :
  (ArtifactValidator.validate_with_context enable_inverse_mutation artifact w).1
    = Return rc ->
  valid rc.1 = true ->
  (ArtifactValidator.validate enable_inverse_mutation artifact w).1 = Return rc.1 /\
  checked artifact rc.2.
Proof.
  intros Hrun Hvalid.
  destruct (wp_run _ _ w (validate_spec enable_inverse_mutation artifact))
    as (rc' & w' & Hrun' & _ & Hck).
  rewrite Hrun' in Hrun. cbn in Hrun. injection Hrun as <-.
  split; [|exact (Hck Hvalid)].
  unfold ArtifactValidator.validate, mbind, M_bind, bind. rewrite Hrun'. reflexivity.
Qed.

Lemma valid_report_is_checked_witness :
  validated_run.1 = Return validated /\
  valid validated.1 = true /\
  (@ArtifactValidator.validate _ (Recorder.api validating_script) Scenario.loads
     true Scenario.the_artifact []).1 = Return validated.1 /\
  checked Scenario.the_artifact validated.2.
Proof.
  assert (H1 : validated_run.1 = Return validated) by (vm_compute; reflexivity).
  assert (H2 : valid validated.1 = true) by (vm_compute; reflexivity).
  split; [exact H1|]. split; [exact H2|].
  exact (@valid_report_is_checked _ (Recorder.api validating_script) Scenario.loads
           true Scenario.the_artifact [] validated H1 H2).
Defined.

Section InverseMutationFacts.
Context {W : Type} {SB : SandboxAPI W} {J : Json}.
Import Validator ArtifactValidator.

Variable P : W -> Prop.
Variable raised : option string.
Hypothesis undecodable :
  forall (command : string) (t : option Z) (w : W),
    P w ->
    exists r w',
      sandbox_bash command t w = (Return r, w') /\ P w' /\
      (command = harness_command ->
       json_loads (PyStr.strip (stdout r)) = loads_raises raised).

Lemma inverse_mutation_loop_skips (artifact : BugArtifact)
    (bug_items : list (string * TestStatus.t)) (failing files acc : list string) (w : W) :
  raised = None ->
  P w ->
  exists w',
    inverse_mutation_loop artifact bug_items failing files acc w = (Return acc, w') /\
    P w'.
Proof.
  intros Hr. revert w. induction files as [|f files IH]; intros w Hw.
  - exists w. split; [reflexivity | exact Hw].
  - cbn [inverse_mutation_loop]. unfold mbind, M_bind, bind.
    destruct (undecodable "patch -p1 < bug_inject.diff" None w Hw)
      as (r1 & w1 & -> & Hw1 & _).
    destruct (undecodable ("git checkout HEAD -- " +:+ f) None w1 Hw1)
      as (r2 & w2 & -> & Hw2 & _).
    destruct (undecodable harness_command
                (Some (max_test_runtime_sec (metadata artifact))) w2 Hw2)
      as (r3 & w3 & -> & Hw3 & Hj).
    rewrite (Hj eq_refl), Hr. apply IH. exact Hw3.
Qed.

Lemma inverse_mutation_loop_raises (artifact : BugArtifact)
    (bug_items : list (string * TestStatus.t)) (failing files acc : list string)
    (f : string) (e : string) (w : W) :
  raised = Some e ->
  P w ->
  exists w',
    inverse_mutation_loop artifact bug_items failing (f :: files) acc w = (Raise e, w').
Proof.
  intros Hr Hw. cbn [inverse_mutation_loop]. unfold mbind, M_bind, bind.
  destruct (undecodable "patch -p1 < bug_inject.diff" None w Hw)
    as (r1 & w1 & -> & Hw1 & _).
  destruct (undecodable ("git checkout HEAD -- " +:+ f) None w1 Hw1)
    as (r2 & w2 & -> & Hw2 & _).
  destruct (undecodable harness_command
              (Some (max_test_runtime_sec (metadata artifact))) w2 Hw2)
    as (r3 & w3 & -> & Hw3 & Hj).
  rewrite (Hj eq_refl), Hr. exists w3. reflexivity.
Qed.

End InverseMutationFacts.

(** X4. Step 7 counts a file as non-contributing only when the harness
    output of its re-run decodes.  From a state of the sandbox after which
    no command raises, for any non-empty list of changed files and any
    non-empty buggy-state map: when [json.loads] raises
    [json.JSONDecodeError] on every harness output, every file is skipped
    and inverse mutation testing passes; when it raises another exception,
    the step fails. *)
Theorem inverse_mutation_on_undecodable_output
    {W : Type} {SB : SandboxAPI W} {J : Json} (P : W -> Prop) (raised : option string)
    (artifact : BugArtifact) (ctx : ArtifactValidator.Context) (w : W)
    (files : list string) (mb : list (string * TestStatus.t)) :
  (forall (command : string) (t : option Z) (w : W),
      P w ->
      exists r w',
        sandbox_bash command t w = (Return r, w') /\ P w' /\
        (command = harness_command ->
         json_loads (PyStr.strip (stdout r)) = loads_raises raised)) ->
  P w ->
  ArtifactValidator.changed_code_files ctx = Some files -> files <> [] ->
  Validator.bug_test_mapping (ArtifactValidator.maps ctx) = Some mb -> mb <> [] ->
  exists w',
    ArtifactValidator._validate_inverse_mutation artifact ctx w
    = (Return (Validator.step "inverse_mutation_testing"
                 (match raised with None => true | Some _ => false end), ctx), w').
Proof.
  intros Hund Hw Hf Hfne Hb Hbne.
  unfold ArtifactValidator._validate_inverse_mutation, try_except.
  rewrite Hf, Hb. destruct files as [|f files]; [congruence|].
  destruct mb as [|kv mb]; [congruence|].
  unfold mbind, M_bind, bind.
  destruct (Hund "patch -R -p1 < test_weaken.diff" None w Hw) as (r1 & w1 & -> & Hw1 & _).
  destruct (Hund "patch -R -p1 < bug_inject.diff" None w1 Hw1) as (r2 & w2 & -> & Hw2 & _).
  destruct raised as [e|] eqn:Hr.
  - destruct (inverse_mutation_loop_raises P (Some e) Hund artifact (kv :: mb)
                (Validator.failing_tests (kv :: mb)) files [] f e w2 eq_refl Hw2)
      as (w3 & ->).
    exists w3. reflexivity.
  - destruct (inverse_mutation_loop_skips P None Hund artifact (kv :: mb)
                (Validator.failing_tests (kv :: mb)) (f :: files) [] w2 eq_refl Hw2)
      as (w3 & -> & _).
    exists w3. reflexivity.
Qed.

Lemma inverse_mutation_on_undecodable_output_witness :
  (exists log,
      @ArtifactValidator._validate_inverse_mutation _ (Recorder.api crashing_script)
        Scenario.loads Scenario.the_artifact context_before_step7 []
      = (Return (Validator.step "inverse_mutation_testing" true, context_before_step7),
         log)) /\
  (exists log,
      @ArtifactValidator._validate_inverse_mutation _ (Recorder.api nesting_script)
        loads_nested Scenario.the_artifact context_before_step7 []
      = (Return (Validator.step "inverse_mutation_testing" false, context_before_step7),
         log)).
Proof.
  split.
  - refine (@inverse_mutation_on_undecodable_output _
              (Recorder.api crashing_script) Scenario.loads (fun _ => True) None
              Scenario.the_artifact context_before_step7 []
              [Scenario.code_path] [("test_f", TestStatus.FAILED)] _ I eq_refl _ eq_refl _).
    + intros command t log _. cbn.
      destruct (String.eqb_spec command harness_command) as [->|Hne].
      * eexists _, _. split; [reflexivity|]. split; [exact I|]. intros _. reflexivity.
      * eexists _, _. split; [reflexivity|]. split; [exact I|]. intros Heq. contradiction.
    + discriminate.
    + discriminate.
  - refine (@inverse_mutation_on_undecodable_output _
              (Recorder.api nesting_script) loads_nested (fun _ => True)
              (Some recursion_error)
              Scenario.the_artifact context_before_step7 []
              [Scenario.code_path] [("test_f", TestStatus.FAILED)] _ I eq_refl _ eq_refl _).
    + intros command t log _. cbn.
      destruct (String.eqb_spec command harness_command) as [->|Hne].
      * eexists _, _. split; [reflexivity|]. split; [exact I|]. intros _.
        vm_compute. reflexivity.
      * eexists _, _. split; [reflexivity|]. split; [exact I|]. intros Heq. contradiction.
    + discriminate.
    + discriminate.
Defined.

(** ** The pipeline's final state *)

Section SettledFacts.
Context {W : Type} {SB : SandboxAPI W} {J : Json}
        {C : EpisodeOrchestrator.Collaborators W}.
Import EpisodeOrchestrator.

Implicit Types (e : EpisodeDB) (t : list SolverAttemptDB).

Lemma successes_cons (row : SolverAttemptDB) t :
  successes (row :: t) = (if row_success row then 1 else 0) + successes t.
Proof.
  unfold successes. rewrite filter_cons.
  destruct (row_success row); destruct (decide _); try congruence; cbn [length]; lia.
Qed.

(** The rewards the pipeline averages are those of the recorded rows. *)
Lemma r_solve_values_rows (acc : list SolverAttempt) t :
  map success acc = map row_success t ->
  r_solve_values acc = row_rewards t.
Proof.
  revert t. induction acc as [|a acc IH]; intros [|row t] Hmap; try discriminate.
  - reflexivity.
  - cbn [map] in Hmap. injection Hmap as Ha Hmap.
    unfold r_solve_values, row_rewards in *. cbn [map].
    rewrite (IH t Hmap), <- Ha. reflexivity.
Qed.

Lemma loop_spec_success (artifact : BugArtifact) (nums : list Z) :
  forall (acc : list SolverAttempt) (succ : Z) e t,
    map success acc = map row_success t ->
    succ = successes t ->
    triple (solver_attempts_loop artifact nums acc succ) e t
      (fun r e' t' =>
         e' = e /\
         length t' = (length t + length nums)%nat /\
         map success r.1 = map row_success t' /\
         r.2 = successes t')
      (fun e' t' => e' = e).
Proof.
  induction nums as [|n nums IH]; intros acc succ e t Hmap Hsucc.
  - apply triple_ret. cbn. rewrite Nat.add_0_r. auto.
  - cbn [solver_attempts_loop].
    apply triple_bind. apply triple_lift_any; [intros _|reflexivity].
    apply triple_bind.
    apply triple_lift with (P := fun a => success a = false).
    { intros w a w' Hrun. unfold solver_run, mbind, M_bind, bind in Hrun.
      destruct (solver_tool_loop artifact n w) as [[r|msg] w1];
        inversion Hrun; subst. reflexivity. }
    2: reflexivity.
    intros attempt Hs.
    apply triple_bind.
    apply triple_weaken
      with (Q := fun ev e' t' =>
                   e' = e /\ t' = t /\
                   ev.2 = succ + (if success ev.1 then 1 else 0))
           (E := fun e' t' => e' = e).
    + destruct (truthy (pred_patch attempt)).
      * apply triple_bind. apply triple_lift_any; [intros ev|reflexivity].
        apply triple_ret. cbn.
        destruct (ev_success ev); repeat split; auto; lia.
      * apply triple_ret. cbn. rewrite Hs. repeat split; auto; lia.
    + intros ev e' t' (-> & -> & Hev).
      apply triple_bind.
      apply triple_weaken
        with (Q := fun row e' t' =>
                     e' = e /\ t' = t ++ [row] /\
                     row_attempt_number row = attempt_number ev.1 /\
                     row_success row = success ev.1)
             (E := fun e' t' => e' = e); [apply store_spec| |auto].
      intros row e' t' (-> & -> & _ & Hrs).
      apply triple_bind. apply triple_lift_any; [intros _|reflexivity].
      eapply triple_weaken; [apply IH| |auto].
      * rewrite !map_app. cbn [map]. rewrite Hmap, Hrs. reflexivity.
      * rewrite successes_app, Hrs, Hev, Hsucc. reflexivity.
      * cbn beta. intros r e' t' (-> & Hlen & Hm & Hr).
        split; [reflexivity|]. split; [|auto].
        rewrite Hlen, length_app. cbn [length]. lia.
    + auto.
Qed.

Ltac unsettled Herr :=
  try (intros _);
  split;
  [ cbn; rewrite ?Herr; split;
    [ intros Hx; discriminate Hx | intros Hx; exfalso; apply Hx; reflexivity ]
  | cbn; intros Hx; discriminate Hx ].

Lemma fail_episode_settled (cfg : EpisodeConfig) (msg : string) e t :
  triple (_fail_episode msg) e t (fun _ => settled cfg) (settled cfg).
Proof.
  assert (Hs : settled cfg
                 (set_error_message (Some msg) (set_status EpisodeStatus.FAILED e)) t).
  { split; cbn; [|intros Hx; discriminate Hx].
    split; [intros _; discriminate | reflexivity]. }
  unfold _fail_episode.
  apply triple_bind, triple_update.
  apply triple_bind, triple_update.
  apply triple_lift_any; [intros _|]; exact Hs.
Qed.

Lemma handler_settled (cfg : EpisodeConfig) (msg : string) e t :
  settled cfg e t ->
  triple (run_episode_handler msg) e t (fun _ => settled cfg) (settled cfg).
Proof.
  intros Hs. unfold run_episode_handler.
  apply triple_try. apply triple_bind.
  apply triple_lift_any.
  - intros [|].
    + eapply triple_weaken; [apply (fail_episode_settled cfg)|auto|].
      intros e' t' Hs' msg'. apply triple_ret. exact Hs'.
    + apply triple_ret. exact Hs.
  - intros msg'. apply triple_ret. exact Hs.
Qed.

Lemma solve_and_reward_settled (cfg : EpisodeConfig) (artifact : BugArtifact)
    (report : ValidationReport) e :
  validation_report e = Some report ->
  valid report = true ->
  error_message e = None ->
  EpisodeOrchestrator.artifact e <> None ->
  triple (solve_and_reward artifact cfg) e [] (fun _ => settled cfg) (settled cfg).
Proof.
  intros Hrep Hvalid Herr Hart. unfold solve_and_reward.
  apply triple_bind, triple_update.
  apply triple_bind. apply triple_lift_any; [intros _|unsettled Herr].
  apply triple_bind.
  eapply triple_weaken; [apply loop_spec_success; reflexivity| |].
  2:{ cbn beta. intros e' t' ->. unsettled Herr. }
  cbn beta. intros r e' t (-> & Hlen & Hmap & Hsucc).
  rewrite py_range_length in Hlen. cbn [length Nat.add] in Hlen.
  apply triple_bind, triple_update.
  apply triple_bind. apply triple_lift_any; [intros _|unsettled Herr].
  apply triple_bind. apply triple_truediv; [intros rate Hrate|unsettled Herr].
  apply triple_bind, triple_update.
  apply triple_bind, triple_update.
  apply triple_bind. apply triple_truediv; [intros avg Havg|unsettled Herr].
  apply triple_bind, triple_update.
  apply triple_bind, triple_update.
  apply truediv_sum_inv in Havg as [Hne ->].
  rewrite (r_solve_values_rows _ _ Hmap) in *.
  assert (Hrows : length (row_rewards t) = length t)
    by (unfold row_rewards; apply length_map).
  assert (Hpos : 0 < solver_attempts cfg).
  { destruct (Z.ltb_spec 0 (solver_attempts cfg)) as [Hp|Hp]; [exact Hp|].
    exfalso. apply Hne.
    replace (Z.to_nat (solver_attempts cfg + 1 - 1)) with O in Hlen by lia.
    destruct t; [reflexivity | discriminate Hlen]. }
  assert (HlenZ : Z.of_nat (length t) = solver_attempts cfg) by lia.
  assert (Hok : settled cfg
            (set_status EpisodeStatus.COMPLETE
               (set_r_solve_avg
                  (Some (PyFloat.div (fold_left PyFloat.add (row_rewards t) PyFloat.zero)
                           (PyFloat.of_int (Z.of_nat (length (row_rewards t))))))
                  (set_r_inject
                     (Some (pipeline_r_inject (reward_alpha cfg) rate))
                     (set_solve_rate (Some rate)
                        (set_status EpisodeStatus.EVALUATING
                           (set_status EpisodeStatus.SOLVING e)))))) t).
  { split; cbn.
    - rewrite Herr. split; [intros Hx; discriminate Hx|].
      intros Hx; exfalso; apply Hx; reflexivity.
    - intros _. exists report. cbn. split; [exact Hrep|]. split; [exact Hart|].
      rewrite Hvalid.
      split; [exact Hpos|]. split; [exact HlenZ|].
      rewrite Hrows, HlenZ. reflexivity. }
  apply triple_lift_any; [intros _|]; exact Hok.
Qed.

Lemma validate_and_continue_settled (cfg : EpisodeConfig) (artifact : BugArtifact) e :
  status e <> EpisodeStatus.COMPLETE ->
  status e <> EpisodeStatus.FAILED ->
  error_message e = None ->
  solve_rate e = None ->
  r_solve_avg e = None ->
  triple (validate_and_continue artifact cfg) e [] (fun _ => settled cfg) (settled cfg).
Proof.
  intros Hst Hsf Herr Hrate Havg. unfold validate_and_continue.
  assert (Hun : forall e', status e' <> EpisodeStatus.COMPLETE ->
                           status e' <> EpisodeStatus.FAILED ->
                           error_message e' = None -> settled cfg e' []).
  { intros e' H1 H2 H3. split; [|intros Hx; contradiction].
    rewrite H3. split; [intros Hx; contradiction|].
    intros Hx; exfalso; apply Hx; reflexivity. }
  apply triple_bind. apply triple_lift_any; [intros _|apply Hun; assumption].
  apply triple_bind, triple_update.
  apply triple_bind. apply triple_lift_any; [intros _|apply Hun; assumption].
  apply triple_bind, triple_update.
  apply triple_bind. apply triple_lift_any; [intros _|unsettled Herr].
  apply triple_bind. apply triple_lift_any; [intros _|unsettled Herr].
  apply triple_bind. apply triple_lift_any; [intros report|unsettled Herr].
  apply triple_bind. apply triple_lift_any; [intros _|unsettled Herr].
  apply triple_bind, triple_update.
  apply triple_bind. apply triple_lift_any; [intros _|unsettled Herr].
  destruct (valid report) eqn:Hvalid; cbn [negb].
  - eapply solve_and_reward_settled;
      [reflexivity | exact Hvalid | exact Herr | cbn; discriminate].
  - apply triple_bind, triple_update.
    apply triple_bind, triple_update.
    assert (Hok : settled cfg
              (set_status EpisodeStatus.COMPLETE
                 (set_r_inject (Some (PyFloat.neg PyFloat.one))
                    (set_validation_report (Some report)
                       (set_status EpisodeStatus.VALIDATING
                          (set_artifact (Some artifact) e))))) []).
    { split; cbn.
      - rewrite Herr. split; [intros Hx; discriminate Hx|].
        intros Hx; exfalso; apply Hx; reflexivity.
      - intros _. exists report. cbn. split; [reflexivity|].
        split; [discriminate|]. rewrite Hvalid. auto. }
    apply triple_lift_any; [intros _|]; exact Hok.
Qed.

Lemma run_pipeline_settled (cfg : EpisodeConfig) e :
  error_message e = None ->
  solve_rate e = None ->
  r_solve_avg e = None ->
  triple (_run_pipeline cfg) e [] (fun _ => settled cfg) (settled cfg).
Proof.
  intros Herr Hrate Havg. unfold _run_pipeline, with_sandbox.
  apply triple_bind, triple_update.
  apply triple_bind. apply triple_lift_any; [intros _|unsettled Herr].
  apply triple_bind. apply triple_lift_any; [intros _|unsettled Herr].
  apply triple_stop_after.
  apply triple_bind. apply triple_lift_any; [intros digest|unsettled Herr].
  apply triple_bind, triple_update.
  apply triple_bind. apply triple_lift_any; [intros _|unsettled Herr].
  apply triple_bind. apply triple_lift_any; [intros _|unsettled Herr].
  apply triple_bind. apply triple_lift_any; [intros [artifact|]|unsettled Herr].
  - apply validate_and_continue_settled; cbn; try assumption; discriminate.
  - apply fail_episode_settled.
Qed.

Lemma run_episode_settled (cfg : EpisodeConfig) (w : W) :
  let s := (run_episode (mkState w (new_episode cfg) [])).2 in
  settled cfg (episode s) (attempts_table s).
Proof.
  assert (Hnew : settled cfg (new_episode cfg) []).
  { split; cbn; [|intros Hx; discriminate Hx].
    split; [intros Hx; discriminate Hx|]. intros Hx; exfalso; apply Hx; reflexivity. }
  assert (Ht : triple run_episode (new_episode cfg) []
                 (fun _ => settled cfg) (settled cfg)).
  { unfold run_episode. apply triple_try.
    eapply triple_weaken
      with (Q := fun _ => settled cfg) (E := settled cfg);
      [| auto | intros e' t' Hs msg; apply handler_settled; exact Hs].
    apply triple_bind. apply triple_lift_any; [intros found|exact Hnew].
    destruct found; cbn [negb]; [|apply triple_ret; exact Hnew].
    apply triple_bind. apply triple_get. cbn.
    apply triple_bind. apply triple_lift_any; [intros _|exact Hnew].
    apply triple_bind. apply triple_lift_any; [intros has_env|exact Hnew].
    destruct has_env; cbn [negb].
    - apply run_pipeline_settled; reflexivity.
    - apply fail_episode_settled. }
  specialize (Ht w). cbn zeta.
  destruct (run_episode (mkState w (new_episode cfg) [])) as [[a|msg] s']; exact Ht.
Qed.

End SettledFacts.


Section AverageFacts.

Lemma same_float_eq (x y : PyFloat.float) : same_float x y = true -> x = y.
Proof.
  destruct x as [s|s| |s m e], y as [s'|s'| |s' m' e']; cbn; try discriminate.
  - intros H. apply eqb_prop in H. congruence.
  - intros H. apply eqb_prop in H. congruence.
  - reflexivity.
  - intros H. apply andb_prop in H as [H He]. apply andb_prop in H as [Hs Hm].
    apply eqb_prop in Hs. apply Pos.eqb_eq in Hm. apply Z.eqb_eq in He. congruence.
Qed.

Lemma steps_exact_on_spec (n j : Z) (success : bool) :
  steps_exact_on n = true ->
  - n <= j <= n ->
  PyFloat.add (PyFloat.of_int j) (RewardCalculator.compute_solver_reward success)
  = PyFloat.of_int (j + (if success then 1 else -1)).
Proof.
  intros H Hj. unfold steps_exact_on in H.
  pose proof (forallb_py_range _ (- n) (n + 1) j H ltac:(lia)) as Hs.
  cbv beta in Hs. apply andb_prop in Hs as [H1 H2].
  destruct success; cbn [RewardCalculator.compute_solver_reward];
    [exact (same_float_eq _ _ H1) | exact (same_float_eq _ _ H2)].
Qed.

Lemma means_on_spec (n m N : Z) :
  means_on n = true ->
  1 <= N <= n -> - N <= m <= N ->
  PyFloat.div (PyFloat.of_int m) (PyFloat.of_int N) = PyFloat.ratio m N /\
  PyFloat.leb (PyFloat.neg PyFloat.one) (PyFloat.ratio m N) = true /\
  PyFloat.leb (PyFloat.ratio m N) PyFloat.one = true.
Proof.
  intros H HN Hm. unfold means_on in H.
  pose proof (forallb_py_range _ 1 (n + 1) N H ltac:(lia)) as HN'.
  cbv beta in HN'.
  pose proof (forallb_py_range _ (- N) (N + 1) m HN' ltac:(lia)) as Hm'.
  cbv beta in Hm'.
  apply andb_prop in Hm' as [Hm' H3]. apply andb_prop in Hm' as [H1 H2].
  split; [exact (same_float_eq _ _ H1)|]. split; assumption.
Qed.

Lemma steps_exact_on_64 : steps_exact_on 64 = true.
Proof. vm_cast_no_check (eq_refl true). Qed.

Lemma means_on_64 : means_on 64 = true.
Proof. vm_cast_no_check (eq_refl true). Qed.

Lemma step_exact (j : Z) (success : bool) :
  -64 <= j <= 64 ->
  PyFloat.add (PyFloat.of_int j) (RewardCalculator.compute_solver_reward success)
  = PyFloat.of_int (j + (if success then 1 else -1)).
Proof. apply (steps_exact_on_spec 64 j success steps_exact_on_64). Qed.

(** [sum] adds the rewards of at most 64 attempts without rounding. *)
Lemma sum_rewards_from (t : list EpisodeOrchestrator.SolverAttemptDB) (j : Z) :
  Z.abs j + Z.of_nat (length t) <= 64 ->
  fold_left PyFloat.add (row_rewards t) (PyFloat.of_int j)
  = PyFloat.of_int (j + 2 * successes t - Z.of_nat (length t)).
Proof.
  revert j. induction t as [|row t IH]; intros j Hj.
  - cbn. f_equal. unfold successes. cbn. lia.
  - unfold row_rewards in *. cbn [map fold_left].
    rewrite step_exact by (cbn [length] in Hj; lia).
    rewrite IH.
    + f_equal. rewrite successes_cons. cbn [length].
      destruct (EpisodeOrchestrator.row_success row); lia.
    + cbn [length] in Hj. destruct (EpisodeOrchestrator.row_success row); lia.
Qed.

Lemma sum_rewards_exact (t : list EpisodeOrchestrator.SolverAttemptDB) :
  Z.of_nat (length t) <= 64 ->
  sum_rewards t = PyFloat.of_int (2 * successes t - Z.of_nat (length t)).
Proof.
  intros Ht. unfold sum_rewards.
  change PyFloat.zero with (PyFloat.of_int 0).
  rewrite sum_rewards_from by (cbn; lia). f_equal.
Qed.

Lemma mean_exact (m N : Z) :
  1 <= N <= 64 -> - N <= m <= N ->
  PyFloat.div (PyFloat.of_int m) (PyFloat.of_int N) = PyFloat.ratio m N /\
  PyFloat.leb (PyFloat.neg PyFloat.one) (PyFloat.ratio m N) = true /\
  PyFloat.leb (PyFloat.ratio m N) PyFloat.one = true.
Proof. apply (means_on_spec 64 m N means_on_64). Qed.

End AverageFacts.

(** X5. In an episode that [run_episode] leaves [COMPLETE] with a valid
    artifact, [r_solve_avg] is the sum of the per-attempt rewards [1.0]
    and [-1.0] of the [N] recorded attempts divided by [N].  For at most 64
    attempts the sum is the exact number [2 * k - N] of successes minus
    failures, so [r_solve_avg] is the float nearest to [(2 * k - N) / N]; it
    lies between [-1.0] and [1.0].  That float is not always the one that
    [2 * s - 1] gives for the solve rate [s]: for one success in three
    attempts the two differ.  With an invalid artifact neither
    [solve_rate] nor [r_solve_avg] is set. *)
Theorem solver_reward_average :
  (forall (W : Type) (SB : SandboxAPI W) (J : Json)
          (C : EpisodeOrchestrator.Collaborators W) (cfg : EpisodeConfig) (w : W),
      let s := (EpisodeOrchestrator.run_episode
                  (EpisodeOrchestrator.mkState w (EpisodeOrchestrator.new_episode cfg) [])).2 in
      let N := solver_attempts cfg in
      let k := successes (EpisodeOrchestrator.attempts_table s) in
      EpisodeOrchestrator.status (EpisodeOrchestrator.episode s) = EpisodeStatus.COMPLETE ->
      exists report : ValidationReport,
        EpisodeOrchestrator.validation_report (EpisodeOrchestrator.episode s) = Some report /\
        (valid report = true ->
           0 < N /\ Z.of_nat (length (EpisodeOrchestrator.attempts_table s)) = N /\
           EpisodeOrchestrator.r_solve_avg (EpisodeOrchestrator.episode s)
           = Some (PyFloat.div (sum_rewards (EpisodeOrchestrator.attempts_table s))
                     (PyFloat.of_int N)) /\
           (N <= 64 ->
              sum_rewards (EpisodeOrchestrator.attempts_table s)
              = PyFloat.of_int (2 * k - N) /\
              EpisodeOrchestrator.r_solve_avg (EpisodeOrchestrator.episode s)
              = Some (PyFloat.ratio (2 * k - N) N) /\
              PyFloat.leb (PyFloat.neg PyFloat.one) (PyFloat.ratio (2 * k - N) N) = true /\
              PyFloat.leb (PyFloat.ratio (2 * k - N) N) PyFloat.one = true)) /\
        (valid report = false ->
           EpisodeOrchestrator.solve_rate (EpisodeOrchestrator.episode s) = None /\
           EpisodeOrchestrator.r_solve_avg (EpisodeOrchestrator.episode s) = None)) /\
  PyFloat.eqb (PyFloat.ratio (2 * 1 - 3) 3)
    (PyFloat.sub (PyFloat.mul (PyFloat.of_int 2) (PyFloat.ratio 1 3)) (PyFloat.of_int 1))
  = false.
Proof.
  split; [|vm_compute; reflexivity].
  intros W SB J C cfg w s N k Hc.
  destruct (run_episode_settled cfg w) as [_ Hok]. fold s in Hok.
  destruct (Hok Hc) as (report & Hrep & Hcase).
  exists report. split; [exact Hrep|]. split.
  - intros Hv. rewrite Hv in Hcase.
    destruct Hcase as (_ & Hpos & Hlen & Havg).
    fold N in Hpos, Hlen, Havg.
    split; [exact Hpos|]. split; [exact Hlen|]. split; [exact Havg|].
    intros HN.
    pose proof (successes_bounds (EpisodeOrchestrator.attempts_table s)) as Hb.
    fold k in Hb.
    assert (Hsum : sum_rewards (EpisodeOrchestrator.attempts_table s)
                   = PyFloat.of_int (2 * k - N)).
    { rewrite sum_rewards_exact by lia. fold k. rewrite Hlen. reflexivity. }
    destruct (mean_exact (2 * k - N) N) as (Hdiv & Hlo & Hhi); [lia|lia|].
    split; [exact Hsum|]. split; [|split; assumption].
    rewrite Havg, Hsum, Hdiv. reflexivity.
  - intros Hv. rewrite Hv in Hcase. exact (proj2 Hcase).
Qed.

Lemma solver_reward_average_witness :
  EpisodeOrchestrator.status (EpisodeOrchestrator.episode half_solved)
    = EpisodeStatus.COMPLETE /\
  exists report : ValidationReport,
    EpisodeOrchestrator.validation_report (EpisodeOrchestrator.episode half_solved)
      = Some report /\
    (valid report = true ->
       0 < solver_attempts default_config /\
       Z.of_nat (length (EpisodeOrchestrator.attempts_table half_solved))
       = solver_attempts default_config /\
       EpisodeOrchestrator.r_solve_avg (EpisodeOrchestrator.episode half_solved)
       = Some (PyFloat.div (sum_rewards (EpisodeOrchestrator.attempts_table half_solved))
                 (PyFloat.of_int (solver_attempts default_config))) /\
       (solver_attempts default_config <= 64 ->
          sum_rewards (EpisodeOrchestrator.attempts_table half_solved)
          = PyFloat.of_int
              (2 * successes (EpisodeOrchestrator.attempts_table half_solved)
               - solver_attempts default_config) /\
          EpisodeOrchestrator.r_solve_avg (EpisodeOrchestrator.episode half_solved)
          = Some (PyFloat.ratio
                    (2 * successes (EpisodeOrchestrator.attempts_table half_solved)
                     - solver_attempts default_config)
                    (solver_attempts default_config)) /\
          PyFloat.leb (PyFloat.neg PyFloat.one)
            (PyFloat.ratio
               (2 * successes (EpisodeOrchestrator.attempts_table half_solved)
                - solver_attempts default_config)
               (solver_attempts default_config)) = true /\
          PyFloat.leb
            (PyFloat.ratio
               (2 * successes (EpisodeOrchestrator.attempts_table half_solved)
                - solver_attempts default_config)
               (solver_attempts default_config)) PyFloat.one = true)) /\
    (valid report = false ->
       EpisodeOrchestrator.solve_rate (EpisodeOrchestrator.episode half_solved) = None /\
       EpisodeOrchestrator.r_solve_avg (EpisodeOrchestrator.episode half_solved) = None).
Proof.
  assert (Hc : EpisodeOrchestrator.status (EpisodeOrchestrator.episode half_solved)
               = EpisodeStatus.COMPLETE) by (vm_compute; reflexivity).
  split; [exact Hc|].
  exact (proj1 solver_reward_average _ (Recorder.api half_script) Scenario.loads
           (obliging true) default_config [] Hc).
Defined.

(** X6. When [run_episode] has run on a new episode, the episode is
    [FAILED] exactly when it carries an error message: an exception
    anywhere in the pipeline either ends in [_fail_episode], which sets
    both, or leaves both fields as they were. *)
Theorem failed_iff_error_message {W : Type} {SB : SandboxAPI W} {J : Json}
    {C : EpisodeOrchestrator.Collaborators W} (cfg : EpisodeConfig) (w : W) :
  let s := (EpisodeOrchestrator.run_episode
              (EpisodeOrchestrator.mkState w (EpisodeOrchestrator.new_episode cfg) [])).2 in
  EpisodeOrchestrator.status (EpisodeOrchestrator.episode s) = EpisodeStatus.FAILED
  <-> EpisodeOrchestrator.error_message (EpisodeOrchestrator.episode s) <> None.
Proof.
  intros s. destruct (run_episode_settled cfg w) as [Hf _]. exact Hf.
Qed.

(** ** Lines *)

Section LineFacts.
Import PyStr.

Lemma split_nonempty (sep : ascii) (s : string) : split sep s <> [].
Proof.
  destruct s as [|c s]; cbn [split]; [discriminate|].
  destruct (Ascii.eqb c sep); [discriminate|].
  destruct (split sep s); discriminate.
Qed.

Lemma join_cons_char (sep : string) (c : ascii) (h : string) (t : list string) :
  join sep (String c h :: t) = String c (join sep (h :: t)).
Proof. destruct t; reflexivity. Qed.

(** [sep.join(s.split(sep)) == s] *)
Lemma join_split (s : string) : join NL (split nl s) = s.
Proof.
  induction s as [|c s IH]; [reflexivity|].
  cbn [split]. destruct (Ascii.eqb_spec c nl) as [->|Hne].
  - destruct (split nl s) as [|h t] eqn:E; [destruct (split_nonempty _ _ E)|].
    change (join NL (EmptyString :: h :: t))
      with (EmptyString +:+ NL +:+ join NL (h :: t)).
    rewrite IH. reflexivity.
  - destruct (split nl s) as [|h t] eqn:E; [destruct (split_nonempty _ _ E)|].
    rewrite join_cons_char, IH. reflexivity.
Qed.

(** A string without newline is its own only line. *)
Lemma single_cons (c : ascii) (s : string) :
  split nl (String c s) = [String c s] <-> c <> nl /\ split nl s = [s].
Proof.
  cbn [split]. destruct (Ascii.eqb_spec c nl) as [->|Hne].
  - split; [discriminate | intros [H _]; congruence].
  - destruct (split nl s) as [|h t] eqn:E; [destruct (split_nonempty _ _ E)|].
    split.
    + intros [= -> ->]. auto.
    + intros [_ [= -> ->]]. reflexivity.
Qed.

Lemma single_app (a b : string) :
  split nl a = [a] -> split nl b = [b] -> split nl (a +:+ b) = [a +:+ b].
Proof.
  induction a as [|c a IH]; intros Ha Hb; [exact Hb|].
  change (String c a +:+ b) with (String c (a +:+ b)).
  apply single_cons in Ha as [Hc Ha]. apply single_cons. auto.
Qed.

Lemma split_app_nl (l rest : string) :
  split nl l = [l] -> split nl (l +:+ NL +:+ rest) = l :: split nl rest.
Proof.
  induction l as [|c l IH]; intros Hl.
  - reflexivity.
  - apply single_cons in Hl as [Hc Hl].
    change (String c l +:+ NL +:+ rest) with (String c (l +:+ NL +:+ rest)).
    cbn [split]. destruct (Ascii.eqb_spec c nl); [contradiction|].
    rewrite (IH Hl). reflexivity.
Qed.

(** [sep.join(lines).split(sep) == lines] for lines without newline. *)
Lemma split_join (ls : list string) :
  ls <> [] -> Forall (fun l => split nl l = [l]) ls -> split nl (join NL ls) = ls.
Proof.
  induction ls as [|l ls IH]; intros Hne Hall; [congruence|].
  inversion Hall as [|? ? Hl Hls]; subst.
  destruct ls as [|l' ls]; [exact Hl|].
  change (join NL (l :: l' :: ls)) with (l +:+ NL +:+ join NL (l' :: ls)).
  rewrite (split_app_nl _ _ Hl), IH; [reflexivity | discriminate | exact Hls].
Qed.

Lemma split_lines_single (s : string) :
  Forall (fun l => split nl l = [l]) (split nl s).
Proof.
  induction s as [|c s IH]; [repeat constructor|].
  cbn [split]. destruct (Ascii.eqb_spec c nl) as [->|Hne].
  - constructor; [reflexivity | exact IH].
  - destruct (split nl s) as [|h t] eqn:E; [destruct (split_nonempty _ _ E)|].
    inversion IH; subst. constructor; [|assumption].
    apply single_cons. auto.
Qed.

Lemma single_replace_from (old new s : string) (k : nat) :
  split nl new = [new] -> split nl s = [s] ->
  split nl (replace_from k old new s) = [replace_from k old new s].
Proof.
  intros Hnew. revert k. induction s as [|c s IH]; intros k Hs; [reflexivity|].
  apply single_cons in Hs as [Hc Hs].
  cbn [replace_from]. destruct k as [|k]; [|apply IH; exact Hs].
  destruct (String.prefix old (String c s)).
  - apply single_app; [exact Hnew | apply IH; exact Hs].
  - apply single_cons. split; [exact Hc | apply IH; exact Hs].
Qed.

Lemma single_replace (s old new : string) :
  split nl new = [new] -> split nl s = [s] ->
  split nl (replace s old new) = [replace s old new].
Proof.
  intros Hnew Hs. unfold replace. destruct old; [exact Hs|].
  apply single_replace_from; assumption.
Qed.

Lemma single_tail (s : string) : split nl s = [s] -> split nl (tail s) = [tail s].
Proof.
  destruct s as [|c s]; [auto|]. intros Hs. apply single_cons in Hs as [_ Hs]. exact Hs.
Qed.

End LineFacts.

Section ReverseDiffFacts.
Import PyStr SolverAgent.

Lemma reverse_line_single (line : string) :
  split nl line = [line] -> split nl (reverse_line line) = [reverse_line line].
Proof.
  intros Hl. unfold reverse_line.
  destruct (startswith line "---");
    [apply single_replace; [reflexivity|]; apply single_replace; [reflexivity|exact Hl]|].
  destruct (startswith line "+++");
    [apply single_replace; [reflexivity|]; apply single_replace; [reflexivity|exact Hl]|].
  destruct (startswith line "+" && _);
    [apply (single_app "-"); [reflexivity | apply single_tail; exact Hl]|].
  destruct (startswith line "-" && _);
    [apply (single_app "+"); [reflexivity | apply single_tail; exact Hl]|].
  exact Hl.
Qed.

Lemma reverse_diff_lines (diff : string) :
  split nl (_reverse_diff diff) = map reverse_line (split nl diff).
Proof.
  unfold _reverse_diff. apply split_join.
  - destruct (split nl diff) eqn:E; [destruct (split_nonempty _ _ E) | discriminate].
  - apply Forall_forall. intros l Hin. apply list_elem_of_In in Hin.
    apply in_map_iff in Hin as (l0 & <- & Hin0).
    apply reverse_line_single.
    pose proof (split_lines_single diff) as Hall.
    rewrite Forall_forall in Hall. apply Hall, list_elem_of_In. exact Hin0.
Qed.

Lemma prefix_cons (a b : ascii) (p s : string) :
  String.prefix (String a p) (String b s) = Ascii.eqb a b && String.prefix p s.
Proof.
  cbn [String.prefix].
  destruct (ascii_dec a b) as [->|Hne].
  - rewrite Ascii.eqb_refl. reflexivity.
  - destruct (Ascii.eqb_spec a b); [contradiction | reflexivity].
Qed.

Lemma reverse_line_added (rest : string) :
  String.prefix "++" rest = false ->
  reverse_line (String "+" rest) = String "-" rest.
Proof.
  intros Hp. unfold reverse_line, startswith.
  rewrite (prefix_cons "-" "+" "--" rest).
  rewrite (prefix_cons "+" "+" "++" rest), Hp.
  rewrite (prefix_cons "+" "+" "" rest), prefix_nil. reflexivity.
Qed.

Lemma reverse_line_removed (rest : string) :
  String.prefix "--" rest = false ->
  reverse_line (String "-" rest) = String "+" rest.
Proof.
  intros Hp. unfold reverse_line, startswith.
  rewrite (prefix_cons "-" "-" "--" rest), Hp.
  rewrite (prefix_cons "+" "-" "++" rest).
  rewrite (prefix_cons "+" "-" "" rest).
  rewrite (prefix_cons "-" "-" "" rest), prefix_nil. reflexivity.
Qed.

Lemma reverse_line_context (c : ascii) (rest : string) :
  c <> "+"%char -> c <> "-"%char ->
  reverse_line (String c rest) = String c rest.
Proof.
  intros Hp Hm. unfold reverse_line, startswith.
  rewrite (prefix_cons "-" c "--" rest), (prefix_cons "+" c "++" rest),
          (prefix_cons "+" c "" rest), (prefix_cons "-" c "" rest).
  destruct (Ascii.eqb_spec "-" c) as [<-|_]; [congruence|].
  destruct (Ascii.eqb_spec "+" c) as [<-|_]; [congruence|].
  reflexivity.
Qed.

Lemma reverse_line_twice (line : string) :
  hunk_line line = true -> reverse_line (reverse_line line) = line.
Proof.
  destruct line as [|c rest]; [reflexivity|].
  unfold hunk_line, startswith.
  rewrite (prefix_cons "-" c "--" rest), (prefix_cons "+" c "++" rest),
          (prefix_cons "+" c "--" rest), (prefix_cons "-" c "++" rest).
  destruct (Ascii.eqb_spec "+" c) as [<-|Hp].
  - change (Ascii.eqb "-" "+") with false.
    destruct (String.prefix "++" rest) eqn:H1, (String.prefix "--" rest) eqn:H2;
      intros H; cbn [andb negb] in H; try discriminate H.
    rewrite reverse_line_added by exact H1.
    apply reverse_line_removed. exact H2.
  - destruct (Ascii.eqb_spec "-" c) as [<-|Hm].
    + destruct (String.prefix "++" rest) eqn:H1, (String.prefix "--" rest) eqn:H2;
        intros H; cbn [andb negb] in H; try discriminate H.
      rewrite reverse_line_removed by exact H2.
      apply reverse_line_added. exact H1.
    + intros _. rewrite !reverse_line_context by congruence. reflexivity.
Qed.

End ReverseDiffFacts.

Lemma replace_keeps_first (c : ascii) (s old new' : string) :
  exists r, PyStr.replace (String c s) old (String c new') = String c r.
Proof.
  unfold PyStr.replace. destruct old as [|c' old]; [eauto|].
  cbn [PyStr.replace_from].
  destruct (String.prefix (String c' old) (String c s)); eauto.
Qed.

(** X7. [_reverse_diff] works line by line: the lines of its result are
    the images of the lines of its input, so the number of lines is kept.
    On a text whose lines are hunk lines (no [---] or [+++] line, no added
    text starting with [--], no removed text starting with [++]),
    reversing twice gives the text back. *)
Theorem reverse_diff_lines_and_involution (diff : string) :
  PyStr.split PyStr.nl (SolverAgent._reverse_diff diff)
  = map SolverAgent.reverse_line (PyStr.split PyStr.nl diff) /\
  (Forall (fun line => hunk_line line = true) (PyStr.split PyStr.nl diff) ->
   SolverAgent._reverse_diff (SolverAgent._reverse_diff diff) = diff).
Proof.
  split; [apply reverse_diff_lines|].
  intros Hall.
  unfold SolverAgent._reverse_diff at 1. rewrite reverse_diff_lines, map_map.
  rewrite <- (join_split diff) at 2. f_equal.
  rewrite <- (map_id (PyStr.split PyStr.nl diff)) at 2.
  apply map_ext_in. intros l Hin. apply reverse_line_twice.
  rewrite Forall_forall in Hall. apply Hall, list_elem_of_In. exact Hin.
Qed.

Lemma reverse_diff_lines_and_involution_witness :
  Forall (fun line => hunk_line line = true) (PyStr.split PyStr.nl sample_hunk) /\
  SolverAgent._reverse_diff (SolverAgent._reverse_diff sample_hunk) = sample_hunk.
Proof.
  assert (H : Forall (fun line => hunk_line line = true)
                (PyStr.split PyStr.nl sample_hunk))
    by (vm_compute; repeat constructor).
  split; [exact H|].
  exact (proj2 (reverse_diff_lines_and_involution sample_hunk) H).
Defined.

(** X8. A removed line whose text starts with [--] is a [---] line for
    [_reverse_diff] and is treated as a file header: its image still
    starts with [-], so it is not the added line [+--...] that reverses
    it.  Likewise an added line whose text starts with [++] stays an added
    line. *)
Theorem reverse_line_keeps_dashed_text (text : string) :
  (exists r, SolverAgent.reverse_line ("---" +:+ text) = String "-" r) /\
  SolverAgent.reverse_line ("---" +:+ text) <> "+--" +:+ text /\
  (exists r, SolverAgent.reverse_line ("+++" +:+ text) = String "+" r) /\
  SolverAgent.reverse_line ("+++" +:+ text) <> "-++" +:+ text.
Proof.
  assert (Hm : exists r, SolverAgent.reverse_line ("---" +:+ text) = String "-" r).
  { unfold SolverAgent.reverse_line, PyStr.startswith.
    rewrite (prefix_append "---" text).
    change ("---" +:+ text) with (String "-" ("--" +:+ text)).
    destruct (replace_keeps_first "-" ("--" +:+ text) "--- a/" "-- b/") as [r1 ->].
    exact (replace_keeps_first "-" r1 "--- b/" "-- a/"). }
  assert (Hp : exists r, SolverAgent.reverse_line ("+++" +:+ text) = String "+" r).
  { unfold SolverAgent.reverse_line, PyStr.startswith.
    change (String.prefix "---" ("+++" +:+ text)) with false.
    rewrite (prefix_append "+++" text).
    change ("+++" +:+ text) with (String "+" ("++" +:+ text)).
    destruct (replace_keeps_first "+" ("++" +:+ text) "+++ b/" "++ a/") as [r1 ->].
    exact (replace_keeps_first "+" r1 "+++ a/" "++ b/"). }
  split; [exact Hm|]. split; [|split; [exact Hp|]].
  - destruct Hm as [r ->]. discriminate.
  - destruct Hp as [r ->]. discriminate.
Qed.

(** ** Sandbox file operations *)

Section EditFacts.
Context {W : Type}.
Variable bash : string -> option Z -> M W BashResult.
Variable work_dir : string.
Variable uuid_hex8 : M W string.
Import SandboxFiles.

Lemma edited_ok (file_path : string) (n : Z) : edit_result_ok file_path (edited file_path n).
Proof. split; [reflexivity|]. cbn. tauto. Qed.

Lemma not_edited_ok (file_path e : string) :
  edit_result_ok file_path (not_edited file_path e).
Proof. split; [reflexivity|]. cbn. split; discriminate. Qed.

Lemma edit_operation_ok (op : EditOperation) (file_path : string) :
  wp (edit_operation bash work_dir uuid_hex8 op file_path)
    (edit_result_ok file_path) True.
Proof.
  unfold edit_operation.
  repeat match goal with
         | |- context [if SolverAgent.op_is ?a ?b then _ else _] =>
             destruct (SolverAgent.op_is a b)
         end.
  - apply wp_bind, wp_any; [intros content|exact I].
    apply wp_bind, wp_any; [intros _|exact I].
    apply wp_ret, edited_ok.
  - apply wp_bind, wp_any; [intros diff_content|exact I].
    apply wp_bind, wp_any; [intros hex|exact I].
    apply wp_bind, wp_any; [intros _|exact I].
    apply wp_bind, wp_any; [intros result|exact I].
    destruct (negb _); apply wp_ret; [apply not_edited_ok | apply edited_ok].
  - apply wp_bind, wp_any; [intros old_text|exact I].
    apply wp_bind, wp_any; [intros new_text|exact I].
    apply wp_bind, wp_any; [intros [content|msg]|exact I];
      [|apply wp_raise; exact I].
    destruct old_text, new_text; try (apply wp_raise; exact I).
    apply wp_bind, wp_any; [intros _|exact I].
    apply wp_ret, edited_ok.
  - apply wp_bind, wp_any; [intros line_num|exact I].
    apply wp_bind, wp_any; [intros text|exact I].
    apply wp_bind, wp_any; [intros result|exact I].
    destruct (negb _); apply wp_ret; [apply not_edited_ok | apply edited_ok].
  - apply wp_bind, wp_any; [intros start_line|exact I].
    apply wp_bind, wp_any; [intros result|exact I].
    destruct (negb _); [apply wp_ret, not_edited_ok|].
    apply wp_bind, wp_any; [intros n|exact I].
    apply wp_ret, edited_ok.
  - apply wp_ret, not_edited_ok.
Qed.

Lemma edit_ok (operations : list EditOperation) :
  wp (edit bash work_dir uuid_hex8 operations)
    (fun results =>
       Forall2 (fun op r => edit_result_ok (in_work_dir work_dir (op_file_path op)) r)
         operations results)
    False.
Proof.
  induction operations as [|op rest IH].
  - apply wp_ret. constructor.
  - cbn [edit]. apply wp_bind, wp_try.
    eapply wp_weaken; [apply edit_operation_ok| |].
    + intros r Hr. apply wp_bind. eapply wp_weaken; [exact IH| |auto].
      intros rs Hrs. apply wp_ret. constructor; assumption.
    + intros _ msg. apply wp_ret.
      apply wp_bind. eapply wp_weaken; [exact IH| |auto].
      intros rs Hrs. apply wp_ret. constructor; [apply not_edited_ok | assumption].
Qed.

End EditFacts.

(** X9. [Sandbox.edit] never raises and returns one result per operation,
    in order, whatever [bash] does and whatever the operations hold
    (unknown type, missing or ill-typed arguments, unreadable file): each
    result names the operation's path placed under [work_dir], and it is
    either a success without error message or a failure with one. *)
Theorem edit_returns_one_result_per_operation {W : Type}
    (bash : string -> option Z -> M W BashResult) (work_dir : string)
    (uuid_hex8 : M W string) (operations : list EditOperation) (w : W) :
  exists results w',
    SandboxFiles.edit bash work_dir uuid_hex8 operations w = (Return results, w') /\
    length results = length operations /\
    Forall2
      (fun op r =>
         edit_result_ok (SandboxFiles.in_work_dir work_dir (op_file_path op)) r)
      operations results.
Proof.
  destruct (wp_run _ _ w (edit_ok bash work_dir uuid_hex8 operations))
    as (results & w' & Hrun & Hall).
  exists results, w'. split; [exact Hrun|]. split; [|exact Hall].
  symmetry. exact (Forall2_length _ _ _ Hall).
Qed.

Section ContainerFacts.
Import SandboxFiles.

Lemma container_bash_started (run : Container.behaviour) (command : string)
    (t : option Z) (log : list string) :
  exists r,
    Container.bash true run command t log = (Return r, log ++ [command]) /\
    (forall out err,
        run log command = Sandbox.Completed 0 out err ->
        r = {| exit_code := 0; stdout := (Sandbox.cap_stream out).1;
               stderr := (Sandbox.cap_stream err).1;
               truncated := (Sandbox.cap_stream out).2 || (Sandbox.cap_stream err).2;
               timeout := false |}).
Proof.
  unfold Container.bash, Sandbox.bash. cbn [negb].
  destruct (run log command) as [code out err| |msg].
  - destruct (Sandbox.cap_stream out) as [out' t1] eqn:E1.
    destruct (Sandbox.cap_stream err) as [err' t2] eqn:E2.
    eexists. split; [reflexivity|].
    intros out0 err0 [= -> -> ->]. rewrite E1, E2. reflexivity.
  - eexists. split; [reflexivity|]. discriminate.
  - eexists. split; [reflexivity|]. discriminate.
Qed.

End ContainerFacts.

(** X10. [search_replace] on a file whose [cat] output is longer than
    50,000 characters writes a cut file back: [read_file] returns what
    [Sandbox.bash] kept of the output, so the content sent to
    [write_file] is the first 50,000 characters followed by the
    truncation marker, with the replacement applied to that. *)
Theorem search_replace_truncates_large_files (run : Container.behaviour)
    (work_dir hex file_path old_text new_text out err : string) (log : list string) :
  let path := SandboxFiles.in_work_dir work_dir
                (SandboxFiles.in_work_dir work_dir file_path) in
  run log ("cat " +:+ path) = Sandbox.Completed 0 out err ->
  Sandbox.max_size < Z.of_nat (String.length out) ->
  (SandboxFiles.edit (Container.bash true run) work_dir (ret hex)
     [search_replace_op file_path old_text new_text] log).2
  = log ++ [ "cat " +:+ path;
             "mkdir -p " +:+ SandboxFiles.dirname path;
             SandboxFiles.here_document path
               (SandboxFiles.replace
                  (PyStr.take (Z.to_nat Sandbox.max_size) out +:+ Sandbox.truncation_marker)
                  old_text new_text) ].
Proof.
  intros path Hcat Hlong.
  cbn [SandboxFiles.edit]. unfold try_except, SandboxFiles.edit_operation.
  change (SolverAgent.op_is (op_type (search_replace_op file_path old_text new_text))
            "replace") with false.
  change (SolverAgent.op_is (op_type (search_replace_op file_path old_text new_text))
            "apply_diff") with false.
  change (SolverAgent.op_is (op_type (search_replace_op file_path old_text new_text))
            "search_replace") with true.
  cbn iota. unfold mbind, M_bind, bind, SandboxFiles.args_item.
  cbn [op_args search_replace_op].
  rewrite lookup_insert_ne by discriminate. rewrite lookup_singleton_eq.
  rewrite lookup_insert_eq.
  unfold mret, M_ret, ret, SandboxFiles.read_file, mbind, M_bind, bind.
  change (op_file_path (search_replace_op file_path old_text new_text)) with file_path.
  fold path.
  destruct (container_bash_started run ("cat " +:+ path) None log) as (r1 & -> & Hr1).
  rewrite (Hr1 out err Hcat). cbn [exit_code stdout negb Z.eqb].
  rewrite (cap_stream_long out Hlong). cbn [fst].
  unfold mret, M_ret, ret.
  unfold SandboxFiles.write_file, SandboxFiles.write_file_value, mbind, M_bind, bind.
  fold path.
  destruct (container_bash_started run ("mkdir -p " +:+ SandboxFiles.dirname path) None
              (log ++ ["cat " +:+ path])) as (r2 & -> & _).
  match goal with
  | |- context [Container.bash true run ?c None ?l] =>
      destruct (container_bash_started run c None l) as (r3 & -> & _)
  end.
  rewrite <- !app_assoc. cbn [app].
  destruct (negb (exit_code r3 =? 0)); reflexivity.
Qed.

Lemma search_replace_truncates_large_files_witness :
  Container.big_file (Z.to_nat 50001) []
    ("cat " +:+ SandboxFiles.in_work_dir "/workspace"
                  (SandboxFiles.in_work_dir "/workspace" "src/util.py"))
  = Sandbox.Completed 0 (filler (Z.to_nat 50001)) "" /\
  Sandbox.max_size < Z.of_nat (String.length (filler (Z.to_nat 50001))) /\
  (SandboxFiles.edit (Container.bash true (Container.big_file (Z.to_nat 50001)))
     "/workspace" (ret "0a1b2c3d")
     [search_replace_op "src/util.py" "return 1" "return 2"] []).2
  = [] ++ [ "cat " +:+ SandboxFiles.in_work_dir "/workspace"
                         (SandboxFiles.in_work_dir "/workspace" "src/util.py");
            "mkdir -p " +:+ SandboxFiles.dirname
                              (SandboxFiles.in_work_dir "/workspace"
                                 (SandboxFiles.in_work_dir "/workspace" "src/util.py"));
            SandboxFiles.here_document
              (SandboxFiles.in_work_dir "/workspace"
                 (SandboxFiles.in_work_dir "/workspace" "src/util.py"))
              (SandboxFiles.replace
                 (PyStr.take (Z.to_nat Sandbox.max_size) (filler (Z.to_nat 50001))
                  +:+ Sandbox.truncation_marker)
                 "return 1" "return 2") ].
Proof.
  assert (H1 : Container.big_file (Z.to_nat 50001) []
                 ("cat " +:+ SandboxFiles.in_work_dir "/workspace"
                               (SandboxFiles.in_work_dir "/workspace" "src/util.py"))
               = Sandbox.Completed 0 (filler (Z.to_nat 50001)) "") by reflexivity.
  assert (H2 : Sandbox.max_size < Z.of_nat (String.length (filler (Z.to_nat 50001))))
    by (rewrite length_filler; vm_compute; reflexivity).
  split; [exact H1|]. split; [exact H2|].
  exact (search_replace_truncates_large_files (Container.big_file (Z.to_nat 50001))
           "/workspace" "0a1b2c3d" "src/util.py" "return 1" "return 2"
           (filler (Z.to_nat 50001)) "" [] H1 H2).
Defined.

(** ** The solver's tools *)

(** X11. The [edit_file] guard looks at [file_path] only.  An
    [apply_diff] call whose [file_path] passes the guard hands its [diff]
    to [patch -p1] as it is, whatever files the diff names: when the
    here-document and [patch] succeed, the commands run are the [mkdir],
    the here-document holding the diff and [patch -p1] on it, and the tool
    answers that [file_path] was edited. *)
Theorem apply_diff_is_not_guarded (run : Container.behaviour) (artifact : BugArtifact)
    (work_dir hex file_path diff : string) (args : gmap string pyval)
    (log : list string) (out1 err1 out2 err2 : string) :
  let temp_diff := "/tmp/patch_" +:+ hex +:+ ".diff" in
  let mkdir := "mkdir -p " +:+ SandboxFiles.dirname temp_diff in
  let write := SandboxFiles.here_document temp_diff diff in
  let patch := "patch -p1 < " +:+ temp_diff in
  args !! "file_path" = Some (VStr file_path) ->
  args !! "operation" = Some (VStr "apply_diff") ->
  args !! "diff" = Some (VStr diff) ->
  SolverAgent.touches_test_file artifact file_path = false ->
  run (log ++ [mkdir]) write = Sandbox.Completed 0 out1 err1 ->
  run (log ++ [mkdir; write]) patch = Sandbox.Completed 0 out2 err2 ->
  @SolverAgent._tool_edit_file _
    (SandboxFiles.edit_api (Container.bash true run) work_dir (ret hex))
    artifact args log
  = (Return ("Successfully edited " +:+ file_path), log ++ [mkdir; write; patch]).
Proof.
  intros temp_diff mkdir write patch Hp Ho Hd Hguard Hw Hpatch.
  unfold SolverAgent._tool_edit_file, SolverAgent.args_get.
  rewrite Hp, Ho. cbn [from_option id]. rewrite Hguard.
  unfold SolverAgent.build_op_args, SolverAgent.args_get. rewrite Hd. cbn [from_option id].
  change (SolverAgent.op_is (VStr "apply_diff") "replace") with false.
  change (SolverAgent.op_is (VStr "apply_diff") "search_replace") with false.
  change (SolverAgent.op_is (VStr "apply_diff") "insert") with false.
  change (SolverAgent.op_is (VStr "apply_diff") "delete") with false.
  change (SolverAgent.op_is (VStr "apply_diff") "apply_diff") with true.
  cbn iota.
  unfold sandbox_edit, SandboxFiles.edit_api. cbn [SandboxFiles.edit].
  unfold mbind, M_bind, bind, try_except, SandboxFiles.edit_operation.
  cbn [op_type op_args op_file_path].
  change (SolverAgent.op_is (VStr "apply_diff") "replace") with false.
  change (SolverAgent.op_is (VStr "apply_diff") "apply_diff") with true.
  cbn iota. unfold mbind, M_bind, bind, SandboxFiles.args_item.
  rewrite lookup_singleton_eq.
  unfold mret, M_ret, ret, SandboxFiles.write_file_value, mbind, M_bind, bind.
  change (SandboxFiles.in_work_dir work_dir ("/tmp/patch_" +:+ hex +:+ ".diff"))
    with temp_diff.
  fold mkdir.
  destruct (container_bash_started run mkdir None log) as (r1 & -> & _).
  fold write.
  destruct (container_bash_started run write None (log ++ [mkdir])) as (r2 & -> & Hr2).
  rewrite (Hr2 out1 err1 Hw). cbn [exit_code negb Z.eqb].
  rewrite <- app_assoc. cbn [app]. unfold mret, M_ret, ret.
  change ("patch -p1 < " +:+ "/tmp/patch_" +:+ hex +:+ ".diff") with patch.
  destruct (container_bash_started run patch None (log ++ [mkdir; write]))
    as (r3 & -> & Hr3).
  rewrite (Hr3 out2 err2 Hpatch). cbn [exit_code negb Z.eqb er_success SandboxFiles.edited].
  rewrite <- app_assoc. reflexivity.
Qed.

Lemma apply_diff_is_not_guarded_witness :
  @SolverAgent._tool_edit_file _
    (SandboxFiles.edit_api (Container.bash true Container.quiet) "/workspace"
       (ret "0a1b2c3d"))
    Scenario.the_artifact apply_diff_args []
  = (Return ("Successfully edited " +:+ Scenario.code_path),
     [] ++ [ "mkdir -p " +:+ SandboxFiles.dirname ("/tmp/patch_" +:+ "0a1b2c3d" +:+ ".diff");
             SandboxFiles.here_document ("/tmp/patch_" +:+ "0a1b2c3d" +:+ ".diff")
               Scenario.cheat_diff;
             "patch -p1 < " +:+ "/tmp/patch_" +:+ "0a1b2c3d" +:+ ".diff" ]).
Proof.
  assert (H1 : apply_diff_args !! "file_path" = Some (VStr Scenario.code_path))
    by (vm_compute; reflexivity).
  assert (H2 : apply_diff_args !! "operation" = Some (VStr "apply_diff"))
    by (vm_compute; reflexivity).
  assert (H3 : apply_diff_args !! "diff" = Some (VStr Scenario.cheat_diff))
    by (vm_compute; reflexivity).
  assert (H4 : SolverAgent.touches_test_file Scenario.the_artifact Scenario.code_path
               = false) by (vm_compute; reflexivity).
  exact (apply_diff_is_not_guarded Container.quiet Scenario.the_artifact "/workspace"
           "0a1b2c3d" Scenario.code_path Scenario.cheat_diff apply_diff_args []
           "" "" "" "" H1 H2 H3 H4 eq_refl eq_refl).
Defined.

Section SubmitFacts.
Context {W : Type}.
Variable bash : string -> option Z -> M W BashResult.
Variable work_dir : string.
Import SolverTools.

Lemma submit_patch_text (args : gmap string pyval) (p : string) (s : agent W) :
  args !! "patch" = Some (VStr p) -> p <> EmptyString ->
  _tool_submit_patch bash work_dir args s
  = if String.eqb (PyStr.strip p) ""
    then (Return empty_patch_error,
          mkAgent (sandbox_world s) (Some (VStr p)) (_submitted s))
    else (Return (submitted_answer p),
          mkAgent (sandbox_world s) (Some (VStr p)) true).
Proof.
  intros Hp Hne. unfold _tool_submit_patch, choose_patch. rewrite Hp.
  destruct p as [|c p]; [congruence|]. cbn [truthy_value].
  unfold mbind, M_bind, bind, set_pred_patch, get_pred_patch, set_submitted,
    mret, M_ret, ret.
  cbn [from_option id _pred_patch sandbox_world _submitted].
  destruct (String.eqb (PyStr.strip (String c p)) ""); reflexivity.
Qed.

Lemma choose_patch_keeps_submitted (args : gmap string pyval) (s s1 : agent W)
    (o : outcome (option string)) :
  choose_patch bash work_dir args s = (o, s1) -> _submitted s1 = _submitted s.
Proof.
  unfold choose_patch.
  unfold mbind, M_bind, bind, set_pred_patch, on_sandbox, try_except,
    mret, M_ret, ret.
  destruct (truthy_value (args !! "patch")); [intros [= <- <-]; reflexivity|].
  destruct (truthy_value (args !! "patch_file")).
  - destruct (args !! "patch_file") as [[path|n]|]; try (intros [= <- <-]; reflexivity).
    destruct (SandboxFiles.read_file bash work_dir path None None (sandbox_world s))
      as [[[content|msg]|e] w1]; intros [= <- <-]; reflexivity.
  - destruct (SandboxFiles.create_diff bash "ssr-buggy" (sandbox_world s))
      as [[diff|e] w1]; intros [= <- <-]; reflexivity.
Qed.

(** Only the last branch of [_tool_submit_patch] sets [_submitted], and it is
    reached with a text that is not blank in [_pred_patch]. *)
Lemma submit_patch_accepts_text (args : gmap string pyval) (s s' : agent W)
    (answer : string) :
  _tool_submit_patch bash work_dir args s = (Return answer, s') ->
  _submitted s = false ->
  _submitted s' = true ->
  exists p, _pred_patch s' = Some (VStr p) /\ PyStr.strip p <> EmptyString.
Proof.
  intros Hrun Hs Hs'.
  unfold _tool_submit_patch, mbind, M_bind, bind in Hrun.
  destruct (choose_patch bash work_dir args s) as [[early|e] s1] eqn:Hc;
    [|discriminate Hrun].
  apply choose_patch_keeps_submitted in Hc. rewrite Hs in Hc.
  unfold get_pred_patch, set_submitted, mret, M_ret, ret, raise in Hrun.
  destruct early as [a|].
  { injection Hrun as <- <-. congruence. }
  destruct (_pred_patch s1) as [[p|n]|] eqn:Hp.
  - destruct (String.eqb_spec (PyStr.strip p) "") as [Hb|Hb].
    + injection Hrun as <- <-. congruence.
    + injection Hrun as <- <-. exists p. split; [exact Hp | exact Hb].
  - destruct (n =? 0); [|discriminate Hrun].
    injection Hrun as <- <-. congruence.
  - injection Hrun as <- <-. congruence.
Qed.

End SubmitFacts.

(** X12. [submit_patch] marks the attempt submitted only with a patch
    that is a text with something other than white space in it.  A
    non-empty patch of white space only is refused with the empty-patch
    error and [_submitted] stays as it was, but the patch is left in
    [_pred_patch]; it is a value the orchestrator's test
    [if attempt.pred_patch] takes as a patch to evaluate. *)
Theorem submit_patch_needs_text {W : Type}
    (bash : string -> option Z -> M W BashResult) (work_dir : string) :
  (forall (args : gmap string pyval) (s s' : SolverTools.agent W) (answer : string),
      SolverTools._tool_submit_patch bash work_dir args s = (Return answer, s') ->
      SolverTools._submitted s = false ->
      SolverTools._submitted s' = true ->
      exists p,
        SolverTools._pred_patch s' = Some (VStr p) /\ PyStr.strip p <> EmptyString) /\
  (forall (args : gmap string pyval) (p : string) (s : SolverTools.agent W),
      args !! "patch" = Some (VStr p) ->
      p <> EmptyString ->
      PyStr.strip p = EmptyString ->
      SolverTools._tool_submit_patch bash work_dir args s
      = (Return SolverTools.empty_patch_error,
         SolverTools.mkAgent (SolverTools.sandbox_world s) (Some (VStr p))
           (SolverTools._submitted s)) /\
      truthy (Some p) = true).
Proof.
  split.
  - intros args s s' answer. apply submit_patch_accepts_text.
  - intros args p s Hp Hne Hblank.
    rewrite (submit_patch_text bash work_dir args p s Hp Hne), Hblank.
    split; [reflexivity|]. destruct p; [congruence | reflexivity].
Qed.

Lemma submit_patch_needs_text_witness :
  blank_patch_args !! "patch" = Some (VStr " ") /\
  SolverTools._tool_submit_patch (Container.bash true Container.quiet) "/workspace"
    blank_patch_args fresh_agent
  = (Return SolverTools.empty_patch_error,
     SolverTools.mkAgent (SolverTools.sandbox_world fresh_agent) (Some (VStr " "))
       (SolverTools._submitted fresh_agent)) /\
  truthy (Some " "%string) = true.
Proof.
  assert (H1 : blank_patch_args !! "patch" = Some (VStr " ")) by (vm_compute; reflexivity).
  assert (H2 : " "%string <> EmptyString) by discriminate.
  assert (H3 : PyStr.strip " " = EmptyString) by reflexivity.
  split; [exact H1|].
  exact (proj2 (submit_patch_needs_text (Container.bash true Container.quiet)
                  "/workspace")
           blank_patch_args " "%string fresh_agent H1 H2 H3).
Defined.

Section RunTestsFacts.
Import SolverTools.

Lemma count_status_none (status : string) (items : list (string * json)) :
  Forall (fun kv => kv.2 <> JStr status) items -> count_status status items = 0.
Proof.
  intros Hall. unfold count_status.
  induction Hall as [|kv l Hkv _ IH]; [reflexivity|].
  cbn [List.filter]. destruct (json_is_str kv.2 status) eqn:Hs; [|exact IH].
  apply json_is_str_spec in Hs. contradiction.
Qed.

Lemma tests_summary_no_failed (items : list (string * json)) :
  Forall (fun kv => kv.2 <> JStr "failed") items ->
  tests_summary items
  = "Test Results: " +:+ str_of_int (count_status "passed" items) +:+ "/"
    +:+ str_of_int (Z.of_nat (length items)) +:+ " passed, 0 failed"
    +:+ PyStr.NL +:+ PyStr.NL.
Proof.
  intros Hall. unfold tests_summary. rewrite (count_status_none "failed" items Hall).
  reflexivity.
Qed.

End RunTestsFacts.

(** X13. [run_tests] counts as failed only the tests whose status is the
    string [failed].  When the harness output decodes to an object without
    that status, the tool answers with the line [p/n passed, 0 failed] and
    lists no test; if some status is not [passed] either (an [error], a
    [skipped]), the evaluator's report built from the same object is a
    failure with at least one failed test. *)
Theorem run_tests_reports_failed_only {W : Type} {J : Json}
    (bash : string -> option Z -> M W BashResult)
    (artifact : BugArtifact) (attempt : SolverAttempt) (w w' : W) (r : BashResult)
    (items : list (string * json)) :
  bash harness_command (Some (max_test_runtime_sec (metadata artifact) + 30)) w
    = (Return r, w') ->
  exit_code r = 0 ->
  json_loads (PyStr.strip (stdout r)) = Decoded (JObj items) ->
  Forall (fun kv => kv.2 <> JStr "failed") items ->
  SolverTools._tool_run_tests bash artifact w
  = (Return ("Test Results: "
             +:+ str_of_int (SolverTools.count_status "passed" items) +:+ "/"
             +:+ str_of_int (Z.of_nat (length items)) +:+ " passed, 0 failed"
             +:+ PyStr.NL +:+ PyStr.NL), w') /\
  (Exists (fun kv => kv.2 <> JStr "passed") items ->
   ev_success (EpisodeOrchestrator.report_of_mapping artifact attempt items) = false /\
   0 < tests_failed (EpisodeOrchestrator.report_of_mapping artifact attempt items)).
Proof.
  intros Hrun Hexit Hjson Hall. split.
  - unfold SolverTools._tool_run_tests, mbind, M_bind, bind. rewrite Hrun, Hexit.
    cbn [Z.eqb negb andb]. rewrite Hjson.
    rewrite (tests_summary_no_failed items Hall). reflexivity.
  - intros Hex.
    assert (Hf : ev_success (EpisodeOrchestrator.report_of_mapping artifact attempt items)
                 = false).
    { destruct (ev_success _) eqn:Hs; [|reflexivity].
      apply report_success_iff in Hs.
      apply Exists_exists in Hex as (kv & Hin & Hne).
      rewrite Forall_forall in Hs.
      specialize (Hs kv Hin). contradiction. }
    split; [exact Hf|].
    unfold EpisodeOrchestrator.report_of_mapping in *. cbn [ev_success tests_failed] in *.
    apply Z.eqb_neq in Hf. lia.
Qed.

Lemma run_tests_reports_failed_only_witness :
  @SolverTools._tool_run_tests _ Scenario.loads
    (@sandbox_bash _ (Recorder.api bogus_script)) Scenario.the_artifact []
  = (Return ("Test Results: "
             +:+ str_of_int (SolverTools.count_status "passed" [("test_f", JStr "bogus")])
             +:+ "/"
             +:+ str_of_int (Z.of_nat (length [("test_f", JStr "bogus")]))
             +:+ " passed, 0 failed" +:+ PyStr.NL +:+ PyStr.NL),
     [Recorder.Bash harness_command
        (Some (max_test_runtime_sec (metadata Scenario.the_artifact) + 30))]) /\
  (Exists (fun kv : string * json => kv.2 <> JStr "passed") [("test_f", JStr "bogus")] ->
   ev_success (EpisodeOrchestrator.report_of_mapping Scenario.the_artifact
                 Scenario.cheating_attempt [("test_f", JStr "bogus")]) = false /\
   0 < tests_failed (EpisodeOrchestrator.report_of_mapping Scenario.the_artifact
                       Scenario.cheating_attempt [("test_f", JStr "bogus")])).
Proof.
  refine (@run_tests_reports_failed_only _ Scenario.loads
            (@sandbox_bash _ (Recorder.api bogus_script))
            Scenario.the_artifact Scenario.cheating_attempt [] _
            (Recorder.done (Scenario.line (Scenario.verdict "bogus")))
            [("test_f", JStr "bogus")] eq_refl eq_refl eq_refl _).
  repeat constructor. discriminate.
Defined.

(** ** Preparing and evaluating *)

Section StaleFacts.
Variable patch_p1 : string -> gmap string string -> option (gmap string string).
Variable run_harness : gmap string string -> string.





End StaleFacts.



Section EmptyOutputFacts.
Context {W : Type} {SB : SandboxAPI W} {J : Json}.
Import EpisodeOrchestrator.

Variable P : W -> Prop.
Hypothesis bash_ok :
  forall (command : string) (t : option Z) (w : W),
    P w ->
    exists r w',
      sandbox_bash command t w = (Return r, w') /\ P w' /\
      (command = "patch -p1 < pred_patch.diff"%string -> exit_code r = 0) /\
      (command = harness_command ->
       json_loads (PyStr.strip (stdout r)) = Decoded (JObj [])).
Hypothesis write_ok :
  forall (path content : string) (w : W),
    P w -> exists w', sandbox_write_file path content w = (Return tt, w') /\ P w'.

Lemma restore_loop_ok (paths : list string) (w : W) :
  P w ->
  exists w',
    for_each paths
      (fun test_file =>
         _ ← sandbox_bash ("git checkout ssr-original -- " +:+ test_file) None;
         mret tt) w
    = (Return tt, w') /\ P w'.
Proof.
  revert w. induction paths as [|p paths IH]; intros w Hw.
  - exists w. split; [reflexivity | exact Hw].
  - cbn [for_each]. unfold bind at 1. unfold mbind, M_bind, bind at 1.
    destruct (bash_ok ("git checkout ssr-original -- " +:+ p) None w Hw)
      as (r & w1 & -> & Hw1 & _).
    cbn. apply IH. exact Hw1.
Qed.

Lemma evaluate_empty_output (artifact : BugArtifact) (attempt : SolverAttempt) (w : W) :
  P w ->
  exists w',
    _evaluate_attempt artifact attempt w
    = (Return (report_of_mapping artifact attempt []), w').
Proof.
  intros Hw.
  assert (Hbody : exists w',
             evaluate_body artifact attempt w
             = (Return (report_of_mapping artifact attempt []), w')).
  { unfold evaluate_body.
    destruct (bash_ok "git checkout ssr-buggy -- ." None w Hw)
      as (r0 & w0 & H0 & Hw0 & _).
    rewrite (run_bind _ _ _ _ _ H0).
    assert (Hearly : exists w1,
               (if truthy (pred_patch attempt)
                then
                  _ ← sandbox_write_file "pred_patch.diff"
                        (default "" (pred_patch attempt));
                  result ← sandbox_bash "patch -p1 < pred_patch.diff" None;
                  if negb (exit_code result =? 0)
                  then mret (Some (failed_report attempt))
                  else mret None
                else mret None) w0 = (Return None, w1) /\ P w1).
    { destruct (truthy (pred_patch attempt)).
      - destruct (write_ok "pred_patch.diff" (default "" (pred_patch attempt)) w0 Hw0)
          as (w1 & H1 & Hw1).
        destruct (bash_ok "patch -p1 < pred_patch.diff" None w1 Hw1)
          as (r1 & w2 & H2 & Hw2 & Hx & _).
        rewrite (run_bind _ _ _ _ _ H1), (run_bind _ _ _ _ _ H2), (Hx eq_refl).
        exists w2. split; [reflexivity | exact Hw2].
      - exists w0. split; [reflexivity | exact Hw0]. }
    destruct Hearly as (w1 & H1 & Hw1).
    rewrite (run_bind _ _ _ _ _ H1).
    destruct (restore_loop_ok (test_files artifact) w1 Hw1) as (w2 & H2 & Hw2).
    rewrite (run_bind _ _ _ _ _ H2).
    destruct (bash_ok harness_command
                (Some (max_test_runtime_sec (metadata artifact) + 30)) w2 Hw2)
      as (r3 & w3 & H3 & _ & _ & Hj).
    rewrite (run_bind _ _ _ _ _ H3), (Hj eq_refl).
    exists w3. reflexivity. }
  destruct Hbody as (w' & Hbody). exists w'.
  unfold _evaluate_attempt, try_except. rewrite Hbody. reflexivity.
Qed.

End EmptyOutputFacts.

(** X15. The evaluator counts an attempt as solved when no test failed,
    also when no test ran: from a state of the sandbox after which no call
    raises, [patch] accepts the predicted patch and the harness output
    decodes to the empty object, [_evaluate_attempt] reports success with
    [tests_total = 0].  The validator's step 3, in contrast, fails on an
    empty baseline map. *)
Theorem empty_harness_output_is_success {W : Type} {SB : SandboxAPI W} {J : Json}
    (P : W -> Prop) (artifact : BugArtifact) (attempt : SolverAttempt) (w : W) :
  (forall (command : string) (t : option Z) (w : W),
      P w ->
      exists r w',
        sandbox_bash command t w = (Return r, w') /\ P w' /\
        (command = "patch -p1 < pred_patch.diff"%string -> exit_code r = 0) /\
        (command = harness_command ->
         json_loads (PyStr.strip (stdout r)) = Decoded (JObj []))) ->
  (forall (path content : string) (w : W),
      P w -> exists w', sandbox_write_file path content w = (Return tt, w') /\ P w') ->
  P w ->
  (exists w',
      EpisodeOrchestrator._evaluate_attempt artifact attempt w
      = (Return (EpisodeOrchestrator.report_of_mapping artifact attempt []), w')) /\
  ev_success (EpisodeOrchestrator.report_of_mapping artifact attempt []) = true /\
  tests_total (EpisodeOrchestrator.report_of_mapping artifact attempt []) = 0 /\
  (forall vc : Validator.ValidationContext,
      Validator.test_mapping vc = Some [] ->
      step_passed (Validator._validate_original_tests artifact vc) = false).
Proof.
  intros Hb Hwr Hw.
  split; [exact (evaluate_empty_output P Hb Hwr artifact attempt w Hw)|].
  split; [reflexivity|]. split; [reflexivity|].
  intros vc Hvc. unfold Validator._validate_original_tests. rewrite Hvc. reflexivity.
Qed.

Lemma empty_harness_output_is_success_witness :
  (exists log,
      @EpisodeOrchestrator._evaluate_attempt _ (Recorder.api empty_output_script)
        loads_empty Scenario.the_artifact Scenario.cheating_attempt []
      = (Return (EpisodeOrchestrator.report_of_mapping Scenario.the_artifact
                   Scenario.cheating_attempt []), log)) /\
  ev_success (EpisodeOrchestrator.report_of_mapping Scenario.the_artifact
                Scenario.cheating_attempt []) = true /\
  tests_total (EpisodeOrchestrator.report_of_mapping Scenario.the_artifact
                 Scenario.cheating_attempt []) = 0 /\
  (forall vc : Validator.ValidationContext,
      Validator.test_mapping vc = Some [] ->
      step_passed (Validator._validate_original_tests Scenario.the_artifact vc) = false).
Proof.
  refine (@empty_harness_output_is_success _ (Recorder.api empty_output_script)
            loads_empty (fun _ => True) Scenario.the_artifact
            Scenario.cheating_attempt [] _ _ I).
  - intros command t log _. cbn.
    destruct (String.eqb_spec command harness_command) as [->|Hne].
    + eexists _, _. split; [reflexivity|]. split; [exact I|].
      split; [discriminate | reflexivity].
    + eexists _, _. split; [reflexivity|]. split; [exact I|].
      split; [reflexivity | contradiction].
  - intros path content log _. eexists. split; [reflexivity | exact I].
Defined.

(** ** The attempt rows *)

Section RowFacts.
Context {W : Type} {SB : SandboxAPI W} {J : Json}
        {C : EpisodeOrchestrator.Collaborators W}.
Import EpisodeOrchestrator.

Implicit Types (e : EpisodeDB) (t : list SolverAttemptDB).

Lemma store_spec_rows (attempt : SolverAttempt) e t :
  triple (_store_solver_attempt attempt) e t
    (fun row e' t' => t' = t ++ [row] /\ row_of attempt row)
    (fun e' t' => t' = t \/ exists row, t' = t ++ [row] /\ row_of attempt row).
Proof.
  unfold _store_solver_attempt.
  apply triple_bind.
  apply triple_weaken
    with (Q := fun ref e' t' =>
                 t' = t /\ (truthy (pred_patch attempt) = true -> ref <> None))
         (E := fun e' t' => t' = t).
  - destruct (truthy (pred_patch attempt)).
    + apply triple_bind. apply triple_lift_any; [intros r|reflexivity].
      apply triple_ret. split; [reflexivity|]. discriminate.
    + apply triple_ret. split; [reflexivity|]. discriminate.
  - intros ref e' t' [-> Href].
    apply triple_bind. apply triple_lift_any; [intros trace|left; reflexivity].
    match goal with
    | |- context [db_add_attempt ?r] =>
        assert (Hrow : row_of attempt r) by (repeat split; exact Href);
        generalize dependent r; intros row Hrow
    end.
    apply triple_bind. apply triple_add.
    apply triple_bind. apply triple_lift_any; [intros _|right; eauto].
    apply triple_bind. apply triple_lift_any; [intros _|right; eauto].
    apply triple_ret. auto.
  - intros e' t' ->. left. reflexivity.
Qed.

Lemma loop_rows (artifact : BugArtifact) (nums : list Z) :
  forall (acc : list SolverAttempt) (succ : Z) e t,
    Forall row_ok t ->
    triple (solver_attempts_loop artifact nums acc succ) e t
      (fun _ e' t' =>
         Forall row_ok t' /\
         map row_attempt_number t' = map row_attempt_number t ++ nums)
      (fun e' t' =>
         Forall row_ok t' /\
         exists done rest,
           nums = done ++ rest /\
           map row_attempt_number t' = map row_attempt_number t ++ done).
Proof.
  induction nums as [|n nums IH]; intros acc succ e t Hok.
  - apply triple_ret. rewrite app_nil_r. auto.
  - assert (Hstay : Forall row_ok t /\
                    exists done rest,
                      n :: nums = done ++ rest /\
                      map row_attempt_number t = map row_attempt_number t ++ done).
    { split; [exact Hok|]. exists [], (n :: nums). rewrite app_nil_r. auto. }
    cbn [solver_attempts_loop].
    apply triple_bind. apply triple_lift_any; [intros _|exact Hstay].
    apply triple_bind.
    apply triple_lift with (P := fun a => success a = false /\ attempt_number a = n).
    { intros w a w' Hrun. unfold solver_run, mbind, M_bind, bind in Hrun.
      destruct (solver_tool_loop artifact n w) as [[r|msg] w1];
        inversion Hrun; subst. split; reflexivity. }
    2: exact Hstay.
    intros attempt [Hs Hn].
    apply triple_bind.
    apply triple_weaken
      with (Q := fun ev e' t' =>
                   t' = t /\ attempt_number ev.1 = n /\
                   (success ev.1 = true -> truthy (pred_patch ev.1) = true))
           (E := fun e' t' => t' = t).
    + destruct (truthy (pred_patch attempt)) eqn:Ht.
      * apply triple_bind. apply triple_lift_any; [intros ev|reflexivity].
        apply triple_ret. cbn. auto.
      * apply triple_ret. cbn. rewrite Hs. repeat split; auto. discriminate.
    + intros ev e' t' (-> & Hnum & Htr).
      apply triple_bind.
      eapply triple_weaken; [apply store_spec_rows| |].
      * cbn beta. intros row e'' t' (-> & Hrn & Hrs & Href).
        assert (Hok' : Forall row_ok (t ++ [row])).
        { apply Forall_app. split; [exact Hok|]. constructor; [|constructor].
          intros Hsucc. apply Href, Htr. rewrite <- Hrs. exact Hsucc. }
        assert (Hmap : map row_attempt_number (t ++ [row])
                       = map row_attempt_number t ++ [n]).
        { rewrite map_app. cbn [map]. rewrite Hrn, Hnum. reflexivity. }
        apply triple_bind. apply triple_lift_any; [intros _|].
        2:{ split; [exact Hok'|]. exists [n], nums. split; [reflexivity | exact Hmap]. }
        eapply triple_weaken; [apply (IH _ _ _ _ Hok')| |].
        -- cbn beta. intros r e3 t3 [Hok3 Hmap3]. split; [exact Hok3|].
           rewrite Hmap3, Hmap, <- app_assoc. reflexivity.
        -- cbn beta. intros e3 t3 (Hok3 & done & rest & Hsplit & Hmap3).
           split; [exact Hok3|]. exists (n :: done), rest.
           split; [cbn; rewrite Hsplit; reflexivity|].
           rewrite Hmap3, Hmap, <- app_assoc. reflexivity.
      * cbn beta. intros e'' t' [->|(row & -> & Hrn & Hrs & Href)]; [exact Hstay|].
        split.
        -- apply Forall_app. split; [exact Hok|]. constructor; [|constructor].
           intros Hsucc. apply Href, Htr. rewrite <- Hrs. exact Hsucc.
        -- exists [n], nums. split; [reflexivity|].
           rewrite map_app. cbn [map]. rewrite Hrn, Hnum. reflexivity.
    + intros e' t' ->. exact Hstay.
Qed.

Lemma rows_ok_nil (cfg : EpisodeConfig) : rows_ok cfg [].
Proof. split; [constructor|]. eexists. reflexivity. Qed.

Lemma fail_episode_rows (cfg : EpisodeConfig) (msg : string) e t :
  rows_ok cfg t ->
  triple (_fail_episode msg) e t (fun _ _ => rows_ok cfg) (fun _ => rows_ok cfg).
Proof.
  intros Hr. unfold _fail_episode.
  apply triple_bind, triple_update.
  apply triple_bind, triple_update.
  apply triple_lift_any; [intros _|]; exact Hr.
Qed.

Lemma handler_rows (cfg : EpisodeConfig) (msg : string) e t :
  rows_ok cfg t ->
  triple (run_episode_handler msg) e t (fun _ _ => rows_ok cfg) (fun _ => rows_ok cfg).
Proof.
  intros Hr. unfold run_episode_handler.
  apply triple_try. apply triple_bind.
  apply triple_lift_any.
  - intros [|].
    + eapply triple_weaken; [apply (fail_episode_rows cfg _ _ _ Hr)|auto|].
      cbn beta. intros e' t' Hr' msg'. apply triple_ret. exact Hr'.
    + apply triple_ret. exact Hr.
  - intros msg'. apply triple_ret. exact Hr.
Qed.

Lemma solve_and_reward_rows (cfg : EpisodeConfig) (artifact : BugArtifact) e :
  triple (solve_and_reward artifact cfg) e []
    (fun _ _ => rows_ok cfg) (fun _ => rows_ok cfg).
Proof.
  pose proof (rows_ok_nil cfg) as Hnil.
  unfold solve_and_reward.
  apply triple_bind, triple_update.
  apply triple_bind. apply triple_lift_any; [intros _|exact Hnil].
  apply triple_bind.
  eapply triple_weaken; [apply loop_rows; constructor| |].
  2:{ cbn beta. intros e' t' (Hok & done & rest & Hsplit & Hmap).
      split; [exact Hok|]. exists rest. cbn [map app] in Hmap.
      rewrite Hmap, <- Hsplit. reflexivity. }
  cbn beta. intros r e' t [Hok Hmap]. cbn [map app] in Hmap.
  assert (Hr : rows_ok cfg t).
  { split; [exact Hok|]. exists []. rewrite app_nil_r. exact Hmap. }
  apply triple_bind, triple_update.
  apply triple_bind. apply triple_lift_any; [intros _|exact Hr].
  apply triple_bind. apply triple_truediv; [intros ? _|exact Hr].
  apply triple_bind, triple_update.
  apply triple_bind, triple_update.
  apply triple_bind. apply triple_truediv; [intros ? _|exact Hr].
  apply triple_bind, triple_update.
  apply triple_bind, triple_update.
  apply triple_lift_any; [intros _|]; exact Hr.
Qed.

Lemma validate_and_continue_rows (cfg : EpisodeConfig) (artifact : BugArtifact) e :
  triple (validate_and_continue artifact cfg) e []
    (fun _ _ => rows_ok cfg) (fun _ => rows_ok cfg).
Proof.
  pose proof (rows_ok_nil cfg) as Hnil.
  unfold validate_and_continue.
  apply triple_bind. apply triple_lift_any; [intros _|exact Hnil].
  apply triple_bind, triple_update.
  apply triple_bind. apply triple_lift_any; [intros _|exact Hnil].
  apply triple_bind, triple_update.
  apply triple_bind. apply triple_lift_any; [intros _|exact Hnil].
  apply triple_bind. apply triple_lift_any; [intros _|exact Hnil].
  apply triple_bind. apply triple_lift_any; [intros report|exact Hnil].
  apply triple_bind. apply triple_lift_any; [intros _|exact Hnil].
  apply triple_bind, triple_update.
  apply triple_bind. apply triple_lift_any; [intros _|exact Hnil].
  destruct (valid report); cbn [negb].
  - apply solve_and_reward_rows.
  - apply triple_bind, triple_update.
    apply triple_bind, triple_update.
    apply triple_lift_any; [intros _|]; exact Hnil.
Qed.

Lemma run_pipeline_rows (cfg : EpisodeConfig) e :
  triple (_run_pipeline cfg) e [] (fun _ _ => rows_ok cfg) (fun _ => rows_ok cfg).
Proof.
  pose proof (rows_ok_nil cfg) as Hnil.
  unfold _run_pipeline, with_sandbox.
  apply triple_bind, triple_update.
  apply triple_bind. apply triple_lift_any; [intros _|exact Hnil].
  apply triple_bind. apply triple_lift_any; [intros _|exact Hnil].
  apply triple_stop_after.
  apply triple_bind. apply triple_lift_any; [intros digest|exact Hnil].
  apply triple_bind, triple_update.
  apply triple_bind. apply triple_lift_any; [intros _|exact Hnil].
  apply triple_bind. apply triple_lift_any; [intros _|exact Hnil].
  apply triple_bind. apply triple_lift_any; [intros [artifact|]|exact Hnil].
  - apply validate_and_continue_rows.
  - apply fail_episode_rows. exact Hnil.
Qed.

Lemma run_episode_rows (cfg : EpisodeConfig) (w : W) :
  rows_ok cfg (attempts_table (run_episode (mkState w (new_episode cfg) [])).2).
Proof.
  pose proof (rows_ok_nil cfg) as Hnil.
  assert (Ht : triple run_episode (new_episode cfg) []
                 (fun _ _ => rows_ok cfg) (fun _ => rows_ok cfg)).
  { unfold run_episode. apply triple_try.
    eapply triple_weaken
      with (Q := fun _ _ => rows_ok cfg) (E := fun _ => rows_ok cfg);
      [| auto | cbn beta; intros e' t' Hs msg; apply handler_rows; exact Hs].
    apply triple_bind. apply triple_lift_any; [intros found|exact Hnil].
    destruct found; cbn [negb]; [|apply triple_ret; exact Hnil].
    apply triple_bind. apply triple_get. cbn.
    apply triple_bind. apply triple_lift_any; [intros _|exact Hnil].
    apply triple_bind. apply triple_lift_any; [intros has_env|exact Hnil].
    destruct has_env; cbn [negb].
    - apply run_pipeline_rows.
    - apply fail_episode_rows. exact Hnil. }
  specialize (Ht w).
  destruct (run_episode (mkState w (new_episode cfg) [])) as [[a|msg] s']; exact Ht.
Qed.

End RowFacts.

(** X16. Whatever the collaborators do and however [run_episode] ends
    (complete, failed, or cut short by an exception), the attempt rows it
    has added are numbered 1, 2, ..., k in order with [k <= N], and every
    row recorded with [success = True] has a stored predicted patch: an
    attempt that submitted nothing is never recorded as solved. *)
Theorem attempt_rows_invariant {W : Type} {SB : SandboxAPI W} {J : Json}
    {C : EpisodeOrchestrator.Collaborators W} (cfg : EpisodeConfig) (w : W) :
  let t := EpisodeOrchestrator.attempts_table
             (EpisodeOrchestrator.run_episode
                (EpisodeOrchestrator.mkState w (EpisodeOrchestrator.new_episode cfg) [])).2 in
  Forall (fun row => EpisodeOrchestrator.row_success row = true ->
                     EpisodeOrchestrator.row_pred_patch_ref row <> None) t /\
  (exists rest,
      map EpisodeOrchestrator.row_attempt_number t ++ rest
      = py_range 1 (solver_attempts cfg + 1)) /\
  (forall (i : nat) (row : EpisodeOrchestrator.SolverAttemptDB),
      t !! i = Some row -> EpisodeOrchestrator.row_attempt_number row = 1 + Z.of_nat i) /\
  Z.of_nat (length t) <= Z.max 0 (solver_attempts cfg).
Proof.
  intros t. destruct (run_episode_rows cfg w) as [Hok [rest Hrest]].
  fold t in Hok, Hrest.
  split; [exact Hok|]. split; [exists rest; exact Hrest|]. split.
  - intros i row Hi. apply (py_range_lookup 1 (solver_attempts cfg + 1)).
    rewrite <- Hrest. rewrite lookup_app_l.
    + rewrite list_lookup_fmap, Hi. reflexivity.
    + rewrite length_map. apply lookup_lt_Some in Hi. exact Hi.
  - assert (Hlen : length (map EpisodeOrchestrator.row_attempt_number t ++ rest)
                   = Z.to_nat (solver_attempts cfg + 1 - 1))
      by (rewrite Hrest; apply py_range_length).
    rewrite length_app, length_map in Hlen. lia.
Qed.

(** ** Object storage *)

Section StorageFacts.
Import S3Storage.

Lemma string_app_assoc (a b c : string) : (a +:+ b) +:+ c = a +:+ b +:+ c.
Proof.
  induction a as [|ch a IH]; [reflexivity|].
  change ((String ch a +:+ b) +:+ c) with (String ch ((a +:+ b) +:+ c)).
  rewrite IH. reflexivity.
Qed.

Lemma drop_append (p s : string) : GitSandbox.drop (String.length p) (p +:+ s) = s.
Proof. induction p as [|c p IH]; [destruct s; reflexivity | exact IH]. Qed.

Lemma split_once_first (sep a b : string) :
  sep <> EmptyString ->
  PyStr.contains sep a = false ->
  (forall a1 a2, a = a1 +:+ a2 -> a2 <> EmptyString ->
                 String.prefix sep (a2 +:+ sep +:+ b) = false) ->
  GitSandbox.split_once sep (a +:+ sep +:+ b) = Some (a, b).
Proof.
  intros Hsep. revert b. induction a as [|c a IH]; intros b Hc Hover.
  - change (EmptyString +:+ sep +:+ b) with (sep +:+ b).
    rewrite split_once_here, drop_append. reflexivity.
  - change (String c a +:+ sep +:+ b) with (String c (a +:+ sep +:+ b)).
    rewrite split_once_skip.
    + rewrite IH; [reflexivity| |].
      * rewrite contains_unfold in Hc. apply orb_false_iff in Hc as [_ Hc]. exact Hc.
      * intros a1 a2 -> Hne. apply (Hover (String c a1) a2); [reflexivity | exact Hne].
    + change (String c (a +:+ sep +:+ b)) with (String c a +:+ sep +:+ b).
      apply (Hover EmptyString (String c a)); [reflexivity | discriminate].
Qed.

Lemma split_once_slash (a b : string) :
  PyStr.contains "/" a = false ->
  GitSandbox.split_once "/" (a +:+ "/" +:+ b) = Some (a, b).
Proof.
  intros Hc. apply split_once_first; [discriminate | exact Hc|].
  intros a1 a2 -> Hne. destruct a2 as [|c a2]; [congruence|].
  change (String c a2 +:+ "/" +:+ b) with (String c (a2 +:+ "/" +:+ b)).
  rewrite prefix_cons.
  destruct (Ascii.eqb_spec "/" c) as [<-|_]; [|reflexivity].
  assert (Ht : PyStr.contains "/" (a1 +:+ String "/" a2) = true)
    by (apply contains_spec; exists a1, a2; reflexivity).
  rewrite Hc in Ht. discriminate Ht.
Qed.

End StorageFacts.

(** X17. Round trip through [S3Storage]: the reference [write] returns
    leads [read] to the object that was written, whatever the store held
    and whatever bucket the reading side is configured with, provided the
    bucket name contains no slash; the reference is split at its first
    slash, so for a bucket name with a slash in it the parsed bucket is
    another one. *)
Theorem s3_write_then_read (bucket other_bucket key content : string)
    (c : S3Storage.client) :
  (PyStr.contains "/" bucket = false ->
   forall ref c',
     S3Storage.write bucket key content c = (Return ref, c') ->
     S3Storage.parse_ref other_bucket ref = (bucket, key) /\
     S3Storage.read other_bucket ref c' = (Return content, c') /\
     S3Storage.exists_ other_bucket ref c' = (Return true, c')) /\
  (forall a b : string,
      PyStr.contains "/" a = false ->
      S3Storage.parse_ref other_bucket ("s3://" +:+ (a +:+ "/" +:+ b) +:+ "/" +:+ key)
      = (a, b +:+ "/" +:+ key)).
Proof.
  assert (Hparse : forall a rest : string,
             PyStr.contains "/" a = false ->
             S3Storage.parse_ref other_bucket ("s3://" +:+ a +:+ "/" +:+ rest)
             = (a, rest)).
  { intros a rest Ha. unfold S3Storage.parse_ref, PyStr.startswith.
    rewrite (prefix_append "s3://" (a +:+ "/" +:+ rest)).
    change 5%nat with (String.length "s3://").
    rewrite (drop_append "s3://" (a +:+ "/" +:+ rest)).
    rewrite (split_once_slash a rest Ha). reflexivity. }
  split.
  - intros Hb ref c' [= <- <-].
    pose proof (Hparse bucket key Hb) as Hp.
    split; [exact Hp|]. unfold S3Storage.read, S3Storage.exists_. rewrite Hp.
    cbv iota beta.
    assert (Hl : <[(bucket, key) := content]> c !! (bucket, key) = Some content)
      by apply lookup_insert_eq.
    rewrite Hl. split; [reflexivity|].
    rewrite bool_decide_eq_true_2 by eauto. reflexivity.
  - intros a b Ha.
    replace ("s3://" +:+ (a +:+ "/" +:+ b) +:+ "/" +:+ key)
      with ("s3://" +:+ a +:+ "/" +:+ (b +:+ "/" +:+ key)).
    + apply Hparse. exact Ha.
    + rewrite (string_app_assoc a ("/" +:+ b) ("/" +:+ key)). reflexivity.
Qed.

Lemma s3_write_then_read_witness :
  PyStr.contains "/" "artifacts" = false /\
  S3Storage.read "other" "s3://artifacts/attempts/t1/pred_patch.diff"
    (<[("artifacts"%string, "attempts/t1/pred_patch.diff"%string) := "a fix"%string]> ∅)
  = (Return "a fix"%string,
     <[("artifacts"%string, "attempts/t1/pred_patch.diff"%string) := "a fix"%string]> ∅).
Proof.
  assert (H : PyStr.contains "/" "artifacts" = false) by reflexivity.
  split; [exact H|].
  exact (proj1 (proj2 (proj1 (s3_write_then_read "artifacts" "other"
                                "attempts/t1/pred_patch.diff" "a fix" ∅) H _ _ eq_refl))).
Defined.

(** ** Metrics *)

Section MetricsFacts.
Import Metrics.




End MetricsFacts.


(** ** The sandbox pool *)

Section PoolFacts.
Import SandboxPool.
Context {W : Type}.
Variable uuid4 : M W Z.
Variable start : sandbox -> M W unit.
Variable stop : sandbox -> M W unit.

Lemma dict_get_set (k : string) (v : list sandbox) (d : list (string * list sandbox)) :
  dict_get k (dict_set k v d) = Some v.
Proof.
  induction d as [|[k' v'] d IH]; cbn [dict_set dict_get].
  - rewrite String.eqb_refl. reflexivity.
  - destruct (String.eqb k k') eqn:E; cbn [dict_get]; rewrite E; [reflexivity | exact IH].
Qed.

Lemma dict_set_set (k : string) (v v' : list sandbox) (d : list (string * list sandbox)) :
  dict_set k v (dict_set k v' d) = dict_set k v d.
Proof.
  induction d as [|[k' v''] d IH]; cbn [dict_set].
  - rewrite String.eqb_refl. reflexivity.
  - destruct (String.eqb k k') eqn:Ek; cbn [dict_set]; rewrite Ek;
      [reflexivity | f_equal; exact IH].
Qed.

Lemma last_removelast_snoc (l : list sandbox) (s d : sandbox) :
  List.last (l ++ [s]) d = s /\ List.removelast (l ++ [s]) = l.
Proof.
  split; [apply List.last_last | apply List.removelast_last].
Qed.

Lemma on_docker_keeps {A} (m : M W A) (p : pool W) :
  max_sandboxes (on_docker m p).2 = max_sandboxes p /\
  _available (on_docker m p).2 = _available p /\
  _in_use (on_docker m p).2 = _in_use p.
Proof.
  unfold on_docker. destruct (m (docker p)) as [r w]. cbn. auto.
Qed.

Lemma size_discard (x : Z) (s : gset Z) : (size (s ∖ {[x]}) <= size s)%nat.
Proof.
  apply subseteq_size. intros y Hy. apply elem_of_difference in Hy as [Hy _]. exact Hy.
Qed.

Lemma size_add (x : Z) (s : gset Z) : (size ({[x]} ∪ s) <= S (size s))%nat.
Proof.
  rewrite size_union_alt, size_singleton.
  pose proof (size_discard x s). lia.
Qed.

Lemma after_bounded (max : Z) (c : call) (p : pool W) :
  recycles c = false -> bounded max p -> bounded max (after uuid4 start stop c p).
Proof.
  intros Hc (Hsize & Hav & Hmax). destruct c as [image|sb recycle|]; cbn [after].
  - unfold acquire. rewrite Hav. cbn [dict_get].
    destruct (Z.leb_spec (max_sandboxes p) (Z.of_nat (size (_in_use p)))) as [Hfull|Hroom].
    + cbn [snd]. repeat split; assumption.
    + unfold bind.
      pose proof (on_docker_keeps uuid4 p) as (K1 & K2 & K3).
      destruct (on_docker uuid4 p) as [[id|e] p1]; cbn [snd] in *.
      2: { unfold bounded. rewrite K1, K2, K3. auto. }
      pose proof (on_docker_keeps (start (mkSandbox id image)) p1) as (L1 & L2 & L3).
      destruct (on_docker (start (mkSandbox id image)) p1) as [[u|e] p2]; cbn [snd] in *.
      2: { unfold bounded. rewrite L1, L2, L3, K1, K2, K3. auto. }
      unfold bounded, set_in_use. cbn [_in_use _available max_sandboxes].
      rewrite L1, L2, L3, K1, K2, K3. repeat split; [|assumption..].
      pose proof (size_add id (_in_use p)). lia.
  - cbn [recycles] in Hc. subst recycle. unfold release.
    match goal with |- bounded _ (on_docker ?m ?q).2 =>
      pose proof (on_docker_keeps m q) as (K1 & K2 & K3) end.
    unfold bounded. rewrite K1, K2, K3. cbn [set_in_use _in_use _available max_sandboxes].
    repeat split; [|assumption..].
    pose proof (size_discard (sandbox_id sb) (_in_use p)). lia.
  - unfold cleanup, bind. rewrite Hav. cbn [for_each]. unfold ret. cbn [snd].
    unfold bounded, set_available. cbn. auto.
Qed.

Lemma after_all_bounded (max : Z) (calls : list call) (p : pool W) :
  forallb (fun c => negb (recycles c)) calls = true ->
  bounded max p -> bounded max (after_all uuid4 start stop calls p).
Proof.
  unfold after_all. revert p. induction calls as [|c calls IH]; intros p Hcs Hp; [exact Hp|].
  cbn [forallb] in Hcs. apply andb_prop in Hcs as [Hc Hcs]. cbn [fold_left].
  apply IH; [exact Hcs|]. apply after_bounded; [|exact Hp].
  destruct (recycles c); [discriminate | reflexivity].
Qed.

Lemma release_then_acquire (sb : sandbox) (p : pool W) :
  acquire uuid4 start (image_ref sb) (release stop sb true p).2
  = (Return sb,
     set_in_use ({[sandbox_id sb]} ∪ (_in_use p ∖ {[sandbox_id sb]}))
       (set_available
          (dict_set (image_ref sb)
             (default [] (dict_get (image_ref sb) (_available p))) (_available p))
          p)).
Proof.
  unfold release. cbn [snd set_in_use _available _in_use max_sandboxes docker].
  set (kept := default [] (dict_get (image_ref sb) (_available p))).
  unfold acquire. cbn [set_available _available _in_use max_sandboxes docker].
  rewrite dict_get_set.
  destruct (kept ++ [sb]) as [|x l] eqn:E.
  { destruct kept; discriminate. }
  rewrite <- E.
  destruct (last_removelast_snoc kept sb x) as [-> ->].
  unfold set_in_use, set_available. cbn [_available _in_use max_sandboxes docker].
  rewrite dict_set_set. reflexivity.
Qed.

End PoolFacts.

(** X19. A pool that is never asked to recycle keeps its limit: after any
    sequence of [acquire], [release] without [recycle] and [cleanup] calls
    on a new pool, whatever Docker does and however each call ends, at
    most [max_sandboxes] sandboxes are in use and none is kept
    available. *)
Theorem pool_limit_without_recycling {W : Type} (uuid4 : M W Z)
    (start stop : SandboxPool.sandbox -> M W unit) (max : Z) (w : W)
    (calls : list SandboxPool.call) :
  forallb (fun c => negb (SandboxPool.recycles c)) calls = true ->
  let p := SandboxPool.after_all uuid4 start stop calls (SandboxPool.init max w) in
  Z.of_nat (size (SandboxPool._in_use p)) <= Z.max 0 max /\
  SandboxPool._available p = [] /\
  SandboxPool.max_sandboxes p = max.
Proof.
  intros Hcalls p. apply (after_all_bounded uuid4 start stop max calls _ Hcalls).
  unfold SandboxPool.bounded, SandboxPool.init. cbn. rewrite size_empty. repeat split. lia.
Qed.

Lemma pool_limit_without_recycling_witness :
  let calls := [SandboxPool.Acquire "a"; SandboxPool.Acquire "b";
                SandboxPool.Release (SandboxPool.mkSandbox 1 "a") false;
                SandboxPool.Acquire "c"; SandboxPool.Cleanup] in
  let p := SandboxPool.after_all SandboxPool.counting_uuid4 SandboxPool.no_op
             SandboxPool.no_op calls (SandboxPool.init 1 0) in
  forallb (fun c => negb (SandboxPool.recycles c)) calls = true /\
  Z.of_nat (size (SandboxPool._in_use p)) <= Z.max 0 1 /\
  SandboxPool._available p = [] /\
  SandboxPool.max_sandboxes p = 1.
Proof.
  split; [reflexivity|].
  apply (pool_limit_without_recycling SandboxPool.counting_uuid4 SandboxPool.no_op
           SandboxPool.no_op 1 0). reflexivity.
Defined.

(** X20. [acquire] hands out a recycled sandbox without looking at the
    limit: after [release(sandbox, recycle=True)], the next [acquire] for
    the sandbox's image returns that very sandbox, makes no Docker call
    and adds one to the number in use, whatever [max_sandboxes] is and
    however many are in use.  So a pool of limit 1 can have two sandboxes
    in use. *)
Theorem recycled_sandbox_skips_limit {W : Type} (uuid4 : M W Z)
    (start stop : SandboxPool.sandbox -> M W unit) (sb : SandboxPool.sandbox)
    (p : SandboxPool.pool W) :
  let p1 := (SandboxPool.release stop sb true p).2 in
  let r := SandboxPool.acquire uuid4 start (SandboxPool.image_ref sb) p1 in
  r.1 = Return sb /\
  SandboxPool.docker r.2 = SandboxPool.docker p /\
  SandboxPool._in_use r.2 = {[SandboxPool.sandbox_id sb]} ∪ SandboxPool._in_use p /\
  size (SandboxPool._in_use r.2) = S (size (SandboxPool._in_use p1)) /\
  let calls := [SandboxPool.Acquire "a";
                SandboxPool.Release (SandboxPool.mkSandbox 1 "a") true;
                SandboxPool.Acquire "b"; SandboxPool.Acquire "a"] in
  let q := SandboxPool.after_all SandboxPool.counting_uuid4 SandboxPool.no_op
             SandboxPool.no_op calls (SandboxPool.init 1 0) in
  SandboxPool.max_sandboxes q = 1 /\ size (SandboxPool._in_use q) = 2%nat.
Proof.
  intros p1 r. unfold r, p1. rewrite release_then_acquire.
  cbn [fst snd SandboxPool.set_in_use SandboxPool.set_available SandboxPool._in_use
       SandboxPool.docker].
  split; [reflexivity|]. split; [reflexivity|]. split.
  { apply set_eq. intros x. rewrite !elem_of_union, elem_of_difference, !elem_of_singleton.
    destruct (decide (x = SandboxPool.sandbox_id sb)); tauto. }
  split.
  { unfold SandboxPool.release. cbn.
    rewrite size_union, size_singleton; [reflexivity|].
    intros x Hx Hx'. apply elem_of_difference in Hx' as [_ Hx']. exact (Hx' Hx). }
  split; vm_compute; reflexivity.
Qed.
